(** * Machine-identifier reset: a shallow embedding of [reset_mashine_id.py]

    The development follows the class [MachineIDResetter]: the identifier
    generator, the backup of the current identifiers, the four store
    mutators, the running-process check and the orchestrator
    [reset_machine_ids].  Storage, console and operating-system services
    are modelled by an explicit [World] that the functions thread through a
    small state-and-exception monad; everything the outside decides (tool
    results, random draws, clock readings, I/O failures) is read from an
    [Env]. *)

From stdpp Require Import gmap strings list fin_maps.
From Stdlib Require Import ZArith Ascii String Lia.

#[local] Set Warnings "-register-all".
#[local] Open Scope string_scope.

(** ** Python values and the string methods the script uses *)

Module Py.

(** Values that [json.load] and a SQLite row can hand to the script.
    Floating-point numbers are left out. *)
Inductive pyval :=
  | PNone
  | PBool (b : bool)
  | PInt (z : Z)
  | PStr (s : string)
  | PBytes (s : string)
  | PList (l : list pyval)
  | PDict (d : list (string * pyval)).

(** Python truth value, as tested by [not current_ids.get(key)]. *)
Definition truthy (v : pyval) : bool :=
  match v with
  | PNone => false
  | PBool b => b
  | PInt z => negb (z =? 0)%Z
  | PStr s | PBytes s => negb (String.eqb s EmptyString)
  | PList l => match l with [] => false | _ => true end
  | PDict d => match d with [] => false | _ => true end
  end.

(** Truth value of [d.get(k)]: a missing key gives [None], which is false. *)
Definition truthy_get (o : option pyval) : bool :=
  match o with Some v => truthy v | None => false end.

(** What [json.dump] accepts: it raises [TypeError] on [bytes]. *)
Fixpoint serialisable (v : pyval) : bool :=
  match v with
  | PBytes _ => false
  | PList l => forallb serialisable l
  | PDict d => forallb (fun kv => serialisable (snd kv)) d
  | _ => true
  end.

Definition lower_ascii (c : ascii) : ascii :=
  let n := nat_of_ascii c in
  if (65 <=? n)%nat && (n <=? 90)%nat then ascii_of_nat (n + 32) else c.

(** [s.lower()] *)
Fixpoint lower (s : string) : string :=
  match s with
  | EmptyString => EmptyString
  | String c s' => String (lower_ascii c) (lower s')
  end.

Fixpoint mem_ascii (c : ascii) (cs : string) : bool :=
  match cs with
  | EmptyString => false
  | String d cs' => Ascii.eqb c d || mem_ascii c cs'
  end.

(** *** Text taken apart character by character

    The output of a tool is a [str] that the script strips, splits and
    reads as a number.  It is modelled by the list of its Unicode code
    points, so that a character is one element whatever its encoding. *)
Definition text : Type := list N.

(** The text of a string literal of the script; they are all ASCII. *)
Definition lit (s : string) : text := N_of_ascii <$> list_ascii_of_string s.

(** [Py_UNICODE_ISSPACE]: the characters removed by [s.strip()] and those
    for which [c.isspace()] holds. *)
Definition is_space (c : N) : bool :=
  ((0x09 <=? c) && (c <=? 0x0D) || (0x1C <=? c) && (c <=? 0x20) ||
   (c =? 0x85) || (c =? 0xA0) || (c =? 0x1680) ||
   (0x2000 <=? c) && (c <=? 0x200A) || (c =? 0x2028) || (c =? 0x2029) ||
   (c =? 0x202F) || (c =? 0x205F) || (c =? 0x3000))%N.

Fixpoint lstrip_by (f : N -> bool) (s : text) : text :=
  match s with
  | [] => []
  | c :: s' => if f c then lstrip_by f s' else s
  end.

Fixpoint rstrip_by (f : N -> bool) (s : text) : text :=
  match s with
  | [] => []
  | c :: s' =>
      match rstrip_by f s' with
      | [] => if f c then [] else [c]
      | t => c :: t
      end
  end.

(** [s.strip()] *)
Definition strip (s : text) : text :=
  rstrip_by is_space (lstrip_by is_space s).

(** [s.strip(chars)] *)
Definition strip_chars (chars s : text) : text :=
  rstrip_by (fun c => bool_decide (c ∈ chars))
            (lstrip_by (fun c => bool_decide (c ∈ chars)) s).

(** [s.startswith(p)] *)
Fixpoint startswith (p s : text) : bool :=
  match p, s with
  | [], _ => true
  | a :: p', b :: s' => (a =? b)%N && startswith p' s'
  | _ :: _, [] => false
  end.

(** [sub in s] *)
Fixpoint contains (sub s : text) : bool :=
  startswith sub s ||
  match s with
  | [] => false
  | _ :: s' => contains sub s'
  end.

Fixpoint split_aux (sep s : text) (skip : nat) (cur : text) : list text :=
  match s with
  | [] => [cur]
  | c :: s' =>
      match skip with
      | S k => split_aux sep s' k cur
      | O =>
          if startswith sep s
          then cur :: split_aux sep s' (List.length sep - 1) []
          else split_aux sep s' 0 (cur ++ [c])%list
      end
  end.

(** [s.split(sep)] for a non-empty separator. *)
Definition split (sep s : text) : list text := split_aux sep s 0 [].

(** *** [int(s)]

    What [int] needs to know of the interpreter that runs the script. *)
Record interpreter := mkInterpreter {
  (* Py_UNICODE_TODECIMAL beyond ASCII: the digit value of a decimal digit
     of the interpreter's Unicode database *)
  to_decimal : N -> option N;
  (* sys.get_int_max_str_digits(); 0 when the interpreter has no limit *)
  int_max_str_digits : N
}.

(** [_PyUnicode_TransformDecimalAndSpaceToASCII], the loop: characters
    below 127 are kept, other whitespace becomes a space, other decimal
    digits become ASCII digits, and the first character that is neither
    ends the buffer with a question mark. *)
Fixpoint transform_decimal_and_space (py : interpreter) (s : text) : text :=
  match s with
  | [] => []
  | c :: s' =>
      if (c <? 127)%N then c :: transform_decimal_and_space py s'
      else if is_space c then 0x20%N :: transform_decimal_and_space py s'
      else
        match to_decimal py c with
        | Some d => (0x30 + d)%N :: transform_decimal_and_space py s'
        | None => [0x3F%N]
        end
  end.

(** An ASCII string is handed over as it is. *)
Definition to_ascii_decimal (py : interpreter) (s : text) : text :=
  if forallb (fun c => (c <? 128)%N) s then s
  else transform_decimal_and_space py s.

(** [Py_ISSPACE] of the C locale: the whitespace that [int] skips before
    and after the number. *)
Definition is_c_space (c : N) : bool :=
  ((0x09 <=? c) && (c <=? 0x0D) || (c =? 0x20))%N.

Definition digit_of (c : N) : option Z :=
  if ((0x30 <=? c) && (c <=? 0x39))%N then Some (Z.of_N (c - 0x30)) else None.

(** The scan of [PyLong_FromString] over digits and underscores: the value
    read, the number of digits and the rest of the buffer.  [None]: two
    underscores in a row, or one at the end of the digits. *)
Fixpoint scan_digits (s : text) (acc : Z) (digits : N) (prev_underscore : bool)
    : option (Z * N * text) :=
  match s with
  | [] => if prev_underscore then None else Some (acc, digits, [])
  | c :: s' =>
      match digit_of c with
      | Some d => scan_digits s' (10 * acc + d)%Z (digits + 1)%N false
      | None =>
          if (c =? 0x5F)%N
          then if prev_underscore then None else scan_digits s' acc digits true
          else if prev_underscore then None else Some (acc, digits, s)
      end
  end.

(** The guard against very long numerals: it looks at the limit only
    above 640 digits, and a limit of 0 switches it off. *)
Definition over_digit_limit (py : interpreter) (digits : N) : bool :=
  ((640 <? digits) && (0 <? int_max_str_digits py) &&
   (int_max_str_digits py <? digits))%N.

(** [PyLong_FromString(buffer, &end, 10)] together with the test that the
    whole buffer was read, which also rejects a NUL character. *)
Definition long_from_string (py : interpreter) (buffer : text) : option Z :=
  let str := lstrip_by is_c_space buffer in
  let '(negative, str) :=
    match str with
    | 0x2B%N :: t => (false, t)
    | 0x2D%N :: t => (true, t)
    | _ => (false, str)
    end in
  match str with
  | 0x5F%N :: _ => None
  | _ =>
      match scan_digits str 0 0 false with
      | None => None
      | Some (value, digits, rest) =>
          if (digits =? 0)%N then None
          else if over_digit_limit py digits then None
          else
            match lstrip_by is_c_space rest with
            | [] => Some (if negative then (- value)%Z else value)
            | _ :: _ => None
            end
      end
  end.

(** [int(s)] on a [str]; [None] stands for [ValueError]. *)
Definition int (py : interpreter) (s : text) : option Z :=
  long_from_string py (to_ascii_decimal py s).

(** The decimal digits beyond ASCII come in runs of ten, zero first. These
    are the zeros of Unicode 14.0. *)
Definition DECIMAL_ZEROS : list N :=
  [0x660; 0x6F0; 0x7C0; 0x966; 0x9E6; 0xA66; 0xAE6; 0xB66; 0xBE6; 0xC66;
   0xCE6; 0xD66; 0xDE6; 0xE50; 0xED0; 0xF20; 0x1040; 0x1090; 0x17E0; 0x1810;
   0x1946; 0x19D0; 0x1A80; 0x1A90; 0x1B50; 0x1BB0; 0x1C40; 0x1C50; 0xA620;
   0xA8D0; 0xA900; 0xA9D0; 0xA9F0; 0xAA50; 0xABF0; 0xFF10; 0x104A0; 0x10D30;
   0x11066; 0x110F0; 0x11136; 0x111D0; 0x112F0; 0x11450; 0x114D0; 0x11650;
   0x116C0; 0x11730; 0x118E0; 0x11950; 0x11C50; 0x11D50; 0x11DA0; 0x16A60;
   0x16AC0; 0x16B50; 0x1D7CE; 0x1D7D8; 0x1D7E2; 0x1D7EC; 0x1D7F6; 0x1E140;
   0x1E2F0; 0x1E950; 0x1FBF0]%N.

Definition decimal_in (zeros : list N) (c : N) : option N :=
  (fun z => (c - z)%N) <$> List.find (fun z => (z <=? c)%N && (c <? z + 10)%N) zeros.

(** CPython 3.11 with its default settings. *)
Definition cpython : interpreter := mkInterpreter (decimal_in DECIMAL_ZEROS) 4300.

End Py.

Export Py.

(** ** [uuid.uuid4] and [str(UUID)] *)

Module Uuid.

(** [UUID(bytes=os.urandom(16), version=4)]: the sixteen random bytes read
    as an integer, with the variant and version bits forced. *)
Definition uuid4_int (r : Z) : Z :=
  let i0 := (r mod 2 ^ 128)%Z in
  let i1 := Z.land i0 (Z.lnot (Z.shiftl 0xc000 48)) in
  let i2 := Z.lor i1 (Z.shiftl 0x8000 48) in
  let i3 := Z.land i2 (Z.lnot (Z.shiftl 0xf000 64)) in
  Z.lor i3 (Z.shiftl 4 76).

Definition hex_digit (d : Z) : ascii :=
  if (d <? 10)%Z then ascii_of_nat (48 + Z.to_nat d)
  else ascii_of_nat (87 + Z.to_nat d).

(** ['%0kx' % n]: the [k] low hexadecimal digits of [n], high digit first. *)
Fixpoint hex_digits (k : nat) (n : Z) : list ascii :=
  match k with
  | O => []
  | S k' => hex_digits k' (n / 16) ++ [hex_digit (n mod 16)]
  end.

(** ['%s-%s-%s-%s-%s' % (hex[:8], hex[8:12], hex[12:16], hex[16:20], hex[20:])] *)
Definition dashed (h : list ascii) : list ascii :=
  take 8 h ++ "-"%char ::
  take 4 (drop 8 h) ++ "-"%char ::
  take 4 (drop 12 h) ++ "-"%char ::
  take 4 (drop 16 h) ++ "-"%char ::
  drop 20 h.

(** [str(u)] for a UUID whose integer is [n]. *)
Definition uuid_str (n : Z) : string :=
  string_of_list_ascii (dashed (hex_digits 32 n)).

Definition is_lower_hex (c : ascii) : bool :=
  let n := nat_of_ascii c in
  ((48 <=? n)%nat && (n <=? 57)%nat) || ((97 <=? n)%nat && (n <=? 102)%nat).

(** The 36-character token format: 8-4-4-4-12 lowercase hexadecimal groups. *)
Definition is_token_chars (l : list ascii) : bool :=
  (List.length l =? 36)%nat &&
  forallb (fun ic : nat * ascii =>
             if bool_decide (fst ic ∈ [8; 13; 18; 23]%nat)
             then Ascii.eqb (snd ic) "-"
             else is_lower_hex (snd ic))
          (imap (fun i c => (i, c)) l).

Definition is_token (s : string) : bool := is_token_chars (list_ascii_of_string s).

End Uuid.

Export Uuid.

(** ** Storage, console and environment *)

(** The files the script touches.  [StorageJson] is [self.db_path],
    [StateVscdb] is [self.sqlite_path] and [MachineIdFile] is the result of
    [get_cursor_machine_id_path]; the three backup names carry the
    timestamp that the script puts in the file name. *)
Inductive path :=
  | StorageJson
  | StateVscdb
  | MachineIdFile
  | IdsBackup (ts : string)            (* dirname(db_path)/storage.json.bak.<ts> *)
  | StorageRestoreBak (ts : string)    (* <db_path>.restore_bak.<ts> *)
  | MachineIdRestoreBak (ts : string). (* <machine_id_path>.restore_bak.<ts> *)

#[global] Instance path_eq_dec : EqDecision path.
Proof. solve_decision. Defined.

Definition path_code (p : path) : nat * string :=
  match p with
  | StorageJson => (0, EmptyString)
  | StateVscdb => (1, EmptyString)
  | MachineIdFile => (2, EmptyString)
  | IdsBackup ts => (3, ts)
  | StorageRestoreBak ts => (4, ts)
  | MachineIdRestoreBak ts => (5, ts)
  end.

Definition path_decode (c : nat * string) : path :=
  match c with
  | (0, _) => StorageJson
  | (1, _) => StateVscdb
  | (2, _) => MachineIdFile
  | (3, ts) => IdsBackup ts
  | (4, ts) => StorageRestoreBak ts
  | (_, ts) => MachineIdRestoreBak ts
  end.

#[global] Instance path_countable : Countable path.
Proof.
  apply (inj_countable' path_code path_decode).
  intros []; reflexivity.
Defined.

(** A file seen through the reader that the script applies to it:
    [CJson] is text that [json.load] parses, [CDb] a SQLite database with
    or without its [ItemTable], [CText] any other text. *)
Inductive json_doc :=
  | JObject (m : gmap string pyval)   (* a JSON object, loaded as a dict *)
  | JNonObject (v : pyval).           (* any other JSON value *)

Inductive content :=
  | CJson (j : json_doc)
  | CDb (item_table : option (gmap string pyval))
  | CText (s : string).

Inductive regkey :=
  | Cryptography   (* HKLM\SOFTWARE\Microsoft\Cryptography, value MachineGuid *)
  | SQMClient.     (* HKLM\SOFTWARE\Microsoft\SQMClient, value MachineId *)

Inductive exn :=
  | EOFError | OSError | PermissionError | FileNotFoundError
  | JSONDecodeError | AttributeError | TypeError | DatabaseError
  | TimeoutExpired | ImportError | UnboundLocalError.

Inductive colour := Red | Yellow | Green | Cyan | Plain.

(** One constructor for each message the script prints. *)
Inductive msg :=
  | MGeneratingNewIds | MBackingUpCurrent
  | MWarnStorageRead | MWarnSqliteRead
  | MBackupSaved (ts : string) | MNoCurrentIds | MBackupError
  | MCurrentFileNotFound | MCurrentBackupCreated (ts : string)
  | MStorageUpdated | MUpdateFailed
  | MSqliteNotFound | MUpdatingSqlite | MUpdatingPair (k : string)
  | MSqliteUpdated | MSqliteUpdateFailed
  | MMachineIdBackupCreated (ts : string) | MBackupCreationFailed
  | MMachineIdUpdated | MMachineIdUpdateFailed
  | MUpdatingSystemIds | MSystemIdsUpdateFailed
  | MWindowsMachineGuidUpdated | MPermissionDenied
  | MUpdateWindowsMachineGuidFailed | MWindowsMachineIdUpdated
  | MSqmClientKeyNotFound | MUpdateWindowsMachineIdFailed
  | MUpdateWindowsSystemIdsFailed
  | MMacosPlatformUuidUpdated | MFailedPlutil | MUpdateMacosFailed
  | MStarting
  | MCursorRunning (pid : option Z) | MRecommendClose | MPromptContinue
  | MOperationCancelled
  | MFilesNotFound | MExpectedPaths | MExpectedPath (p : path)
  | MIdsToReset | MShowId (k v : string)
  | MPromptConfirm
  | MSuccess | MRestartCursor
  | MProcessError.

(** The [Fore] colour each message is printed in. *)
Definition colour_of (m : msg) : colour :=
  match m with
  | MBackupError | MCurrentFileNotFound | MUpdateFailed | MSqliteNotFound
  | MSqliteUpdateFailed | MMachineIdUpdateFailed | MSystemIdsUpdateFailed
  | MPermissionDenied | MUpdateWindowsMachineGuidFailed
  | MUpdateWindowsMachineIdFailed | MUpdateWindowsSystemIdsFailed
  | MFailedPlutil | MUpdateMacosFailed | MFilesNotFound | MProcessError => Red
  | MWarnStorageRead | MWarnSqliteRead | MNoCurrentIds | MBackupCreationFailed
  | MSqmClientKeyNotFound | MCursorRunning _ | MRecommendClose
  | MPromptContinue | MOperationCancelled => Yellow
  | MBackupSaved _ | MCurrentBackupCreated _ | MStorageUpdated | MSqliteUpdated
  | MMachineIdBackupCreated _ | MMachineIdUpdated | MWindowsMachineGuidUpdated
  | MWindowsMachineIdUpdated | MMacosPlatformUuidUpdated | MSuccess => Green
  | MGeneratingNewIds | MBackingUpCurrent | MUpdatingSqlite | MUpdatingPair _
  | MUpdatingSystemIds | MStarting | MExpectedPaths | MIdsToReset
  | MRestartCursor => Cyan
  | MShowId _ _ | MPromptConfirm | MExpectedPath _ => Plain
  end.

(** The storage technologies of the specification. *)
Inductive backend := JsonStore | EmbeddedStore | MarkerFile | PlatformRegistry.

#[global] Instance backend_eq_dec : EqDecision backend.
Proof. solve_decision. Defined.

(** The backend a message reports on, if any. *)
Definition reports_on (m : msg) : option backend :=
  match m with
  | MCurrentFileNotFound | MCurrentBackupCreated _ | MStorageUpdated
  | MUpdateFailed => Some JsonStore
  | MSqliteNotFound | MUpdatingSqlite | MUpdatingPair _ | MSqliteUpdated
  | MSqliteUpdateFailed => Some EmbeddedStore
  | MMachineIdBackupCreated _ | MBackupCreationFailed | MMachineIdUpdated
  | MMachineIdUpdateFailed => Some MarkerFile
  | MUpdatingSystemIds | MSystemIdsUpdateFailed | MWindowsMachineGuidUpdated
  | MPermissionDenied | MUpdateWindowsMachineGuidFailed
  | MWindowsMachineIdUpdated | MSqmClientKeyNotFound
  | MUpdateWindowsMachineIdFailed | MUpdateWindowsSystemIdsFailed
  | MMacosPlatformUuidUpdated | MFailedPlutil | MUpdateMacosFailed =>
      Some PlatformRegistry
  | _ => None
  end.

(** Storage operations, journalled in the order they take effect. *)
Inductive op :=
  | OpWrite (p : path) (c : content)   (* open(p, "w") and a completed write *)
  | OpTruncate (p : path)              (* open(p, "w") whose write then failed *)
  | OpCopy (src dst : path)            (* shutil.copy2 *)
  | OpMakedirs (p : path)              (* os.makedirs(dirname(p), exist_ok=True) *)
  | OpCreateTable                      (* CREATE TABLE IF NOT EXISTS, table was absent *)
  | OpUpsert (k v : string)            (* INSERT OR REPLACE, inside the transaction *)
  | OpCommit (rows : gmap string pyval) (* conn.commit(): the table afterwards *)
  | OpRegSet (k : regkey) (v : string) (* winreg.SetValueEx *)
  | OpPlutil (v : string).             (* plutil -replace UUID, exit status 0 *)

(** The backend whose live storage an operation changes. *)
Definition mutates (o : op) : option backend :=
  match o with
  | OpWrite StorageJson _ | OpTruncate StorageJson => Some JsonStore
  | OpWrite StateVscdb _ | OpTruncate StateVscdb => Some EmbeddedStore
  | OpCreateTable | OpUpsert _ _ | OpCommit _ => Some EmbeddedStore
  | OpWrite MachineIdFile _ | OpTruncate MachineIdFile => Some MarkerFile
  | OpRegSet _ _ | OpPlutil _ => Some PlatformRegistry
  | OpCopy _ StorageJson => Some JsonStore
  | OpCopy _ StateVscdb => Some EmbeddedStore
  | OpCopy _ MachineIdFile => Some MarkerFile
  | _ => None
  end.

Record World := mkWorld {
  fs : gmap path content;             (* files that exist, with their content *)
  machine_guid : option string;       (* Cryptography!MachineGuid *)
  sqm_machine_id : option string;     (* SQMClient!MachineId *)
  platform_uuid : option string;      (* UUID of the platform plist; None: no file *)
  stdin : list string;                (* lines the operator will type *)
  drawn : nat;                        (* os.urandom calls made so far *)
  stdout : list msg;                  (* messages printed so far *)
  journal : list op                   (* storage operations so far *)
}.

Inductive tool_result :=
  | ToolRaises (e : exn)                        (* subprocess.run raised *)
  | ToolDone (returncode : Z) (out : text).     (* CompletedProcess *)

(** Places where an operating-system call can fail. *)
Inductive site :=
  | BkOpenStorage | BkConnect | BkCreateTable | BkSelect (k : string)
  | BkOpenBackup | BkDumpBackup
  | UcfOpenStorage | UcfCopy | UcfOpenWrite | UcfDump
  | UsdConnect | UsdCreateTable | UsdUpsert (k : string) | UsdCommit
  | UmfMakedirs | UmfCopy | UmfOpenWrite | UmfWrite
  | WinImport | RegOpen (k : regkey) | RegSetValue (k : regkey)
  | ImportSubprocess.

Inductive clock_site := TsIdsBackup | TsStorageRestore | TsMachineIdRestore.

Record Env := mkEnv {
  platform : string;                  (* sys.platform *)
  python : interpreter;               (* what int() asks of the interpreter *)
  tasklist : tool_result;
  wmic : tool_result;
  pgrep : tool_result;
  urandom : nat -> Z;                 (* the n-th os.urandom(16), as an integer *)
  now : clock_site -> string;         (* datetime.now().strftime(...) *)
  fault : site -> option exn;         (* Some e: the call raises e *)
  plutil_status : Z                   (* exit status of the plutil command *)
}.

(** ** The state-and-exception monad *)

Inductive outcome (A : Type) :=
  | Ret (a : A)
  | Raise (e : exn).
Arguments Ret {A} a.
Arguments Raise {A} e.

Definition M (A : Type) : Type := World -> outcome A * World.

Definition ret {A} (a : A) : M A := fun w => (Ret a, w).

Definition bind {A B} (c : M A) (f : A -> M B) : M B :=
  fun w => match c w with
           | (Ret a, w') => f a w'
           | (Raise e, w') => (Raise e, w')
           end.

Definition raise {A} (e : exn) : M A := fun w => (Raise e, w).

(** [try: c  except Exception as e: h e] *)
Definition try_except {A} (c : M A) (h : exn -> M A) : M A :=
  fun w => match c w with
           | (Ret a, w') => (Ret a, w')
           | (Raise e, w') => h e w'
           end.

Definition gets {A} (f : World -> A) : M A := fun w => (Ret (f w), w).

Definition modify (f : World -> World) : M unit := fun w => (Ret tt, f w).

Declare Scope m_scope.
Delimit Scope m_scope with M.
Notation "x <- c ;; k" := (bind c (fun x => k))
  (at level 100, c at next level, right associativity) : m_scope.
Notation "c ;; k" := (bind c (fun _ => k))
  (at level 100, right associativity) : m_scope.
#[local] Open Scope m_scope.

(** ** Primitive effects *)

Definition set_fs (f : gmap path content) (w : World) : World :=
  mkWorld f (machine_guid w) (sqm_machine_id w) (platform_uuid w)
          (stdin w) (drawn w) (stdout w) (journal w).

Definition set_reg (k : regkey) (v : string) (w : World) : World :=
  match k with
  | Cryptography =>
      mkWorld (fs w) (Some v) (sqm_machine_id w) (platform_uuid w)
              (stdin w) (drawn w) (stdout w) (journal w)
  | SQMClient =>
      mkWorld (fs w) (machine_guid w) (Some v) (platform_uuid w)
              (stdin w) (drawn w) (stdout w) (journal w)
  end.

Definition set_platform_uuid (v : string) (w : World) : World :=
  mkWorld (fs w) (machine_guid w) (sqm_machine_id w) (Some v)
          (stdin w) (drawn w) (stdout w) (journal w).

Definition set_stdin (l : list string) (w : World) : World :=
  mkWorld (fs w) (machine_guid w) (sqm_machine_id w) (platform_uuid w)
          l (drawn w) (stdout w) (journal w).

Definition set_drawn (n : nat) (w : World) : World :=
  mkWorld (fs w) (machine_guid w) (sqm_machine_id w) (platform_uuid w)
          (stdin w) n (stdout w) (journal w).

Definition add_out (m : msg) (w : World) : World :=
  mkWorld (fs w) (machine_guid w) (sqm_machine_id w) (platform_uuid w)
          (stdin w) (drawn w) (stdout w ++ [m]) (journal w).

Definition add_op (o : op) (w : World) : World :=
  mkWorld (fs w) (machine_guid w) (sqm_machine_id w) (platform_uuid w)
          (stdin w) (drawn w) (stdout w) (journal w ++ [o]).

(** [print(...)] *)
Definition print (m : msg) : M unit := modify (add_out m).

(** [input(prompt)]: [EOFError] when no line is left. *)
Definition input (prompt : msg) : M string :=
  print prompt ;;
  l <- gets stdin ;;
  match l with
  | [] => raise EOFError
  | a :: rest => modify (set_stdin rest) ;; ret a
  end.

(** [os.path.exists(p)] *)
Definition path_exists (p : path) : M bool :=
  gets (fun w => bool_decide (is_Some (fs w !! p))).

(** A call that raises when the environment says so. *)
Definition attempt (env : Env) (s : site) : M unit :=
  match fault env s with
  | Some e => raise e
  | None => ret tt
  end.

(** What a storage operation does to the world. *)
Definition effect (o : op) (w : World) : World :=
  match o with
  | OpWrite p c => set_fs (<[p := c]> (fs w)) w
  | OpTruncate p => set_fs (<[p := CText EmptyString]> (fs w)) w
  | OpCopy src dst =>
      match fs w !! src with
      | Some c => set_fs (<[dst := c]> (fs w)) w
      | None => w
      end
  | OpMakedirs _ => w
  | OpCreateTable => set_fs (<[StateVscdb := CDb (Some ∅)]> (fs w)) w
  | OpUpsert _ _ => w
  | OpCommit rows => set_fs (<[StateVscdb := CDb (Some rows)]> (fs w)) w
  | OpRegSet k v => set_reg k v w
  | OpPlutil v => set_platform_uuid v w
  end.

(** Every change of storage goes through [perform], which journals it. *)
Definition perform (o : op) : M unit := modify (fun w => add_op o (effect o w)).

(** [with open(p, "r") as f: json.load(f)] *)
Definition load_json (env : Env) (s : site) (p : path) : M json_doc :=
  attempt env s ;;
  c <- gets (fun w => fs w !! p) ;;
  match c with
  | Some (CJson j) => ret j
  | Some _ => raise JSONDecodeError
  | None => raise FileNotFoundError
  end.

(** [with open(p, "w") as f: json.dump(d, f, indent=4)].  Opening truncates
    the file; a failure after that leaves it without a document. *)
Definition dump_json (env : Env) (s_open s_dump : site) (p : path)
    (d : gmap string pyval) : M unit :=
  attempt env s_open ;;
  if negb (bool_decide (map_Forall (fun _ v => serialisable v = true) d))
  then perform (OpTruncate p) ;; raise TypeError
  else
    match fault env s_dump with
    | Some e => perform (OpTruncate p) ;; raise e
    | None => perform (OpWrite p (CJson (JObject d)))
    end.

(** [shutil.copy2(src, dst)] *)
Definition copy2 (env : Env) (s : site) (src dst : path) : M unit :=
  attempt env s ;;
  c <- gets (fun w => fs w !! src) ;;
  match c with
  | Some _ => perform (OpCopy src dst)
  | None => raise FileNotFoundError
  end.

(** The [ItemTable] of a file opened by [sqlite3]: an empty file is an empty
    database, other non-database files make the first statement raise. *)
Definition as_db (c : content) : option (option (gmap string pyval)) :=
  match c with
  | CDb t => Some t
  | CText EmptyString => Some None
  | _ => None
  end.

(** [CREATE TABLE IF NOT EXISTS ItemTable (key TEXT PRIMARY KEY, value TEXT)].
    The statement runs outside a transaction, so a table it creates is in
    the file at once.  Returns the rows of the table. *)
Definition create_item_table (env : Env) (s : site) : M (gmap string pyval) :=
  attempt env s ;;
  c <- gets (fun w => fs w !! StateVscdb) ;;
  match c ≫= as_db with
  | None => raise DatabaseError
  | Some (Some rows) => ret rows
  | Some None => perform OpCreateTable ;; ret ∅
  end.

(** ** [MachineIDResetter] *)

Definition DEV_DEVICE_ID : string := "telemetry.devDeviceId".
Definition MAC_MACHINE_ID : string := "telemetry.macMachineId".
Definition MACHINE_ID : string := "telemetry.machineId".
Definition SQM_ID : string := "telemetry.sqmId".
Definition SERVICE_MACHINE_ID : string := "storage.serviceMachineId".

(** The five identifier keys, in the order the script lists them. *)
Definition ID_KEYS : list string :=
  [DEV_DEVICE_ID; MAC_MACHINE_ID; MACHINE_ID; SQM_ID; SERVICE_MACHINE_ID].

(** [ids.get(k, "")] on the dict of new identifiers, kept in insertion
    order as a list of pairs. *)
Fixpoint ids_get (ids : list (string * string)) (k : string) : string :=
  match ids with
  | [] => EmptyString
  | (k', v) :: ids' => if String.eqb k' k then v else ids_get ids' k
  end.

(** [str(uuid.uuid4())] *)
Definition uuid4 (env : Env) : M string :=
  n <- gets drawn ;;
  modify (set_drawn (S n)) ;;
  ret (uuid_str (uuid4_int (urandom env n))).

Definition generate_new_ids (env : Env) : M (list (string * string)) :=
  print MGeneratingNewIds ;;
  dev <- uuid4 env ;;
  mac <- uuid4 env ;;
  machine <- uuid4 env ;;
  sqm <- uuid4 env ;;
  service <- uuid4 env ;;
  ret [(DEV_DEVICE_ID, dev); (MAC_MACHINE_ID, mac); (MACHINE_ID, machine);
       (SQM_ID, sqm); (SERVICE_MACHINE_ID, service)].

(** The dict literal built from [storage_data.get(k, "")] for the five keys. *)
Definition storage_ids (storage_data : gmap string pyval) : gmap string pyval :=
  list_to_map
    ((fun k => (k, default (PStr EmptyString) (storage_data !! k))) <$> ID_KEYS).

(** First half of [backup_current_ids]: the identifiers of [storage.json]. *)
Definition read_storage_ids (env : Env) : M (gmap string pyval) :=
  j <- load_json env BkOpenStorage StorageJson ;;
  match j with
  | JObject storage_data => ret (storage_ids storage_data ∪ ∅)
  | JNonObject _ => raise AttributeError
  end.

(** The loop over the five keys: [current_ids] is updated in place, so the
    keys handled before a failing [SELECT] keep their new value. *)
Fixpoint select_keys (env : Env) (rows : gmap string pyval) (keys : list string)
    (current_ids : gmap string pyval) : gmap string pyval * option exn :=
  match keys with
  | [] => (current_ids, None)
  | key :: keys' =>
      match fault env (BkSelect key) with
      | Some e => (current_ids, Some e)
      | None =>
          match rows !! key with
          | Some v =>
              if negb (truthy_get (current_ids !! key))
              then select_keys env rows keys' (<[key := v]> current_ids)
              else select_keys env rows keys' current_ids
          | None => select_keys env rows keys' current_ids
          end
      end
  end.

(** Second half of [backup_current_ids]: the identifiers of the database. *)
Definition read_sqlite_ids (env : Env) (current_ids : gmap string pyval)
    : M (gmap string pyval) :=
  r <- try_except
         (attempt env BkConnect ;;
          rows <- create_item_table env BkCreateTable ;;
          ret (select_keys env rows ID_KEYS current_ids))
         (fun e => ret (current_ids, Some e)) ;;
  match snd r with
  | Some _ => print MWarnSqliteRead ;; ret (fst r)
  | None => ret (fst r)
  end.

Definition backup_current_ids (env : Env) : M bool :=
  print MBackingUpCurrent ;;
  try_except
    (has_storage <- path_exists StorageJson ;;
     ids1 <- (if has_storage
              then try_except (read_storage_ids env)
                     (fun _ => print MWarnStorageRead ;; ret ∅)
              else ret ∅) ;;
     has_sqlite <- path_exists StateVscdb ;;
     current_ids <- (if has_sqlite then read_sqlite_ids env ids1 else ret ids1) ;;
     if (size current_ids =? 0)%nat
     then print MNoCurrentIds ;; ret false
     else
       let timestamp := now env TsIdsBackup in
       dump_json env BkOpenBackup BkDumpBackup (IdsBackup timestamp) current_ids ;;
       print (MBackupSaved timestamp) ;;
       ret true)
    (fun _ => print MBackupError ;; ret false).

(** [current_data.update(ids)] *)
Definition dict_update (current_data : gmap string pyval)
    (ids : list (string * string)) : gmap string pyval :=
  foldl (fun d kv => <[fst kv := PStr (snd kv)]> d) current_data ids.

Definition update_current_file (env : Env) (ids : list (string * string)) : M bool :=
  try_except
    (has_storage <- path_exists StorageJson ;;
     if negb has_storage
     then print MCurrentFileNotFound ;; ret false
     else
       current_data <- load_json env UcfOpenStorage StorageJson ;;
       let timestamp := now env TsStorageRestore in
       copy2 env UcfCopy StorageJson (StorageRestoreBak timestamp) ;;
       print (MCurrentBackupCreated timestamp) ;;
       match current_data with
       | JNonObject _ => raise AttributeError
       | JObject d =>
           dump_json env UcfOpenWrite UcfDump StorageJson (dict_update d ids) ;;
           print MStorageUpdated ;;
           ret true
       end)
    (fun _ => print MUpdateFailed ;; ret false).

(** The [for key, value in ids.items()] loop of [update_sqlite_db]. *)
Fixpoint upsert_all (env : Env) (ids : list (string * string)) : M unit :=
  match ids with
  | [] => ret tt
  | (key, value) :: ids' =>
      attempt env (UsdUpsert key) ;;
      perform (OpUpsert key value) ;;
      print (MUpdatingPair key) ;;
      upsert_all env ids'
  end.

Definition update_sqlite_db (env : Env) (ids : list (string * string)) : M bool :=
  try_except
    (has_sqlite <- path_exists StateVscdb ;;
     if negb has_sqlite
     then print MSqliteNotFound ;; ret false
     else
       print MUpdatingSqlite ;;
       attempt env UsdConnect ;;
       rows <- create_item_table env UsdCreateTable ;;
       upsert_all env ids ;;
       attempt env UsdCommit ;;
       perform (OpCommit (dict_update rows ids)) ;;
       print MSqliteUpdated ;;
       ret true)
    (fun _ => print MSqliteUpdateFailed ;; ret false).

Definition update_machine_id_file (env : Env) (dev_device_id : string) : M bool :=
  try_except
    (attempt env UmfMakedirs ;;
     perform (OpMakedirs MachineIdFile) ;;
     has_file <- path_exists MachineIdFile ;;
     (if has_file
      then
        let timestamp := now env TsMachineIdRestore in
        try_except
          (copy2 env UmfCopy MachineIdFile (MachineIdRestoreBak timestamp) ;;
           print (MMachineIdBackupCreated timestamp))
          (fun _ => print MBackupCreationFailed)
      else ret tt) ;;
     attempt env UmfOpenWrite ;;
     match fault env UmfWrite with
     | Some e =>
         perform (OpTruncate MachineIdFile) ;;
         raise e
     | None =>
         perform (OpWrite MachineIdFile (CText dev_device_id)) ;;
         print MMachineIdUpdated ;;
         ret true
     end)
    (fun _ => print MMachineIdUpdateFailed ;; ret false).

(** [winreg.OpenKey], [winreg.SetValueEx], [winreg.CloseKey] *)
Definition reg_set (env : Env) (k : regkey) (v : string) : M unit :=
  attempt env (RegOpen k) ;;
  attempt env (RegSetValue k) ;;
  perform (OpRegSet k v).

Definition _update_windows_system_ids (env : Env) (ids : list (string * string))
    : M unit :=
  try_except
    (attempt env WinImport ;;
     let guid := ids_get ids DEV_DEVICE_ID in
     (if negb (String.eqb guid EmptyString)
      then
        try_except
          (reg_set env Cryptography guid ;; print MWindowsMachineGuidUpdated)
          (fun e => match e with
                    | PermissionError => print MPermissionDenied
                    | _ => print MUpdateWindowsMachineGuidFailed
                    end)
      else ret tt) ;;
     let sqm_id := ids_get ids SQM_ID in
     if negb (String.eqb sqm_id EmptyString)
     then
       try_except
         (reg_set env SQMClient sqm_id ;; print MWindowsMachineIdUpdated)
         (fun e => match e with
                   | FileNotFoundError => print MSqmClientKeyNotFound
                   | PermissionError => print MPermissionDenied
                   | _ => print MUpdateWindowsMachineIdFailed
                   end)
     else ret tt)
    (fun _ => print MUpdateWindowsSystemIdsFailed).

(** [os.system('sudo plutil -replace "UUID" ...')]: the field is replaced
    exactly when the command exits with status 0. *)
Definition plutil_replace (env : Env) (v : string) : M Z :=
  (if (plutil_status env =? 0)%Z
   then perform (OpPlutil v)
   else ret tt) ;;
  ret (plutil_status env).

Definition _update_macos_system_ids (env : Env) (ids : list (string * string))
    : M unit :=
  try_except
    (has_plist <- gets (fun w => bool_decide (is_Some (platform_uuid w))) ;;
     if has_plist
     then
       let mac_id := ids_get ids MAC_MACHINE_ID in
       if negb (String.eqb mac_id EmptyString)
       then
         result <- plutil_replace env mac_id ;;
         if (result =? 0)%Z
         then print MMacosPlatformUuidUpdated
         else print MFailedPlutil
       else ret tt
     else ret tt)
    (fun _ => print MUpdateMacosFailed).

Definition update_system_ids (env : Env) (ids : list (string * string)) : M bool :=
  try_except
    (print MUpdatingSystemIds ;;
     (if String.prefix "win" (platform env)
      then _update_windows_system_ids env ids
      else if String.eqb (platform env) "darwin"
           then _update_macos_system_ids env ids
           else ret tt) ;;
     ret true)
    (fun _ => print MSystemIdsUpdateFailed ;; ret false).

(** ** The running-process check *)

Definition nl : text := [10%N].
Definition dquote : text := [34%N].

(** [import subprocess], the first statement of each inner [try].  The
    name is a local variable of [check_cursor_running]: it stays unbound
    when the import raises. *)
Definition import_subprocess (env : Env) : M unit := attempt env ImportSubprocess.

(** [except (subprocess.TimeoutExpired, FileNotFoundError, Exception):]
    the clause reads the local [subprocess] before it matches anything, so
    after a failed import it raises [UnboundLocalError] and handles
    nothing; otherwise [Exception] matches whatever was raised. *)
Definition except_subprocess {A} (env : Env) (handler : M A) : exn -> M A :=
  fun _ =>
    match fault env ImportSubprocess with
    | Some _ => raise UnboundLocalError
    | None => handler
    end.

(** [subprocess.run(..., capture_output=True, text=True, timeout=5)] *)
Definition run_tool (t : tool_result) : M (Z * text) :=
  match t with
  | ToolRaises e => raise e
  | ToolDone rc out => ret (rc, out)
  end.

(** The answer of [check_cursor_running]: [Some true], [Some false] and
    [None] stand for Python's [True], [False] and [None]. *)
Definition verdict : Type := option bool * option Z.

(** The [tasklist] attempt; [None] means that no [return] was reached. *)
Definition check_tasklist (env : Env) : M (option verdict) :=
  import_subprocess env ;;
  result <- run_tool (tasklist env) ;;
  if contains (lit "Cursor.exe") (snd result)
  then
    let lines := split nl (strip (snd result)) in
    if (1 <? List.length lines)%nat
    then
      let parts := split (dquote ++ lit "," ++ dquote)%list (nth 1 lines []) in
      if (1 <? List.length parts)%nat
      then
        match int (python env) (strip_chars dquote (nth 1 parts [])) with
        | Some pid => ret (Some (Some true, Some pid))
        | None => ret (Some (Some true, None))
        end
      else ret (Some (Some true, None))
    else ret (Some (Some true, None))
  else ret None.

(** The [wmic] attempt made when [tasklist] raised. *)
Definition check_wmic (env : Env) : M (option verdict) :=
  result <- run_tool (wmic env) ;;
  if contains (lit "ProcessId") (snd result)
     && negb (bool_decide (strip (snd result) = lit "ProcessId"))
  then ret (Some (Some true, None))
  else ret None.

(** The [pgrep] attempt of the macOS and Linux branches. *)
Definition check_pgrep (env : Env) : M (option verdict) :=
  import_subprocess env ;;
  result <- run_tool (pgrep env) ;;
  if (fst result =? 0)%Z && negb (bool_decide (strip (snd result) = []))
  then
    match split nl (strip (snd result)) with
    | [] => ret None
    | pid :: _ =>
        match int (python env) pid with
        | Some n => ret (Some (Some true, Some n))
        | None => ret (Some (Some true, None))
        end
    end
  else ret None.

Definition or_not_running (r : option verdict) : verdict :=
  match r with
  | Some v => v
  | None => (Some false, None)
  end.

Definition check_cursor_running (env : Env) : M verdict :=
  try_except
    (if String.eqb (platform env) "win32"
     then
       r <- try_except (check_tasklist env)
              (except_subprocess env
                 (try_except (check_wmic env) (fun _ => ret None))) ;;
       ret (or_not_running r)
     else if String.eqb (platform env) "darwin"
     then
       r <- try_except (check_pgrep env) (except_subprocess env (ret None)) ;;
       ret (or_not_running r)
     else
       r <- try_except (check_pgrep env) (except_subprocess env (ret None)) ;;
       ret (or_not_running r))
    (fun _ => ret (None, None)).

(** ** The orchestrator *)

Fixpoint show_ids (ids : list (string * string)) : M unit :=
  match ids with
  | [] => ret tt
  | (key, value) :: ids' => print (MShowId key value) ;; show_ids ids'
  end.

(** Lines 610-625 of [reset_machine_ids]: the four mutators in order. *)
Definition apply_backends (env : Env) (new_ids : list (string * string)) : M bool :=
  ok <- update_current_file env new_ids ;;
  if negb ok
  then ret false
  else
    update_sqlite_db env new_ids ;;
    update_machine_id_file env (ids_get new_ids DEV_DEVICE_ID) ;;
    update_system_ids env new_ids ;;
    print MSuccess ;;
    print MRestartCursor ;;
    ret true.

(** Lines 593-625: backup, generation, preview, confirmation, apply. *)
Definition backup_generate_confirm (env : Env) : M bool :=
  backup_current_ids env ;;
  new_ids <- generate_new_ids env ;;
  print MIdsToReset ;;
  show_ids new_ids ;;
  confirm <- input MPromptConfirm ;;
  if negb (String.eqb (lower confirm) "y")
  then print MOperationCancelled ;; ret false
  else apply_backends env new_ids.

(** Lines 575-581: the prompt shown when the check answered [True]. *)
Definition running_gate (v : verdict) : M bool :=
  match fst v with
  | Some true =>
      print (MCursorRunning (snd v)) ;;
      print MRecommendClose ;;
      continue_anyway <- input MPromptContinue ;;
      if negb (String.eqb (lower continue_anyway) "y")
      then print MOperationCancelled ;; ret false
      else ret true
  | _ => ret true
  end.

(** Lines 575-625: everything after the call of [check_cursor_running]. *)
Definition reset_after_check (env : Env) (v : verdict) : M bool :=
  go_on <- running_gate v ;;
  if negb go_on
  then ret false
  else
    has_storage <- path_exists StorageJson ;;
    has_sqlite <- path_exists StateVscdb ;;
    has_machine_id <- path_exists MachineIdFile ;;
    if negb has_storage && negb has_sqlite && negb has_machine_id
    then
      print MFilesNotFound ;;
      print MExpectedPaths ;;
      print (MExpectedPath StorageJson) ;;
      print (MExpectedPath StateVscdb) ;;
      print (MExpectedPath MachineIdFile) ;;
      ret false
    else backup_generate_confirm env.

Definition reset_machine_ids (env : Env) : M bool :=
  try_except
    (print MStarting ;;
     v <- check_cursor_running env ;;
     reset_after_check env v)
    (fun _ => print MProcessError ;; ret false).

(** * Vocabulary of the specifications *)

#[local] Open Scope list_scope.

Definition replay (j : list op) (w : World) : World :=
  foldl (fun w o => effect o w) w j.

Definition same_storage (w1 w2 : World) : Prop :=
  fs w1 = fs w2 /\ machine_guid w1 = machine_guid w2 /\
  sqm_machine_id w1 = sqm_machine_id w2 /\ platform_uuid w1 = platform_uuid w2.

Record quiet (P : op -> Prop) (Q : msg -> Prop) (w w' : World) : Prop := mkQuiet {
  quiet_ops : exists j, journal w' = journal w ++ j /\ Forall P j /\
                        same_storage (replay j w) w';
  quiet_out : exists l, stdout w' = stdout w ++ l /\ Forall Q l;
  quiet_stdin : stdin w' = stdin w;
  quiet_drawn : drawn w' = drawn w
}.

Definition keeps {A} (P : op -> Prop) (Q : msg -> Prop) (c : M A) : Prop :=
  forall w, quiet P Q w (snd (c w)).

Definition returns {A} (c : M A) : Prop :=
  forall w, exists a, fst (c w) = Ret a.

Definition backup_ops (env : Env) (o : op) : Prop :=
  match o with
  | OpCreateTable => True
  | OpWrite (IdsBackup ts) _ | OpTruncate (IdsBackup ts) => ts = now env TsIdsBackup
  | _ => False
  end.

Definition backup_msgs (m : msg) : Prop :=
  match m with
  | MBackingUpCurrent | MWarnStorageRead | MWarnSqliteRead | MBackupSaved _
  | MNoCurrentIds | MBackupError => True
  | _ => False
  end.

Definition json_ops (env : Env) (ids : list (string * string)) (o : op) : Prop :=
  match o with
  | OpCopy StorageJson (StorageRestoreBak ts) => ts = now env TsStorageRestore
  | OpWrite StorageJson (CJson (JObject d)) => exists d0, d = dict_update d0 ids
  | OpTruncate StorageJson => True
  | _ => False
  end.

Definition sqlite_ops (ids : list (string * string)) (o : op) : Prop :=
  match o with
  | OpCreateTable => True
  | OpUpsert k v => (k, v) ∈ ids
  | OpCommit rows => exists rows0, rows = dict_update rows0 ids
  | _ => False
  end.

Definition marker_ops (env : Env) (dev_device_id : string) (o : op) : Prop :=
  match o with
  | OpMakedirs MachineIdFile | OpTruncate MachineIdFile => True
  | OpCopy MachineIdFile (MachineIdRestoreBak ts) => ts = now env TsMachineIdRestore
  | OpWrite MachineIdFile (CText s) => s = dev_device_id
  | _ => False
  end.

Definition system_ops (ids : list (string * string)) (o : op) : Prop :=
  match o with
  | OpRegSet Cryptography v => v = ids_get ids DEV_DEVICE_ID
  | OpRegSet SQMClient v => v = ids_get ids SQM_ID
  | OpPlutil v => v = ids_get ids MAC_MACHINE_ID
  | _ => False
  end.

Definition about (b : backend) (m : msg) : Prop := reports_on m = Some b.

(** The token made from the [i]-th random draw. *)
Definition token (env : Env) (i : nat) : string :=
  uuid_str (uuid4_int (urandom env i)).

(** The identifier set that [generate_new_ids] builds from draws [n .. n+4]. *)
Definition new_ids (env : Env) (n : nat) : list (string * string) :=
  [(DEV_DEVICE_ID, token env n); (MAC_MACHINE_ID, token env (S n));
   (MACHINE_ID, token env (S (S n))); (SQM_ID, token env (S (S (S n))));
   (SERVICE_MACHINE_ID, token env (S (S (S (S n)))))].

(** ** Sample environments and worlds *)

Definition no_fault : site -> option exn := fun _ => None.

(** A Linux host on which [pgrep] finds nothing; the [n]-th random draw is [n]. *)
Definition env_linux : Env :=
  mkEnv "linux" cpython (ToolRaises FileNotFoundError) (ToolRaises FileNotFoundError)
        (ToolDone 1 []) Z.of_nat (fun _ => "20240101_120000") no_fault 0.

(** The same host with a random source that repeats itself. *)
Definition env_repeating : Env :=
  mkEnv "linux" cpython (ToolRaises FileNotFoundError) (ToolRaises FileNotFoundError)
        (ToolDone 1 []) (fun _ => 7%Z) (fun _ => "20240101_120000")
        no_fault 0.

Definition world_of (files : gmap path content) (answers : list string) : World :=
  mkWorld files None None None answers 0 [] [].

(** The scenario of the specification: a store with one unrelated key. *)
Definition doc_unrelated : gmap string pyval := {[ "unrelated.key" := PStr "x" ]}.

Definition world_unrelated : World :=
  world_of {[ StorageJson := CJson (JObject doc_unrelated) ]} ["y"].

(** The rows of the [ItemTable] of a database file; no file, no database
    or no table means no rows. *)
Definition item_rows (c : option content) : gmap string pyval :=
  match c ≫= as_db with
  | Some (Some rows) => rows
  | _ => ∅
  end.


(** A Linux host on which [pgrep] does not answer within five seconds. *)
Definition env_pgrep_timeout : Env :=
  mkEnv "linux" cpython (ToolRaises FileNotFoundError) (ToolRaises FileNotFoundError)
        (ToolRaises TimeoutExpired) Z.of_nat (fun _ => "20240101_120000")
        no_fault 0.

(** A Linux host on which [import subprocess] raises. *)
Definition env_no_subprocess : Env :=
  mkEnv "linux" cpython (ToolRaises FileNotFoundError) (ToolRaises FileNotFoundError)
        (ToolDone 1 []) Z.of_nat (fun _ => "20240101_120000")
        (fun s => match s with
                  | ImportSubprocess => Some ImportError
                  | _ => None
                  end) 0.

(** The copy that [update_current_file] makes of the store. *)
Definition storage_copy (env : Env) : op :=
  OpCopy StorageJson (StorageRestoreBak (now env TsStorageRestore)).

(** The copy that [update_machine_id_file] makes of the marker file. *)
Definition marker_copy (env : Env) : op :=
  OpCopy MachineIdFile (MachineIdRestoreBak (now env TsMachineIdRestore)).

(** A host on which copying the marker file fails. *)
Definition env_marker_copy_fails : Env :=
  mkEnv "linux" cpython (ToolRaises FileNotFoundError) (ToolRaises FileNotFoundError)
        (ToolDone 1 []) Z.of_nat (fun _ => "20240101_120000")
        (fun s => match s with UmfCopy => Some PermissionError | _ => None end) 0.

Definition world_marker : World :=
  world_of {[ MachineIdFile := CText "old-device-id" ]} ["y"].

(** A [storage.json] that is not JSON, next to a database and a marker file. *)
Definition world_broken_json : World :=
  world_of {[ StorageJson := CText "{ not json";
              StateVscdb := CDb (Some {[ DEV_DEVICE_ID := PStr "db-dev" ]});
              MachineIdFile := CText "old-device-id" ]}
           ["y"].

(** No [storage.json], but a database and a marker file. *)
Definition world_no_json : World :=
  world_of {[ StateVscdb := CDb (Some {[ DEV_DEVICE_ID := PStr "db-dev" ]});
              MachineIdFile := CText "old-device-id" ]}
           ["y"].

Definition secondary (b : backend) : Prop :=
  b = EmbeddedStore \/ b = MarkerFile \/ b = PlatformRegistry.

(** [quiet] without the clauses on the keyboard and the random source. *)
Definition traces (P : op -> Prop) (Q : msg -> Prop) (w w' : World) : Prop :=
  (exists j, journal w' = journal w ++ j /\ Forall P j /\
             same_storage (replay j w) w') /\
  (exists l, stdout w' = stdout w ++ l /\ Forall Q l).

(** The operations of the four mutators when they are handed [ids]. *)
Definition apply_ops (env : Env) (ids : list (string * string)) (o : op) : Prop :=
  json_ops env ids o \/ sqlite_ops ids o \/
  marker_ops env (ids_get ids DEV_DEVICE_ID) o \/ system_ops ids o.

(** The operations of a whole run. *)
Definition run_ops (env : Env) (ids : list (string * string)) (o : op) : Prop :=
  backup_ops env o \/ apply_ops env ids o.

Definition not_cancelled (m : msg) : Prop := m <> MOperationCancelled.

(** The operator answers "n" at the confirmation prompt. *)
Definition world_decline : World :=
  world_of {[ StorageJson := CJson (JObject doc_unrelated) ]} ["n"].

(** The same, next to a database file that has no [ItemTable] yet. *)
Definition world_db_without_table : World :=
  world_of {[ StorageJson := CJson (JObject doc_unrelated);
              StateVscdb := CDb None ]} ["n"].


(** ** Vocabulary of the further properties *)

(** The call at [s] does not raise. *)
Definition succeeds (env : Env) (s : site) : bool :=
  match fault env s with
  | None => true
  | Some _ => false
  end.

(** The operator's answer is read as a yes: [answer.lower() == 'y']. *)
Definition affirmative (answer : string) : Prop := answer = "y" \/ answer = "Y".

(** A Windows host whose [Cryptography] key cannot be opened. *)
Definition env_windows_denied : Env :=
  mkEnv "win32" cpython (ToolDone 0 []) (ToolRaises FileNotFoundError)
        (ToolRaises FileNotFoundError) Z.of_nat (fun _ => "20240101_120000")
        (fun s => match s with
                  | RegOpen Cryptography => Some PermissionError
                  | _ => None
                  end) 0.

(** A database with one row that is not an identifier. *)
Definition world_db_other_row : World :=
  world_of {[ StateVscdb := CDb (Some {[ "other.key" := PStr "kept" ]}) ]} ["y"].

(** A host on which [conn.commit()] fails. *)
Definition env_commit_fails : Env :=
  mkEnv "linux" cpython (ToolRaises FileNotFoundError) (ToolRaises FileNotFoundError)
        (ToolDone 1 []) Z.of_nat (fun _ => "20240101_120000")
        (fun s => match s with UsdCommit => Some DatabaseError | _ => None end) 0.

(** Everything but the files is the same in the two worlds. *)
Definition same_registry (w1 w2 : World) : Prop :=
  machine_guid w1 = machine_guid w2 /\ sqm_machine_id w1 = sqm_machine_id w2 /\
  platform_uuid w1 = platform_uuid w2.

(** The colour in which a mutator reports its answer. *)
Definition answer_colour (r : outcome bool) : colour :=
  match r with
  | Ret true => Green
  | _ => Red
  end.

#[global] Instance affirmative_dec a : Decision (affirmative a).
Proof. unfold affirmative. apply _. Defined.

(** The stores that hold identifiers are in [w2] as they are in [w1]. *)
Definition same_identifiers (w1 w2 : World) : Prop :=
  fs w2 !! StorageJson = fs w1 !! StorageJson /\
  fs w2 !! MachineIdFile = fs w1 !! MachineIdFile /\
  item_rows (fs w2 !! StateVscdb) = item_rows (fs w1 !! StateVscdb) /\
  same_registry w1 w2.

(** Lines 605-625 of [reset_machine_ids]: the confirmation prompt and what
    follows it, for the identifier set [ids]. *)
Definition confirm_then_apply (env : Env) (ids : list (string * string)) : M bool :=
  confirm <- input MPromptConfirm ;;
  if negb (String.eqb (lower confirm) "y")
  then print MOperationCancelled ;; ret false
  else apply_backends env ids.

(** Between [w] and [w'] lines were printed, and [m0] is none of them. *)
Definition says_nothing_of (m0 : msg) (w w' : World) : Prop :=
  exists l, stdout w' = stdout w ++ l /\ m0 ∉ l.

(** The JSON store and its [.restore_bak] copies. *)
Definition json_path (p : path) : Prop :=
  p = StorageJson \/ exists ts, p = StorageRestoreBak ts.

(** The operator types "yes" at the confirmation prompt. *)
Definition world_answers_yes : World :=
  world_of {[ StorageJson := CJson (JObject doc_unrelated) ]} ["yes"].

(** A host on which nothing but the JSON store can be written: the backup
    file, the database, the marker file and its directory all fail. *)
Definition env_only_json_works : Env :=
  mkEnv "linux" cpython (ToolRaises FileNotFoundError) (ToolRaises FileNotFoundError)
        (ToolDone 1 []) Z.of_nat (fun _ => "20240101_120000")
        (fun s => match s with
                  | BkOpenBackup | BkConnect | UsdConnect | UmfMakedirs =>
                      Some PermissionError
                  | _ => None
                  end) 0.

(** A store, a database and a marker file, and an operator who says yes. *)
Definition world_three_files : World :=
  world_of {[ StorageJson := CJson (JObject doc_unrelated);
              StateVscdb := CDb (Some {[ DEV_DEVICE_ID := PStr "db-dev" ]});
              MachineIdFile := CText "old-device-id" ]}
           ["Y"; "left over"].

(** The same files and nobody at the keyboard. *)
Definition world_no_operator : World :=
  world_of {[ StorageJson := CJson (JObject doc_unrelated);
              StateVscdb := CDb (Some {[ DEV_DEVICE_ID := PStr "db-dev" ]});
              MachineIdFile := CText "old-device-id" ]}
           [].

(** Every value of the document is one that [json.dump] accepts. *)
Definition dumpable (d : gmap string pyval) : Prop :=
  map_Forall (fun _ v => serialisable v = true) d.

(** A Linux host on which [pgrep] lists two processes. *)
Definition env_pgrep_two : Env :=
  mkEnv "linux" cpython (ToolRaises FileNotFoundError) (ToolRaises FileNotFoundError)
        (ToolDone 0 (lit "4711" ++ nl ++ lit "4712" ++ nl)) Z.of_nat
        (fun _ => "20240101_120000") no_fault 0.

(** A Windows host on which [tasklist] exits with an error after naming
    the editor, and [wmic] would have found nothing. *)
Definition env_tasklist_error : Env :=
  mkEnv "win32" cpython (ToolDone 1 (lit "ERROR: Cursor.exe"))
        (ToolDone 0 (lit "ProcessId"))
        (ToolRaises FileNotFoundError) Z.of_nat (fun _ => "20240101_120000")
        no_fault 0.

(** [sub] occurs somewhere in [s]. *)
Definition mentions (sub s : text) : Prop := exists a b, s = a ++ sub ++ b.

(** [s] holds nothing but whitespace. *)
Definition blank (s : text) : Prop := Forall (fun c => is_space c = true) s.

(** [s] is [t] with nothing but whitespace around it. *)
Definition bare (t s : text) : Prop :=
  exists a b, s = a ++ t ++ b /\ blank a /\ blank b.

(** The decimal numeral whose digits are [ds], the most significant first,
    and the number it denotes. *)
Definition numeral (ds : list N) : text := (fun d => (0x30 + d)%N) <$> ds.

Definition number (ds : list N) : Z :=
  foldl (fun n d => (10 * n + Z.of_N d)%Z) 0%Z ds.

(** The marks of a random (version 4) UUID in its text: the first digit
    of the third group is 4, the first digit of the fourth group is 8, 9,
    a or b. *)
Definition is_version_4 (s : string) : bool :=
  match String.get 14 s, String.get 19 s with
  | Some v, Some c => Ascii.eqb v "4" && mem_ascii c "89ab"
  | _, _ => false
  end.

(** ** The constructor of [MachineIDResetter] and [run] *)

(** What the script asks of a [configparser.ConfigParser]: [has_section]
    and [get]; [config_get] answers [None] when [get] raises. *)
Record ConfigParser := mkConfigParser {
  has_section : string -> bool;
  config_get : string -> string -> option string
}.

(** The host beyond [Env].  [get_config], which reads or creates
    [config.ini] through [configparser], is not embedded: the host says
    what it returns. *)
Record Host := mkHost {
  host_env : Env;
  appdata : option string;           (* os.getenv("APPDATA") *)
  arch_release : bool;               (* os.path.exists("/etc/arch-release") *)
  get_config : option ConfigParser   (* None: get_config returned None *)
}.

(** The exceptions that leave the constructor. *)
Inductive ctor_error :=
  | ConfigError (section : option string)   (* None: no configuration at all *)
  | EnvironmentError                        (* APPDATA is not set *)
  | ConfigGetError (section option : string) (* config.get raised *)
  | NotImplementedError (platform : string).

Record MachineIDResetter := mkMachineIDResetter {
  db_path : string;
  sqlite_path : string
}.

Definition is_arch_linux (h : Host) : bool :=
  if negb (String.eqb (platform (host_env h)) "linux")
  then false
  else arch_release h.

(** The block that each platform branch of the constructor repeats for its
    own section. *)
Definition section_paths (config : ConfigParser) (section : string)
    : ctor_error + MachineIDResetter :=
  if negb (has_section config section)
  then inl (ConfigError (Some section))
  else
    match config_get config section "storage_path" with
    | None => inl (ConfigGetError section "storage_path")
    | Some storage =>
        match config_get config section "sqlite_path" with
        | None => inl (ConfigGetError section "sqlite_path")
        | Some sqlite => inr (mkMachineIDResetter storage sqlite)
        end
    end.

(** [MachineIDResetter.__init__(translator, config)] *)
Definition __init__ (h : Host) (config : option ConfigParser)
    : ctor_error + MachineIDResetter :=
  let config := match config with
                | None => get_config h
                | Some c => Some c
                end in
  match config with
  | None => inl (ConfigError None)
  | Some config =>
      if String.eqb (platform (host_env h)) "win32"
      then
        match appdata h with
        | None => inl EnvironmentError
        | Some _ => section_paths config "WindowsPaths"
        end
      else if String.eqb (platform (host_env h)) "darwin"
      then section_paths config "MacPaths"
      else if is_arch_linux h
      then section_paths config "ArchPaths"
      else if String.eqb (platform (host_env h)) "linux"
      then section_paths config "LinuxPaths"
      else inl (NotImplementedError (platform (host_env h)))
  end.



(** A configuration given by its sections. *)
Definition config_of (sections : list (string * (string * string))) : ConfigParser :=
  mkConfigParser
    (fun s => bool_decide (s ∈ sections.*1))
    (fun s o =>
       '(storage, sqlite) ← (list_to_map sections : gmap string (string * string)) !! s;
       if String.eqb o "storage_path" then Some storage
       else if String.eqb o "sqlite_path" then Some sqlite
       else None).

(** A configuration written on another Linux distribution. *)
Definition config_linux_only : ConfigParser :=
  config_of [("LinuxPaths", ("/home/u/storage.json", "/home/u/state.vscdb"))].

Definition host_linux : Host :=
  mkHost env_linux None false (Some config_linux_only).

(** The same configuration on a host that has [/etc/arch-release]. *)
Definition host_arch : Host :=
  mkHost env_linux None true (Some config_linux_only).


(** The run ended on the two closing lines of a successful reset. *)
Definition ends_in_success (w w' : World) : Prop :=
  exists l, stdout w' = stdout w ++ l ++ [MSuccess; MRestartCursor].

(** * Lemmas and theorems *)

Lemma same_storage_refl w : same_storage w w.
Proof. by repeat split. Qed.

Lemma same_storage_effect o w1 w2 :
  same_storage w1 w2 -> same_storage (effect o w1) (effect o w2).
Proof.
  intros (Hfs & Hg & Hs & Hp).
  destruct o as [p c|p|src dst|p| |k v|rows|[] v|v]; simpl;
    rewrite ?Hfs; try destruct (fs w2 !! src); simpl;
    repeat split; simpl; congruence.
Qed.

Lemma same_storage_replay j w1 w2 :
  same_storage w1 w2 -> same_storage (replay j w1) (replay j w2).
Proof.
  revert w1 w2. induction j as [|o j IH]; intros w1 w2 H; simpl; [done|].
  apply IH. by apply same_storage_effect.
Qed.

Lemma same_storage_trans w1 w2 w3 :
  same_storage w1 w2 -> same_storage w2 w3 -> same_storage w1 w3.
Proof. intros (?&?&?&?) (?&?&?&?). repeat split; congruence. Qed.

Lemma replay_app j1 j2 w : replay (j1 ++ j2) w = replay j2 (replay j1 w).
Proof. apply foldl_app. Qed.

Section Quiet.
Context (P : op -> Prop) (Q : msg -> Prop).

Lemma quiet_refl w : quiet P Q w w.
Proof.
  split; [exists [] | exists [] | done | done]; rewrite app_nil_r;
    repeat split; auto.
Qed.

Lemma quiet_trans w1 w2 w3 : quiet P Q w1 w2 -> quiet P Q w2 w3 -> quiet P Q w1 w3.
Proof.
  intros [(j1 & Hj1 & HP1 & Hs1) (l1 & Hl1 & HQ1) Hi1 Hd1]
         [(j2 & Hj2 & HP2 & Hs2) (l2 & Hl2 & HQ2) Hi2 Hd2].
  split; [| | congruence | congruence].
  - exists (j1 ++ j2). rewrite Hj2, Hj1, app_assoc. split; [done|].
    split; [by apply Forall_app|].
    rewrite replay_app. eapply same_storage_trans; [|exact Hs2].
    by apply same_storage_replay.
  - exists (l1 ++ l2). rewrite Hl2, Hl1, app_assoc. split; [done|].
    by apply Forall_app.
Qed.

Lemma quiet_print m w : Q m -> quiet P Q w (add_out m w).
Proof.
  intros Hm. split; [exists [] | exists [m] | done | done]; simpl.
  - rewrite app_nil_r. repeat split; auto.
  - split; [done|]. by constructor.
Qed.

Lemma quiet_perform o w : P o -> quiet P Q w (add_op o (effect o w)).
Proof.
  intros Ho. split; [exists [o] | exists [] | |]; simpl.
  - split; [|split; [by constructor|]].
    + by destruct o as [| | src ? | | | | |[]|]; simpl; try destruct (fs w !! src).
    + repeat split.
  - rewrite app_nil_r. split; [|done].
    by destruct o as [| | src ? | | | | |[]|]; simpl; try destruct (fs w !! src).
  - by destruct o as [| | src ? | | | | |[]|]; simpl; try destruct (fs w !! src).
  - by destruct o as [| | src ? | | | | |[]|]; simpl; try destruct (fs w !! src).
Qed.

Lemma keeps_ret {A} (a : A) : keeps P Q (ret a).
Proof. intros w. apply quiet_refl. Qed.

Lemma keeps_raise {A} e : keeps P Q (@raise A e).
Proof. intros w. apply quiet_refl. Qed.

Lemma keeps_gets {A} (f : World -> A) : keeps P Q (gets f).
Proof. intros w. apply quiet_refl. Qed.

Lemma keeps_bind {A B} (c : M A) (f : A -> M B) :
  keeps P Q c -> (forall a, keeps P Q (f a)) -> keeps P Q (bind c f).
Proof.
  intros Hc Hf w. unfold bind. specialize (Hc w).
  destruct (c w) as [[a|e] w1]; simpl in *; [|done].
  eapply quiet_trans; [exact Hc|]. apply Hf.
Qed.

Lemma keeps_try {A} (c : M A) (h : exn -> M A) :
  keeps P Q c -> (forall e, keeps P Q (h e)) -> keeps P Q (try_except c h).
Proof.
  intros Hc Hh w. unfold try_except. specialize (Hc w).
  destruct (c w) as [[a|e] w1]; simpl in *; [done|].
  eapply quiet_trans; [exact Hc|]. apply Hh.
Qed.

Lemma keeps_print m : Q m -> keeps P Q (print m).
Proof. intros Hm w. by apply quiet_print. Qed.

Lemma keeps_perform o : P o -> keeps P Q (perform o).
Proof. intros Ho w. by apply quiet_perform. Qed.

Lemma keeps_attempt env s : keeps P Q (attempt env s).
Proof. unfold attempt. destruct (fault env s); [apply keeps_raise|apply keeps_ret]. Qed.

Lemma keeps_path_exists p : keeps P Q (path_exists p).
Proof. apply keeps_gets. Qed.
End Quiet.

Lemma quiet_mono (P P' : op -> Prop) (Q Q' : msg -> Prop) w w' :
  (forall o, P o -> P' o) -> (forall m, Q m -> Q' m) ->
  quiet P Q w w' -> quiet P' Q' w w'.
Proof.
  intros HP HQ [(j & Hj & HPj & Hs) (l & Hl & HQl) Hi Hd].
  split; [exists j | exists l | done | done].
  - split; [done|]. split; [|done]. eapply Forall_impl; eauto.
  - split; [done|]. eapply Forall_impl; eauto.
Qed.

Lemma keeps_mono {A} (P P' : op -> Prop) (Q Q' : msg -> Prop) (c : M A) :
  (forall o, P o -> P' o) -> (forall m, Q m -> Q' m) ->
  keeps P Q c -> keeps P' Q' c.
Proof. intros HP HQ Hc w. eapply quiet_mono; eauto. Qed.

Lemma returns_ret {A} (a : A) : returns (ret a).
Proof. intros w. by exists a. Qed.

Lemma returns_try {A} (c : M A) h : (forall e, returns (h e)) -> returns (try_except c h).
Proof.
  intros Hh w. unfold try_except. destruct (c w) as [[a|e] w1]; [by exists a|].
  apply Hh.
Qed.

Lemma returns_bind {A B} (c : M A) (f : A -> M B) :
  returns c -> (forall a, returns (f a)) -> returns (bind c f).
Proof.
  intros Hc Hf w. unfold bind. destruct (Hc w) as [a Ha].
  destruct (c w) as [[a'|e] w1]; simpl in *; [apply Hf|done].
Qed.

Lemma returns_print m : returns (print m).
Proof. intros w. by exists tt. Qed.

Ltac keeps_step :=
  first
    [ apply keeps_ret | apply keeps_raise | apply keeps_gets
    | apply keeps_attempt | apply keeps_path_exists
    | apply keeps_bind; [| intros ?]
    | apply keeps_try; [| intros ?]
    | apply keeps_print; [first [exact I | reflexivity]]
    | apply keeps_perform; simpl; [first [exact I | reflexivity | eauto]]
    | match goal with
      | |- keeps _ _ (match ?x with _ => _ end) => destruct x eqn:?
      | |- keeps _ _ (if ?x then _ else _) => destruct x eqn:?
      end ].

Ltac keeps_auto := repeat keeps_step.

Lemma keeps_load_json P Q env s p : keeps P Q (load_json env s p).
Proof. unfold load_json. keeps_auto. Qed.

Lemma keeps_dump_json (P : op -> Prop) Q env s1 s2 p d :
  P (OpTruncate p) -> P (OpWrite p (CJson (JObject d))) ->
  keeps P Q (dump_json env s1 s2 p d).
Proof. intros H1 H2. unfold dump_json. keeps_auto; try by apply keeps_perform. Qed.

Lemma keeps_copy2 (P : op -> Prop) Q env s src dst :
  P (OpCopy src dst) -> keeps P Q (copy2 env s src dst).
Proof. intros H. unfold copy2. keeps_auto; try by apply keeps_perform. Qed.

Lemma keeps_create_item_table (P : op -> Prop) Q env s :
  P OpCreateTable -> keeps P Q (create_item_table env s).
Proof. intros H. unfold create_item_table. keeps_auto; try by apply keeps_perform. Qed.

Lemma keeps_backup_current_ids env :
  keeps (backup_ops env) backup_msgs (backup_current_ids env).
Proof.
  unfold backup_current_ids, read_storage_ids, read_sqlite_ids.
  repeat first [ apply keeps_load_json
               | apply keeps_dump_json; simpl; [done|done]
               | apply keeps_create_item_table; simpl; [done]
               | keeps_step ].
Qed.

Lemma returns_backup_current_ids env : returns (backup_current_ids env).
Proof.
  unfold backup_current_ids. apply returns_bind; [apply returns_print|intros _].
  apply returns_try. intros e. apply returns_bind; [apply returns_print|intros _].
  apply returns_ret.
Qed.

Lemma keeps_update_current_file env ids :
  keeps (json_ops env ids) (about JsonStore) (update_current_file env ids).
Proof.
  unfold update_current_file.
  repeat first [ apply keeps_load_json
               | apply keeps_dump_json; simpl; [done|eauto]
               | apply keeps_copy2; simpl; [done]
               | keeps_step ].
Qed.

Lemma returns_update_current_file env ids : returns (update_current_file env ids).
Proof.
  unfold update_current_file. apply returns_try. intros e.
  apply returns_bind; [apply returns_print|intros _]. apply returns_ret.
Qed.

Lemma keeps_upsert_all env ids l :
  l ⊆ ids -> keeps (sqlite_ops ids) (about EmbeddedStore) (upsert_all env l).
Proof.
  induction l as [|[k v] l IH]; intros Hl; simpl; [apply keeps_ret|].
  apply keeps_bind; [apply keeps_attempt|intros _].
  apply keeps_bind; [apply keeps_perform; simpl; set_solver|intros _].
  apply keeps_bind; [by apply keeps_print|intros _].
  apply IH. set_solver.
Qed.

Lemma keeps_update_sqlite_db env ids :
  keeps (sqlite_ops ids) (about EmbeddedStore) (update_sqlite_db env ids).
Proof.
  unfold update_sqlite_db.
  repeat first [ apply keeps_create_item_table; simpl; [done]
               | apply keeps_upsert_all; [done]
               | keeps_step ].
Qed.

Lemma returns_update_sqlite_db env ids : returns (update_sqlite_db env ids).
Proof.
  unfold update_sqlite_db. apply returns_try. intros e.
  apply returns_bind; [apply returns_print|intros _]. apply returns_ret.
Qed.

Lemma keeps_update_machine_id_file env dev :
  keeps (marker_ops env dev) (about MarkerFile) (update_machine_id_file env dev).
Proof.
  unfold update_machine_id_file.
  repeat first [ apply keeps_copy2; simpl; [done] | keeps_step ].
Qed.

Lemma returns_update_machine_id_file env dev : returns (update_machine_id_file env dev).
Proof.
  unfold update_machine_id_file. apply returns_try. intros e.
  apply returns_bind; [apply returns_print|intros _]. apply returns_ret.
Qed.

Lemma keeps_update_system_ids env ids :
  keeps (system_ops ids) (about PlatformRegistry) (update_system_ids env ids).
Proof.
  unfold update_system_ids, _update_windows_system_ids,
    _update_macos_system_ids, reg_set, plutil_replace.
  keeps_auto.
Qed.

Lemma returns_update_system_ids env ids : returns (update_system_ids env ids).
Proof.
  unfold update_system_ids. apply returns_try. intros e.
  apply returns_bind; [apply returns_print|intros _]. apply returns_ret.
Qed.

Lemma hex_digit_code d :
  (0 <= d < 16)%Z ->
  nat_of_ascii (hex_digit d) = if (d <? 10)%Z then 48 + Z.to_nat d else 87 + Z.to_nat d.
Proof.
  intros Hd. unfold hex_digit.
  destruct (d <? 10)%Z eqn:E; apply nat_ascii_embedding; lia.
Qed.

Lemma hex_digit_lower d : (0 <= d < 16)%Z -> is_lower_hex (hex_digit d) = true.
Proof.
  intros Hd. unfold is_lower_hex. rewrite hex_digit_code by done.
  destruct (d <? 10)%Z eqn:E.
  - apply Z.ltb_lt in E. apply orb_true_iff. left.
    apply andb_true_iff. split; apply Nat.leb_le; lia.
  - apply Z.ltb_ge in E. apply orb_true_iff. right.
    apply andb_true_iff. split; apply Nat.leb_le; lia.
Qed.

Lemma hex_digit_inj a b :
  (0 <= a < 16)%Z -> (0 <= b < 16)%Z -> hex_digit a = hex_digit b -> a = b.
Proof.
  intros Ha Hb H. apply (f_equal nat_of_ascii) in H.
  rewrite !hex_digit_code in H by done.
  destruct (a <? 10)%Z eqn:Ea, (b <? 10)%Z eqn:Eb;
    rewrite ?Z.ltb_lt, ?Z.ltb_ge in *; lia.
Qed.

Lemma hex_digits_length k n : List.length (hex_digits k n) = k.
Proof.
  revert n. induction k as [|k IH]; intros n; simpl; [done|].
  rewrite length_app, IH. simpl. lia.
Qed.

Lemma hex_digits_lower k n :
  Forall (fun c => is_lower_hex c = true) (hex_digits k n).
Proof.
  revert n. induction k as [|k IH]; intros n; simpl; [constructor|].
  apply Forall_app. split; [apply IH|].
  constructor; [|constructor]. apply hex_digit_lower.
  apply Z.mod_pos_bound. lia.
Qed.

Lemma hex_digits_inj k a b :
  hex_digits k a = hex_digits k b -> (a mod 16 ^ Z.of_nat k = b mod 16 ^ Z.of_nat k)%Z.
Proof.
  revert a b. induction k as [|k IH]; intros a b H.
  - simpl. by rewrite !Z.mod_1_r.
  - simpl in H. apply app_inj_tail in H as [H1 H2].
    apply IH in H1.
    assert (a mod 16 = b mod 16)%Z as H3.
    { apply hex_digit_inj; [apply Z.mod_pos_bound; lia..|congruence]. }
    rewrite Nat2Z.inj_succ, Z.pow_succ_r by lia.
    rewrite !Z.rem_mul_r by lia. congruence.
Qed.

Lemma dashed_token h :
  List.length h = 32 -> Forall (fun c => is_lower_hex c = true) h ->
  is_token_chars (dashed h) = true.
Proof.
  intros Hlen Hh.
  do 32 (destruct h as [|? h]; [simpl in Hlen; discriminate Hlen|]).
  destruct h; [|simpl in Hlen; discriminate Hlen].
  repeat match goal with
         | H : Forall _ (_ :: _) |- _ => apply Forall_cons in H as [? H]
         end.
  unfold is_token_chars, dashed. simpl.
  repeat match goal with H : is_lower_hex _ = true |- _ => rewrite H; clear H end.
  reflexivity.
Qed.

Lemma lt_pow2_log2 a n : (0 < n)%Z -> (0 <= a)%Z -> (a < 2 ^ n <-> Z.log2 a < n)%Z.
Proof.
  intros Hn Ha. destruct (Z.eq_dec a 0) as [->|Hne].
  - change (Z.log2 0) with 0%Z. split; intros _; [done|]. apply Z.pow_pos_nonneg; lia.
  - apply Z.log2_lt_pow2. lia.
Qed.

Lemma lor_bound a b n :
  (0 < n)%Z -> (0 <= a < 2 ^ n)%Z -> (0 <= b < 2 ^ n)%Z -> (0 <= Z.lor a b < 2 ^ n)%Z.
Proof.
  intros Hn [Ha1 Ha2] [Hb1 Hb2].
  assert (0 <= Z.lor a b)%Z as H0 by (apply Z.lor_nonneg; lia).
  split; [done|]. apply lt_pow2_log2; [done..|].
  rewrite Z.log2_lor by done.
  apply lt_pow2_log2 in Ha2; [|done..]. apply lt_pow2_log2 in Hb2; [|done..]. lia.
Qed.

Lemma clear_bound a c n :
  (0 < n)%Z -> (0 <= a < 2 ^ n)%Z -> (0 <= Z.land a (Z.lnot c) < 2 ^ n)%Z.
Proof.
  intros Hn [Ha1 Ha2].
  assert (Z.log2 a < n)%Z as Hlog by (by apply lt_pow2_log2).
  assert (0 <= Z.land a (Z.lnot c))%Z as H0 by (apply Z.land_nonneg; by left).
  split; [done|]. apply lt_pow2_log2; [done..|].
  rewrite <- (Z.land_ones_low a n) by done.
  rewrite <- Z.land_assoc.
  assert (0 <= Z.land (Z.ones n) (Z.lnot c))%Z as Hm.
  { apply Z.land_nonneg. left. rewrite Z.ones_equiv.
    pose proof (Z.pow_pos_nonneg 2 n). lia. }
  pose proof (Z.log2_land a _ Ha1 Hm). lia.
Qed.

Lemma uuid4_int_bound r : (0 <= uuid4_int r < 2 ^ 128)%Z.
Proof.
  unfold uuid4_int.
  apply lor_bound; [lia| |by vm_compute].
  apply clear_bound; [lia|].
  apply lor_bound; [lia| |by vm_compute].
  apply clear_bound; [lia|].
  apply Z.mod_pos_bound. lia.
Qed.

Lemma dashed_inj h h' :
  List.length h = 32 -> List.length h' = 32 -> dashed h = dashed h' -> h = h'.
Proof.
  intros Hlen Hlen' H.
  do 32 (destruct h as [|? h]; [simpl in Hlen; discriminate Hlen|]).
  destruct h; [|simpl in Hlen; discriminate Hlen].
  do 32 (destruct h' as [|? h']; [simpl in Hlen'; discriminate Hlen'|]).
  destruct h'; [|simpl in Hlen'; discriminate Hlen'].
  unfold dashed in H. simpl in H. injection H as ->. congruence.
Qed.

Lemma string_of_list_ascii_inj l l' :
  string_of_list_ascii l = string_of_list_ascii l' -> l = l'.
Proof.
  intros H. apply (f_equal list_ascii_of_string) in H.
  by rewrite !list_ascii_of_string_of_list_ascii in H.
Qed.

(** [str] is injective on the integers that [uuid4] produces. *)
Lemma uuid_str_inj r r' :
  uuid_str (uuid4_int r) = uuid_str (uuid4_int r') -> uuid4_int r = uuid4_int r'.
Proof.
  intros H. apply string_of_list_ascii_inj in H.
  apply dashed_inj in H; [|apply hex_digits_length..].
  apply hex_digits_inj in H.
  change (16 ^ Z.of_nat 32)%Z with (2 ^ 128)%Z in H.
  rewrite !Z.mod_small in H by apply uuid4_int_bound. done.
Qed.

Lemma uuid_str_token n : is_token (uuid_str n) = true.
Proof.
  unfold is_token, uuid_str. rewrite list_ascii_of_string_of_list_ascii.
  apply dashed_token; [apply hex_digits_length|apply hex_digits_lower].
Qed.

Lemma generate_new_ids_eq env w :
  generate_new_ids env w =
    (Ret (new_ids env (drawn w)),
     set_drawn (5 + drawn w) (add_out MGeneratingNewIds w)).
Proof. reflexivity. Qed.

(** C5, as amended: [generate_new_ids] always returns; the set holds the
    five identifier names, in order; every value is a 36-character
    lowercase token in 8-4-4-4-12 groups; and the five values are pairwise
    distinct whenever the five UUID integers drawn are. *)
Theorem generated_set_well_formed env w :
  exists ids w',
    generate_new_ids env w = (Ret ids, w') /\
    ids.*1 = ID_KEYS /\
    Forall (fun kv => is_token (snd kv) = true) ids /\
    (NoDup ((fun i => uuid4_int (urandom env i)) <$> seq (drawn w) 5) ->
     NoDup ids.*2).
Proof.
  exists (new_ids env (drawn w)). eexists. split; [apply generate_new_ids_eq|].
  split; [reflexivity|]. split.
  - repeat constructor; apply uuid_str_token.
  - intros Hnd.
    change ((new_ids env (drawn w)).*2)
      with (uuid_str <$> ((fun i => uuid4_int (urandom env i)) <$> seq (drawn w) 5)).
    apply NoDup_fmap_2_strong; [|done].
    intros x y Hx Hy Heq.
    apply list_elem_of_fmap in Hx as (i & -> & _).
    apply list_elem_of_fmap in Hy as (i' & -> & _).
    by apply uuid_str_inj.
Qed.

Lemma generated_set_well_formed_witness :
  NoDup ((fun i => uuid4_int (urandom env_linux i)) <$> seq 0 5) /\
  NoDup (new_ids env_linux 0).*2.
Proof.
  assert (NoDup ((fun i => uuid4_int (urandom env_linux i)) <$> seq 0 5)) as Hnd.
  { apply (bool_decide_unpack _). vm_compute. exact I. }
  split; [exact Hnd|].
  destruct (generated_set_well_formed env_linux (world_of ∅ [])) as (ids & w' & Heq & _ & _ & H).
  rewrite generate_new_ids_eq in Heq. injection Heq as <- _.
  exact (H Hnd).
Defined.

(** C5 as stated fails: when the random source repeats a draw, two
    identifiers of the generated set are the same token. *)
Lemma generated_set_may_repeat :
  ~ (forall ids w',
       generate_new_ids env_repeating (world_of ∅ []) = (Ret ids, w') ->
       NoDup ids.*2).
Proof.
  intros H. specialize (H _ _ (generate_new_ids_eq _ _)).
  apply NoDup_cons in H as [H _]. apply H. left.
Qed.

Lemma dict_update_notin (d : gmap string pyval) ids k :
  k ∉ ids.*1 -> dict_update d ids !! k = d !! k.
Proof.
  unfold dict_update. revert d. induction ids as [|[k' v] ids IH]; intros d Hk; [done|].
  simpl. rewrite IH by set_solver. apply lookup_insert_ne. set_solver.
Qed.

Lemma dict_update_in (d : gmap string pyval) ids k v :
  NoDup ids.*1 -> (k, v) ∈ ids -> dict_update d ids !! k = Some (PStr v).
Proof.
  unfold dict_update. revert d. induction ids as [|[k' v'] ids IH]; intros d Hnd Hin.
  - by apply elem_of_nil in Hin.
  - simpl in *. apply NoDup_cons in Hnd as [Hk' Hnd].
    apply elem_of_cons in Hin as [[= <- <-]|Hin].
    + fold (dict_update (<[k:=PStr v]> d) ids).
      rewrite dict_update_notin by done. apply lookup_insert_eq.
    + by apply IH.
Qed.


Lemma new_ids_keys env n : (new_ids env n).*1 = ID_KEYS.
Proof. reflexivity. Qed.

Lemma ID_KEYS_NoDup : NoDup ID_KEYS.
Proof. apply (bool_decide_unpack _). vm_compute. exact I. Qed.

Lemma new_ids_get_in env n k :
  k ∈ ID_KEYS -> (k, ids_get (new_ids env n) k) ∈ new_ids env n.
Proof.
  intros Hk. unfold ID_KEYS in Hk.
  repeat (apply elem_of_cons in Hk as [->|Hk]; [set_solver|]).
  by apply elem_of_nil in Hk.
Qed.

Ltac unfold_m :=
  unfold try_except, bind, path_exists, gets, load_json, copy2, dump_json,
    create_item_table, attempt, perform, modify, print, input, ret, raise in *.

Ltac exec_simpl :=
  cbn [fs machine_guid sqm_machine_id platform_uuid stdin drawn stdout journal
       set_fs set_reg set_platform_uuid set_stdin set_drawn add_out add_op
       effect fst snd negb andb orb] in *.

Ltac exec :=
  repeat first
    [ progress unfold_m | progress exec_simpl | progress simplify_eq | case_match ].

(** What a successful [update_current_file] did. *)
Lemma update_current_file_true env ids w w' :
  update_current_file env ids w = (Ret true, w') ->
  exists d,
    fs w !! StorageJson = Some (CJson (JObject d)) /\
    fault env UcfCopy = None /\
    w' = add_out MStorageUpdated
           (add_op (OpWrite StorageJson (CJson (JObject (dict_update d ids))))
              (effect (OpWrite StorageJson (CJson (JObject (dict_update d ids))))
                 (add_out (MCurrentBackupCreated (now env TsStorageRestore))
                    (add_op (OpCopy StorageJson (StorageRestoreBak (now env TsStorageRestore)))
                       (effect (OpCopy StorageJson (StorageRestoreBak (now env TsStorageRestore))) w))))).
Proof.
  unfold update_current_file. intros H. exec; eauto.
Qed.

(** C4: when the canonical apply succeeds on a store, the store held a JSON
    object; the document written back agrees with it on every key that is
    not one of the five identifier keys, and maps each identifier key to
    the token of the newly generated set. *)
Theorem canonical_apply_keeps_unrelated_keys env w0 w1 ids w w' :
  generate_new_ids env w0 = (Ret ids, w1) ->
  update_current_file env ids w = (Ret true, w') ->
  exists doc doc',
    fs w !! StorageJson = Some (CJson (JObject doc)) /\
    fs w' !! StorageJson = Some (CJson (JObject doc')) /\
    (forall k, k ∉ ID_KEYS -> doc' !! k = doc !! k) /\
    (forall k, k ∈ ID_KEYS -> doc' !! k = Some (PStr (ids_get ids k))).
Proof.
  rewrite generate_new_ids_eq. intros [= <- _] H.
  apply update_current_file_true in H as (d & Hd & _ & ->).
  exists d, (dict_update d (new_ids env (drawn w0))).
  split; [done|]. split; [simpl; apply lookup_insert_eq|]. split.
  - intros k Hk. by apply dict_update_notin.
  - intros k Hk. apply dict_update_in; [apply ID_KEYS_NoDup|].
    by apply new_ids_get_in.
Qed.

Lemma canonical_apply_keeps_unrelated_keys_witness :
  exists w' doc',
    update_current_file env_linux (new_ids env_linux 0) world_unrelated = (Ret true, w') /\
    fs w' !! StorageJson = Some (CJson (JObject doc')) /\
    doc' !! "unrelated.key" = Some (PStr "x") /\
    doc' !! DEV_DEVICE_ID = Some (PStr "00000000-0000-4000-8000-000000000000").
Proof.
  destruct (update_current_file env_linux (new_ids env_linux 0) world_unrelated)
    as [r w'] eqn:Hrun.
  assert (r = Ret true) as -> by (vm_compute in Hrun; congruence).
  destruct (canonical_apply_keeps_unrelated_keys env_linux (world_of ∅ []) _ _ _ _
              (generate_new_ids_eq _ _) Hrun)
    as (doc & doc' & Hdoc & Hdoc' & Hframe & Hnew).
  exists w', doc'. split; [done|]. split; [done|]. split.
  - rewrite Hframe.
    + unfold world_unrelated, world_of in Hdoc. simpl in Hdoc.
      rewrite lookup_singleton_eq in Hdoc. by injection Hdoc as <-.
    + unfold ID_KEYS. intros Hin.
      repeat (apply elem_of_cons in Hin as [Hin|Hin]; [discriminate Hin|]).
      by apply elem_of_nil in Hin.
  - rewrite Hnew; [reflexivity|]. unfold ID_KEYS. left.
Defined.

#[local] Arguments select_keys : simpl never.
#[local] Arguments dict_update : simpl never.
#[local] Arguments storage_ids : simpl never.

(** The loop over the keys: an entry either keeps the value it had, or had
    no true value and now holds the row of the database. *)
Lemma select_keys_entry env rows keys cur cur' err k :
  select_keys env rows keys cur = (cur', err) ->
  cur' !! k = cur !! k \/
  (k ∈ keys /\ truthy_get (cur !! k) = false /\ is_Some (rows !! k) /\
   cur' !! k = rows !! k).
Proof.
  revert cur. induction keys as [|key keys IH]; intros cur H.
  - injection H as <- _. by left.
  - unfold select_keys in H. fold select_keys in H.
    destruct (fault env (BkSelect key)); [injection H as <- _; by left|].
    destruct (rows !! key) as [v|] eqn:Hrow.
    + destruct (truthy_get (cur !! key)) eqn:Ht; simpl in H.
      * destruct (IH _ H) as [?|(? & ? & ? & ?)]; [by left|right].
        split; [set_solver|done].
      * destruct (decide (key = k)) as [->|Hne].
        -- right. split; [set_solver|]. split; [done|]. split; [by rewrite Hrow|].
           destruct (IH _ H) as [Hk|(_ & _ & _ & Hk)]; [|done].
           by rewrite Hk, lookup_insert_eq.
        -- destruct (IH _ H) as [Hk|(? & Hk & ? & ?)].
           ++ left. by rewrite Hk, lookup_insert_ne.
           ++ rewrite lookup_insert_ne in Hk by done. right.
              split; [set_solver|done].
    + destruct (IH _ H) as [?|(? & ? & ? & ?)]; [by left|right].
      split; [set_solver|done].
Qed.

Lemma storage_ids_lookup d k :
  k ∈ ID_KEYS -> storage_ids d !! k = Some (default (PStr EmptyString) (d !! k)).
Proof.
  intros Hk. unfold storage_ids, ID_KEYS in *.
  repeat (apply elem_of_cons in Hk as [->|Hk]; [reflexivity|]).
  by apply elem_of_nil in Hk.
Qed.

Lemma bind_Ret {A B} (c : M A) (f : A -> M B) w a w1 :
  c w = (Ret a, w1) -> bind c f w = f a w1.
Proof. intros H. unfold bind. by rewrite H. Qed.

Lemma bind_Raise {A B} (c : M A) (f : A -> M B) w e w1 :
  c w = (Raise e, w1) -> bind c f w = (Raise e, w1).
Proof. intros H. unfold bind. by rewrite H. Qed.

Lemma try_Ret {A} (c : M A) h w a w1 :
  c w = (Ret a, w1) -> try_except c h w = (Ret a, w1).
Proof. intros H. unfold try_except. by rewrite H. Qed.

Lemma try_Raise {A} (c : M A) h w e w1 :
  c w = (Raise e, w1) -> try_except c h w = h e w1.
Proof. intros H. unfold try_except. by rewrite H. Qed.

(** First half of the backup: what was read from [storage.json]. *)
Lemma read_storage_phase env (has_storage : bool) w :
  exists ids1 w1,
    (if has_storage
     then try_except (read_storage_ids env)
            (fun _ => print MWarnStorageRead ;; ret ∅)
     else ret ∅) w = (Ret ids1, w1) /\
    fs w1 = fs w /\
    (ids1 = ∅ \/
     exists d, fs w !! StorageJson = Some (CJson (JObject d)) /\ ids1 = storage_ids d).
Proof.
  unfold read_storage_ids. exec;
    try rewrite (right_id_L ∅ (∪)); eexists _, _; (split; [reflexivity|]);
    (split; [reflexivity|]); first [by left | right; eauto].
Qed.

(** Second half of the backup: what the database added. *)
Lemma read_sqlite_phase env ids1 w :
  exists cur w2,
    read_sqlite_ids env ids1 w = (Ret cur, w2) /\
    (forall p, p <> StateVscdb -> fs w2 !! p = fs w !! p) /\
    (cur = ids1 \/
     exists err, select_keys env (item_rows (fs w !! StateVscdb)) ID_KEYS ids1 = (cur, err)).
Proof.
  unfold read_sqlite_ids, item_rows.
  exec.
  all: eexists _, _; (split; [reflexivity|]); exec_simpl;
    (split; [intros p Hp; rewrite ?lookup_insert_ne by done; done|]).
  all: first [by left | right; eexists; apply surjective_pairing].
Qed.

Ltac step_pure H :=
  first
    [ rewrite (bind_Ret (print _) _ _ _ _ eq_refl) in H
    | rewrite (bind_Ret (path_exists _) _ _ _ _ eq_refl) in H
    | rewrite (bind_Ret (gets _) _ _ _ _ eq_refl) in H
    | rewrite (bind_Ret (ret _) _ _ _ _ eq_refl) in H ].




Lemma check_cursor_running_returns env w :
  exists v, check_cursor_running env w = (Ret v, w) /\
            (fst v = None <-> fault env ImportSubprocess <> None).
Proof.
  unfold check_cursor_running, check_tasklist, check_wmic, check_pgrep,
    except_subprocess, import_subprocess, run_tool, or_not_running.
  exec; eexists; (split; [reflexivity|]); cbn [fst]; split; congruence.
Qed.

Lemma check_import_raises env e w :
  fault env ImportSubprocess = Some e ->
  check_cursor_running env w = (Ret (None, None), w).
Proof.
  intros He. unfold check_cursor_running, check_tasklist, check_pgrep,
    except_subprocess, import_subprocess.
  unfold_m. rewrite He. by repeat (case_match; simplify_eq).
Qed.

Lemma check_pgrep_raises env e w :
  fault env ImportSubprocess = None ->
  String.eqb (platform env) "win32" = false ->
  pgrep env = ToolRaises e ->
  check_cursor_running env w = (Ret (Some false, None), w).
Proof.
  intros Hi Hp He. unfold check_cursor_running, check_pgrep, except_subprocess,
    import_subprocess, attempt, run_tool.
  rewrite Hi, Hp, He. by destruct (String.eqb (platform env) "darwin").
Qed.

Lemma check_windows_tools_raise env e e' w :
  fault env ImportSubprocess = None ->
  String.eqb (platform env) "win32" = true ->
  tasklist env = ToolRaises e -> wmic env = ToolRaises e' ->
  check_cursor_running env w = (Ret (Some false, None), w).
Proof.
  intros Hi Hp He He'. unfold check_cursor_running, check_tasklist, check_wmic,
    except_subprocess, import_subprocess, attempt, run_tool.
  by rewrite Hi, Hp, He, He'.
Qed.

(** C6, as amended: the running-process check never raises.  It answers
    unknown exactly when [import subprocess] fails.  When the import
    succeeds and its tools time out or fail it answers "not running".  The
    orchestrator treats an unknown answer exactly as "not running", and in
    both cases prints nothing and asks nothing. *)
Theorem running_check_never_raises env w :
  (exists v, check_cursor_running env w = (Ret v, w) /\
             (fst v = None <-> fault env ImportSubprocess <> None)) /\
  (forall e,
     fault env ImportSubprocess = Some e ->
     check_cursor_running env w = (Ret (None, None), w)) /\
  (forall e,
     fault env ImportSubprocess = None ->
     String.eqb (platform env) "win32" = false -> pgrep env = ToolRaises e ->
     check_cursor_running env w = (Ret (Some false, None), w)) /\
  (forall e e',
     fault env ImportSubprocess = None ->
     String.eqb (platform env) "win32" = true ->
     tasklist env = ToolRaises e -> wmic env = ToolRaises e' ->
     check_cursor_running env w = (Ret (Some false, None), w)) /\
  (forall pid pid',
     running_gate (None, pid) w = (Ret true, w) /\
     running_gate (Some false, pid') w = (Ret true, w) /\
     reset_after_check env (None, pid) w = reset_after_check env (Some false, pid') w).
Proof.
  split; [apply check_cursor_running_returns|].
  split; [intros e; apply check_import_raises|].
  split; [intros e; apply check_pgrep_raises|].
  split; [intros e e'; apply check_windows_tools_raise|].
  intros pid pid'. repeat split.
Qed.

Lemma running_check_never_raises_witness :
  check_cursor_running env_pgrep_timeout (world_of ∅ []) =
    (Ret (Some false, None), world_of ∅ []) /\
  check_cursor_running env_no_subprocess (world_of ∅ []) =
    (Ret (None, None), world_of ∅ []).
Proof.
  split.
  - destruct (running_check_never_raises env_pgrep_timeout (world_of ∅ []))
      as (_ & _ & H & _).
    apply (H TimeoutExpired); reflexivity.
  - destruct (running_check_never_raises env_no_subprocess (world_of ∅ []))
      as (_ & H & _).
    apply (H ImportError); reflexivity.
Defined.

(** C6 as stated fails: when [pgrep] times out the check does not answer
    unknown, and an unknown answer makes the orchestrator print no warning. *)
Lemma timeout_is_not_unknown :
  pgrep env_pgrep_timeout = ToolRaises TimeoutExpired /\
  ~ (exists pid w',
       check_cursor_running env_pgrep_timeout (world_of ∅ []) = (Ret (None, pid), w')) /\
  stdout (snd (running_gate (None, None) (world_of ∅ []))) = [].
Proof.
  split; [reflexivity|]. split; [|reflexivity].
  intros (pid & w' & H). discriminate H.
Qed.

Ltac run_m := repeat first [progress unfold_m | progress exec_simpl].

Lemma bool_decide_is_Some_None {A} (o : option A) :
  o = None -> bool_decide (is_Some o) = false.
Proof. intros ->. apply bool_decide_eq_false_2. by intros [? ?]. Qed.

(** C10: when neither [storage.json] nor the database nor the [machineId]
    file exists, [reset_machine_ids] returns [False] having changed no
    storage, journalled no operation, drawn no random number, and printed
    neither the backup banner, nor the generation banner, nor the
    confirmation prompt. *)
Theorem no_files_fails_early env w :
  fs w !! StorageJson = None -> fs w !! StateVscdb = None ->
  fs w !! MachineIdFile = None ->
  exists w' out,
    reset_machine_ids env w = (Ret false, w') /\
    journal w' = journal w /\ same_storage w w' /\ drawn w' = drawn w /\
    stdout w' = stdout w ++ out /\
    (MBackingUpCurrent ∉ out) /\ (MGeneratingNewIds ∉ out) /\ (MPromptConfirm ∉ out).
Proof.
  intros H1 H2 H3.
  apply bool_decide_is_Some_None in H1, H2, H3.
  destruct (check_cursor_running_returns env (add_out MStarting w)) as (v & Hv & _).
  unfold reset_machine_ids, try_except.
  rewrite (bind_Ret (print _) _ _ _ _ eq_refl).
  rewrite (bind_Ret _ _ _ _ _ Hv).
  unfold reset_after_check, running_gate, input.
  destruct v as [[[]|] pid]; run_m.
  2,3: rewrite H1, H2, H3; run_m; eexists _, _; (split; [reflexivity|]);
       exec_simpl; (split; [done|]); (split; [done|]); (split; [done|]);
       rewrite <- !app_assoc; (split; [reflexivity|]); set_solver.
  destruct (stdin w) as [|a rest]; run_m.
  - eexists _, _. split; [reflexivity|]. exec_simpl. repeat (split; [done|]).
    rewrite <- !app_assoc. split; [reflexivity|]. set_solver.
  - destruct (String.eqb (lower a) "y"); run_m;
      rewrite ?H1, ?H2, ?H3; run_m;
      eexists _, _; (split; [reflexivity|]); exec_simpl; repeat (split; [done|]);
      rewrite <- !app_assoc; (split; [reflexivity|]); set_solver.
Qed.

Lemma no_files_fails_early_witness :
  exists w' out,
    reset_machine_ids env_linux (world_of ∅ []) = (Ret false, w') /\
    journal w' = journal (world_of ∅ []) /\ same_storage (world_of ∅ []) w' /\
    drawn w' = drawn (world_of ∅ []) /\
    stdout w' = stdout (world_of ∅ []) ++ out /\
    (MBackingUpCurrent ∉ out) /\ (MGeneratingNewIds ∉ out) /\ (MPromptConfirm ∉ out).
Proof.
  apply (no_files_fails_early env_linux (world_of ∅ [])); apply lookup_empty.
Defined.

(** The storage operations of [update_current_file], in order. *)
Lemma update_current_file_journal env ids w :
  let r := update_current_file env ids w in
  exists j,
    journal (snd r) = journal w ++ j /\
    same_storage (replay j w) (snd r) /\
    ((j = [] /\ fst r = Ret false) \/
     (is_Some (fs w !! StorageJson) /\ fault env UcfCopy = None /\
      ((j = [storage_copy env] /\ fst r = Ret false) \/
       (j = [storage_copy env; OpTruncate StorageJson] /\ fst r = Ret false) \/
       (exists d, fs w !! StorageJson = Some (CJson (JObject d)) /\
                  j = [storage_copy env;
                       OpWrite StorageJson (CJson (JObject (dict_update d ids)))] /\
                  fst r = Ret true)))).
Proof.
  unfold update_current_file, storage_copy. exec.
  all: try (exists []; rewrite app_nil_r; split; [reflexivity|];
            split; [by repeat split|]; by left).
  all: eexists; (split; [rewrite <- ?app_assoc; reflexivity|]).
  all: cbn [app replay foldl]; exec_simpl;
       repeat match goal with H : fs _ !! _ = _ |- _ => rewrite H end; exec_simpl.
  all: (split; [by repeat split|]).
  all: right; (split; [eauto|]); (split; [done|]); naive_solver.
Qed.

(** The storage operations of [update_machine_id_file], in order: the
    directory, the copy when there is a file and the copy works, then the
    write. *)
Lemma update_machine_id_file_journal env dev w :
  let r := update_machine_id_file env dev w in
  exists j,
    journal (snd r) = journal w ++ j /\
    same_storage (replay j w) (snd r) /\
    ((j = [] /\ fst r = Ret false) \/
     exists pre,
       ((pre = [OpMakedirs MachineIdFile] /\
         (fs w !! MachineIdFile = None \/ is_Some (fault env UmfCopy))) \/
        (pre = [OpMakedirs MachineIdFile; marker_copy env] /\
         is_Some (fs w !! MachineIdFile) /\ fault env UmfCopy = None)) /\
       ((j = pre /\ fst r = Ret false) \/
        (j = pre ++ [OpTruncate MachineIdFile] /\ fst r = Ret false) \/
        (j = pre ++ [OpWrite MachineIdFile (CText dev)] /\ fst r = Ret true))).
Proof.
  unfold update_machine_id_file, marker_copy. exec.
  all: try (exists []; rewrite app_nil_r; split; [reflexivity|];
            split; [by repeat split|]; by left).
  all: eexists; (split; [rewrite <- ?app_assoc; reflexivity|]).
  all: cbn [app replay foldl]; exec_simpl;
       repeat match goal with H : fs _ !! _ = _ |- _ => rewrite H end; exec_simpl.
  all: (split; [by repeat split|]).
  all: right.
  all: repeat match goal with
         | H : bool_decide _ = false |- _ =>
             apply bool_decide_eq_false_1 in H; apply eq_None_not_Some in H
         | H : bool_decide _ = true |- _ => apply bool_decide_eq_true_1 in H
         end.
  all: first
    [ exists [OpMakedirs MachineIdFile]; split;
        [left; split; [reflexivity|]; first [by left | right; by eexists]
        |cbn [app]; naive_solver]
    | exists [OpMakedirs MachineIdFile;
              OpCopy MachineIdFile (MachineIdRestoreBak (now env TsMachineIdRestore))];
        split; [right; split; [reflexivity|]; split; [by eexists|done]
               |cbn [app]; naive_solver] ].
Qed.

(** C1, as amended.  The JSON store is copied to its [.restore_bak] name
    before [update_current_file] opens it for writing, the copy holds the
    prior document, and when the copy cannot be made nothing is written and
    the function returns [False].  For the marker file the copy comes
    before the overwrite when there is a file and the copy works; with no
    file or a failed copy the overwrite is made without one.  The database
    and registry mutators make no copy at all. *)
Theorem snapshot_precedes_json_write env ids dev w :
  (let r := update_current_file env ids w in
   exists j,
     journal (snd r) = journal w ++ j /\
     ((j = [] /\ fst r = Ret false) \/
      (fault env UcfCopy = None /\ is_Some (fs w !! StorageJson) /\
       fs (snd r) !! StorageRestoreBak (now env TsStorageRestore) =
         fs w !! StorageJson /\
       ((j = [storage_copy env] /\ fst r = Ret false) \/
        (j = [storage_copy env; OpTruncate StorageJson] /\ fst r = Ret false) \/
        (exists d, j = [storage_copy env; OpWrite StorageJson (CJson (JObject d))] /\
                   fst r = Ret true))))) /\
  (let r := update_machine_id_file env dev w in
   exists j,
     journal (snd r) = journal w ++ j /\
     ((j = [] /\ fst r = Ret false) \/
      exists pre,
        ((pre = [OpMakedirs MachineIdFile] /\
          (fs w !! MachineIdFile = None \/ is_Some (fault env UmfCopy))) \/
         (pre = [OpMakedirs MachineIdFile; marker_copy env] /\
          is_Some (fs w !! MachineIdFile) /\ fault env UmfCopy = None /\
          fs (snd r) !! MachineIdRestoreBak (now env TsMachineIdRestore) =
            fs w !! MachineIdFile)) /\
        ((j = pre /\ fst r = Ret false) \/
         (j = pre ++ [OpTruncate MachineIdFile] /\ fst r = Ret false) \/
         (j = pre ++ [OpWrite MachineIdFile (CText dev)] /\ fst r = Ret true)))) /\
  quiet (sqlite_ops ids) (about EmbeddedStore) w (snd (update_sqlite_db env ids w)) /\
  quiet (system_ops ids) (about PlatformRegistry) w (snd (update_system_ids env ids w)).
Proof.
  split; [|split; [|split; [apply keeps_update_sqlite_db|apply keeps_update_system_ids]]].
  - destruct (update_current_file_journal env ids w) as (j & Hj & (Hfs & _) & Hcases).
    cbn zeta. exists j. split; [done|].
    destruct Hcases as [?|([c Hc] & Hcopy & Hcases)]; [by left|right].
    split; [done|]. split; [by eexists|]. split.
    + rewrite <- Hfs, Hc.
      destruct Hcases as [[-> _]|[[-> _]|(d & _ & -> & _)]];
        unfold storage_copy; cbn [replay foldl effect]; rewrite ?Hc; exec_simpl;
        rewrite ?lookup_insert_ne by done; by rewrite lookup_insert_eq.
    + naive_solver.
  - destruct (update_machine_id_file_journal env dev w) as (j & Hj & (Hfs & _) & Hcases).
    cbn zeta. exists j. split; [done|].
    destruct Hcases as [?|(pre & Hpre & Hcases)]; [by left|right].
    exists pre. split; [|done].
    destruct Hpre as [?|(-> & [c Hc] & Hcopy)]; [by left|right].
    split; [done|]. split; [by eexists|]. split; [done|].
    rewrite <- Hfs, Hc.
    destruct Hcases as [[-> _]|[[-> _]|[-> _]]];
      unfold marker_copy; cbn [app replay foldl effect]; exec_simpl;
      rewrite ?Hc; exec_simpl;
      rewrite ?lookup_insert_ne by done; by rewrite lookup_insert_eq.
Qed.

Lemma snapshot_precedes_json_write_witness :
  let r := update_machine_id_file env_linux "new-device-id" world_marker in
  fs (snd r) !! MachineIdRestoreBak (now env_linux TsMachineIdRestore) =
    Some (CText "old-device-id") /\
  fs (snd r) !! MachineIdFile = Some (CText "new-device-id").
Proof.
  cbn zeta.
  destruct (snapshot_precedes_json_write env_linux [] "new-device-id" world_marker)
    as (_ & (j & Hj & Hcases) & _).
  split; [|vm_compute; reflexivity].
  destruct Hcases as [[-> _]|(pre & [[_ [H|[e H]]]|(_ & _ & _ & H)] & _)].
  - vm_compute in Hj. discriminate Hj.
  - vm_compute in H. discriminate H.
  - discriminate H.
  - rewrite H. reflexivity.
Defined.

(** C1 as stated fails: when the copy of the marker file cannot be made,
    the file is overwritten all the same, no snapshot exists, and the
    mutator reports success after a yellow notice. *)
Lemma failed_snapshot_does_not_stop_overwrite :
  let r := update_machine_id_file env_marker_copy_fails "new-device-id" world_marker in
  fault env_marker_copy_fails UmfCopy = Some PermissionError /\
  fst r = Ret true /\
  journal (snd r) =
    [OpMakedirs MachineIdFile; OpWrite MachineIdFile (CText "new-device-id")] /\
  fs (snd r) !! MachineIdFile = Some (CText "new-device-id") /\
  fs (snd r) !!
    MachineIdRestoreBak (now env_marker_copy_fails TsMachineIdRestore) = None /\
  stdout (snd r) = [MBackupCreationFailed; MMachineIdUpdated].
Proof. cbn zeta. repeat split; vm_compute; reflexivity. Qed.

(** C2, as amended: when the canonical apply returns [False],
    [apply_backends] returns [False] in the very state that
    [update_current_file] left, so no secondary mutator has run: every
    storage operation since the start is a copy of or a write to the JSON
    store, and every message is about the JSON store.  Nothing is reported
    about the secondary backends. *)
Theorem canonical_failure_stops_apply env ids w w1 :
  update_current_file env ids w = (Ret false, w1) ->
  apply_backends env ids w = (Ret false, w1) /\
  exists j out,
    journal w1 = journal w ++ j /\ stdout w1 = stdout w ++ out /\
    Forall (fun o => forall b, mutates o = Some b -> ~ secondary b) j /\
    Forall (fun m => reports_on m = Some JsonStore) out.
Proof.
  intros H. split.
  - unfold apply_backends. by rewrite (bind_Ret _ _ _ _ _ H).
  - pose proof (keeps_update_current_file env ids w) as [(j & Hj & HP & _) (l & Hl & HQ) _ _].
    rewrite H in *. exists j, l. split; [done|]. split; [done|]. split; [|done].
    eapply Forall_impl; [exact HP|]. intros o Ho b Hb Hs.
    destruct o; simpl in Ho, Hb; repeat case_match; simplify_eq; try done;
      destruct Hs as [?|[?|?]]; done.
Qed.

Lemma canonical_failure_stops_apply_witness :
  let r := update_current_file env_linux (new_ids env_linux 0) world_broken_json in
  fst r = Ret false /\
  apply_backends env_linux (new_ids env_linux 0) world_broken_json = (Ret false, snd r).
Proof.
  cbn zeta.
  assert (fst (update_current_file env_linux (new_ids env_linux 0) world_broken_json)
          = Ret false) as Hfst by (vm_compute; reflexivity).
  split; [exact Hfst|].
  apply (canonical_failure_stops_apply env_linux (new_ids env_linux 0) world_broken_json).
  apply injective_projections; [exact Hfst|reflexivity].
Defined.

(** C2 as stated fails: after a failed canonical apply the run returns
    [False] and its output ends with the JSON store's error; no line of it
    reports on a secondary backend. *)
Lemma canonical_failure_reports_no_skip :
  let r := reset_machine_ids env_linux world_broken_json in
  fst r = Ret false /\
  last (stdout (snd r)) = Some MUpdateFailed /\
  Forall (fun m => reports_on m = None \/ reports_on m = Some JsonStore)
         (stdout (snd r)).
Proof.
  cbn zeta. split; [vm_compute; reflexivity|]. split; [vm_compute; reflexivity|].
  assert (stdout (snd (reset_machine_ids env_linux world_broken_json)) =
          [MStarting; MBackingUpCurrent; MWarnStorageRead;
           MBackupSaved "20240101_120000"; MGeneratingNewIds; MIdsToReset;
           MShowId DEV_DEVICE_ID (token env_linux 0);
           MShowId MAC_MACHINE_ID (token env_linux 1);
           MShowId MACHINE_ID (token env_linux 2);
           MShowId SQM_ID (token env_linux 3);
           MShowId SERVICE_MACHINE_ID (token env_linux 4);
           MPromptConfirm; MUpdateFailed]) as -> by (vm_compute; reflexivity).
  repeat constructor; by right.
Qed.

Lemma apply_backends_after_success env ids w w1 :
  update_current_file env ids w = (Ret true, w1) ->
  fst (apply_backends env ids w) = Ret true.
Proof.
  intros H. unfold apply_backends. rewrite (bind_Ret _ _ _ _ _ H). cbn [negb].
  destruct (returns_update_sqlite_db env ids w1) as [b1 H1].
  destruct (update_sqlite_db env ids w1) as [r1 w2] eqn:E1. simpl in H1. subst r1.
  rewrite (bind_Ret _ _ _ _ _ E1).
  destruct (returns_update_machine_id_file env (ids_get ids DEV_DEVICE_ID) w2) as [b2 H2].
  destruct (update_machine_id_file env _ w2) as [r2 w3] eqn:E2. simpl in H2. subst r2.
  rewrite (bind_Ret _ _ _ _ _ E2).
  destruct (returns_update_system_ids env ids w3) as [b3 H3].
  destruct (update_system_ids env ids w3) as [r3 w4] eqn:E3. simpl in H3. subst r3.
  rewrite (bind_Ret _ _ _ _ _ E3). reflexivity.
Qed.

(** C3, as amended.  A mutator whose source file is absent touches no
    storage and prints one not-found line in red.  For the JSON store it
    returns [False] and that ends [apply_backends] with [False]; for the
    database it returns [False] too, but once the JSON store is written
    [apply_backends] returns [True] whatever the other mutators did; the
    marker-file mutator creates the missing file and returns [True]. *)
Theorem absent_source_file env ids dev w :
  (fs w !! StorageJson = None ->
   update_current_file env ids w = (Ret false, add_out MCurrentFileNotFound w) /\
   apply_backends env ids w = (Ret false, add_out MCurrentFileNotFound w)) /\
  (fs w !! StateVscdb = None ->
   update_sqlite_db env ids w = (Ret false, add_out MSqliteNotFound w)) /\
  (forall w1, update_current_file env ids w = (Ret true, w1) ->
              fst (apply_backends env ids w) = Ret true) /\
  (fs w !! MachineIdFile = None ->
   fault env UmfMakedirs = None -> fault env UmfOpenWrite = None ->
   fault env UmfWrite = None ->
   let r := update_machine_id_file env dev w in
   fst r = Ret true /\ fs (snd r) !! MachineIdFile = Some (CText dev)) /\
  colour_of MCurrentFileNotFound = Red /\ colour_of MSqliteNotFound = Red.
Proof.
  split; [|split; [|split; [|split; [|done]]]].
  - intros H. apply bool_decide_is_Some_None in H.
    assert (update_current_file env ids w = (Ret false, add_out MCurrentFileNotFound w))
      as Hucf.
    { unfold update_current_file. run_m. rewrite H. by run_m. }
    split; [done|]. unfold apply_backends. by rewrite (bind_Ret _ _ _ _ _ Hucf).
  - intros H. apply bool_decide_is_Some_None in H.
    unfold update_sqlite_db. run_m. rewrite H. by run_m.
  - intros w1. apply apply_backends_after_success.
  - intros H H1 H2 H3. apply bool_decide_is_Some_None in H.
    unfold update_machine_id_file. run_m. rewrite H1. run_m. rewrite H. run_m.
    rewrite H2, H3. run_m. split; [done|]. apply lookup_insert_eq.
Qed.

Lemma absent_source_file_witness :
  update_current_file env_linux (new_ids env_linux 0) world_no_json =
    (Ret false, add_out MCurrentFileNotFound world_no_json) /\
  apply_backends env_linux (new_ids env_linux 0) world_no_json =
    (Ret false, add_out MCurrentFileNotFound world_no_json).
Proof.
  destruct (absent_source_file env_linux (new_ids env_linux 0) EmptyString world_no_json)
    as (H & _).
  apply H. vm_compute. reflexivity.
Defined.

(** C3 as stated fails: with no [storage.json] the run does not skip the
    JSON store; it prints a red error and returns [False], and the database
    and the marker file that do exist are never attempted. *)
Lemma absent_json_store_fails_the_run :
  let r := reset_machine_ids env_linux world_no_json in
  fs world_no_json !! StorageJson = None /\
  fst r = Ret false /\
  last (stdout (snd r)) = Some MCurrentFileNotFound /\
  colour_of MCurrentFileNotFound = Red /\
  fs (snd r) !! StateVscdb = fs world_no_json !! StateVscdb /\
  fs (snd r) !! MachineIdFile = fs world_no_json !! MachineIdFile.
Proof. cbn zeta. repeat split; vm_compute; reflexivity. Qed.

Lemma quiet_traces P Q w w' : quiet P Q w w' -> traces P Q w w'.
Proof. intros [? ? _ _]. by split. Qed.

Lemma traces_refl P Q w : traces P Q w w.
Proof. apply quiet_traces, quiet_refl. Qed.

Lemma traces_trans P Q w1 w2 w3 :
  traces P Q w1 w2 -> traces P Q w2 w3 -> traces P Q w1 w3.
Proof.
  intros [(j1 & Hj1 & HP1 & Hs1) (l1 & Hl1 & HQ1)]
         [(j2 & Hj2 & HP2 & Hs2) (l2 & Hl2 & HQ2)].
  split.
  - exists (j1 ++ j2). rewrite Hj2, Hj1, app_assoc. split; [done|].
    split; [by apply Forall_app|].
    rewrite replay_app. eapply same_storage_trans; [|exact Hs2].
    by apply same_storage_replay.
  - exists (l1 ++ l2). rewrite Hl2, Hl1, app_assoc. split; [done|].
    by apply Forall_app.
Qed.

Lemma traces_mono (P P' : op -> Prop) (Q Q' : msg -> Prop) w w' :
  (forall o, P o -> P' o) -> (forall m, Q m -> Q' m) ->
  traces P Q w w' -> traces P' Q' w w'.
Proof.
  intros HP HQ [(j & Hj & HPj & Hs) (l & Hl & HQl)]. split.
  - exists j. split; [done|]. split; [|done]. eapply Forall_impl; eauto.
  - exists l. split; [done|]. eapply Forall_impl; eauto.
Qed.

Lemma traces_add_out P (Q : msg -> Prop) m w : Q m -> traces P Q w (add_out m w).
Proof. intros Hm. by apply quiet_traces, quiet_print. Qed.

Lemma traces_set_stdin P Q l w : traces P Q w (set_stdin l w).
Proof.
  split; [exists []|exists []]; cbn; rewrite app_nil_r; repeat split; constructor.
Qed.

Lemma traces_set_drawn P Q n w : traces P Q w (set_drawn n w).
Proof.
  split; [exists []|exists []]; cbn; rewrite app_nil_r; repeat split; constructor.
Qed.

Lemma keeps_show_ids P ids :
  keeps P (fun m => exists k v, m = MShowId k v) (show_ids ids).
Proof.
  induction ids as [|[k v] ids IH]; simpl; [apply keeps_ret|].
  apply keeps_bind; [apply keeps_print; eauto|intros _; apply IH].
Qed.

Lemma returns_show_ids ids : returns (show_ids ids).
Proof.
  induction ids as [|[k v] ids IH]; simpl; [apply returns_ret|].
  apply returns_bind; [apply returns_print|intros _; apply IH].
Qed.

Lemma keeps_apply_backends env ids :
  keeps (apply_ops env ids) not_cancelled (apply_backends env ids).
Proof.
  unfold apply_backends.
  apply keeps_bind.
  { eapply keeps_mono; [| |apply keeps_update_current_file].
    - intros o Ho. by left.
    - intros m Hm ->. discriminate Hm. }
  intros ok. destruct ok; cbn [negb]; [|apply keeps_ret].
  apply keeps_bind.
  { eapply keeps_mono; [| |apply keeps_update_sqlite_db].
    - intros o Ho. right. by left.
    - intros m Hm ->. discriminate Hm. }
  intros _. apply keeps_bind.
  { eapply keeps_mono; [| |apply keeps_update_machine_id_file].
    - intros o Ho. right. right. by left.
    - intros m Hm ->. discriminate Hm. }
  intros _. apply keeps_bind.
  { eapply keeps_mono; [| |apply keeps_update_system_ids].
    - intros o Ho. right. right. by right.
    - intros m Hm ->. discriminate Hm. }
  intros _.
  apply keeps_bind; [by apply keeps_print|intros _].
  apply keeps_bind; [by apply keeps_print|intros _]. apply keeps_ret.
Qed.

Lemma returns_apply_backends env ids : returns (apply_backends env ids).
Proof.
  unfold apply_backends.
  apply returns_bind; [apply returns_update_current_file|intros ok].
  destruct ok; cbn [negb]; [|apply returns_ret].
  apply returns_bind; [apply returns_update_sqlite_db|intros _].
  apply returns_bind; [apply returns_update_machine_id_file|intros _].
  apply returns_bind; [apply returns_update_system_ids|intros _].
  apply returns_bind; [apply returns_print|intros _].
  apply returns_bind; [apply returns_print|intros _]. apply returns_ret.
Qed.

Ltac step_goal :=
  first
    [ rewrite (bind_Ret (print _) _ _ _ _ eq_refl)
    | rewrite (bind_Ret (path_exists _) _ _ _ _ eq_refl)
    | rewrite (bind_Ret (gets _) _ _ _ _ eq_refl)
    | rewrite (bind_Ret (ret _) _ _ _ _ eq_refl) ].

Lemma read_sqlite_rows env ids1 w :
  exists cur w2,
    read_sqlite_ids env ids1 w = (Ret cur, w2) /\
    item_rows (fs w2 !! StateVscdb) = item_rows (fs w !! StateVscdb).
Proof.
  unfold read_sqlite_ids. exec.
  all: eexists _, _; (split; [reflexivity|]); exec_simpl; unfold item_rows.
  all: repeat match goal with H : _ ≫= as_db = _ |- _ => rewrite H end.
  all: try reflexivity.
  all: rewrite lookup_insert_eq; reflexivity.
Qed.

(** The backup step leaves the rows of the database as they were. *)
Lemma backup_current_ids_rows env w :
  item_rows (fs (snd (backup_current_ids env w)) !! StateVscdb) =
  item_rows (fs w !! StateVscdb).
Proof.
  unfold backup_current_ids. step_goal. unfold try_except. step_goal.
  set (w0 := add_out MBackingUpCurrent w).
  destruct (read_storage_phase env (bool_decide (is_Some (fs w0 !! StorageJson))) w0)
    as (ids1 & w1 & Hph1 & Hfs1 & _).
  rewrite (bind_Ret _ _ _ _ _ Hph1). step_goal.
  assert (exists cur w2,
    (if bool_decide (is_Some (fs w1 !! StateVscdb))
     then read_sqlite_ids env ids1 else ret ids1) w1 = (Ret cur, w2) /\
    item_rows (fs w2 !! StateVscdb) = item_rows (fs w !! StateVscdb))
    as (cur & w2 & Hph2 & Hrows).
  { destruct (bool_decide (is_Some (fs w1 !! StateVscdb))).
    - destruct (read_sqlite_rows env ids1 w1) as (cur & w2 & Heq & H).
      exists cur, w2. split; [exact Heq|]. rewrite H, Hfs1. reflexivity.
    - eexists _, _. split; [reflexivity|]. rewrite Hfs1. reflexivity. }
  rewrite (bind_Ret _ _ _ _ _ Hph2). rewrite <- Hrows. clear.
  exec.
  all: first [reflexivity | by rewrite lookup_insert_ne].
Qed.

(** What the operations of the backup step leave alone. *)
Lemma replay_backup_ops env j w :
  Forall (backup_ops env) j ->
  fs (replay j w) !! StorageJson = fs w !! StorageJson /\
  fs (replay j w) !! MachineIdFile = fs w !! MachineIdFile /\
  machine_guid (replay j w) = machine_guid w /\
  sqm_machine_id (replay j w) = sqm_machine_id w /\
  platform_uuid (replay j w) = platform_uuid w.
Proof.
  revert w. induction j as [|o j IH]; intros w Hj; [done|].
  apply Forall_cons in Hj as [Ho Hj]. cbn [replay foldl].
  destruct (IH (effect o w) Hj) as (H1 & H2 & H3 & H4 & H5).
  fold (replay j (effect o w)).
  rewrite H1, H2, H3, H4, H5.
  destruct o as [[]| []| | | | | | |]; simpl in Ho; try done;
    cbn; rewrite ?lookup_insert_ne by done; done.
Qed.

Lemma quiet_no_ops Q w w' :
  quiet (fun _ => False) Q w w' -> same_storage w w' /\ journal w' = journal w.
Proof.
  intros [(j & Hj & HP & Hs) _ _ _].
  destruct j as [|o j]; [|by apply Forall_cons in HP as [[] _]].
  rewrite app_nil_r in Hj. done.
Qed.

Lemma traces_same_storage P Q w w' :
  same_storage w w' -> journal w' = journal w ->
  (exists l, stdout w' = stdout w ++ l /\ Forall Q l) -> traces P Q w w'.
Proof.
  intros Hs Hj Hl. split; [|done]. exists []. rewrite app_nil_r. repeat split; try done.
  all: by destruct Hs as (?&?&?&?).
Qed.

(** The middle of a run: backup, generation, preview and the confirmation
    prompt, then the mutators. *)
Lemma backup_generate_confirm_cases env w :
  exists r w',
    backup_generate_confirm env w = (r, w') /\
    drawn w' = 5 + drawn w /\
    (((r = Ret false \/ r = Raise EOFError) /\
      traces (backup_ops env) (fun _ => True) w w' /\
      item_rows (fs w' !! StateVscdb) = item_rows (fs w !! StateVscdb)) \/
     ((exists b, r = Ret b) /\
      traces (run_ops env (new_ids env (drawn w))) not_cancelled w w')).
Proof.
  destruct (returns_backup_current_ids env w) as [b0 Hb].
  pose proof (keeps_backup_current_ids env w) as Hq.
  pose proof (backup_current_ids_rows env w) as Hrows.
  destruct (backup_current_ids env w) as [r0 w0] eqn:E0. simpl in Hb, Hq, Hrows. subst r0.
  unfold backup_generate_confirm.
  rewrite (bind_Ret _ _ _ _ _ E0).
  rewrite (bind_Ret _ _ _ _ _ (generate_new_ids_eq _ _)).
  step_goal.
  set (w1 := add_out MIdsToReset
               (set_drawn (5 + drawn w0) (add_out MGeneratingNewIds w0))).
  assert (drawn w0 = drawn w) as Hd0 by apply Hq.
  rewrite Hd0.
  set (ids := new_ids env (drawn w)).
  destruct (returns_show_ids ids w1) as [[] Hs].
  pose proof (keeps_show_ids (fun _ => False) ids w1) as Hq2.
  destruct (show_ids ids w1) as [r2 w2] eqn:E2. simpl in Hs, Hq2. subst r2.
  rewrite (bind_Ret _ _ _ _ _ E2).
  assert (forall (P : op -> Prop) (Q : msg -> Prop),
            (forall o, backup_ops env o -> P o) ->
            (forall m, backup_msgs m -> Q m) ->
            Q MGeneratingNewIds -> Q MIdsToReset -> Q MPromptConfirm ->
            (forall k v, Q (MShowId k v)) ->
            traces P Q w (add_out MPromptConfirm w2)) as Hgen.
  { intros P Q HP HQ Hg Hi Hp Hshow.
    eapply traces_trans; [eapply traces_mono; [exact HP|exact HQ|]; apply quiet_traces, Hq|].
    eapply traces_trans; [apply (traces_add_out P Q MGeneratingNewIds w0 Hg)|].
    eapply traces_trans; [apply traces_set_drawn|].
    eapply traces_trans; [apply (traces_add_out P Q MIdsToReset _ Hi)|].
    eapply traces_trans; [|apply (traces_add_out P Q MPromptConfirm _ Hp)].
    eapply traces_mono; [| |apply quiet_traces, Hq2]; [done|].
    intros m (k & v & ->). apply Hshow. }
  assert (drawn w2 = 5 + drawn w) as Hd2.
  { destruct Hq2 as [_ _ _ ->]. subst w1. cbn. by rewrite Hd0. }
  assert (fs w2 = fs w0) as Hfs2.
  { apply quiet_no_ops in Hq2 as [(H & _) _]. by rewrite <- H. }
  clearbody w1. clear E0 E2 Hq Hq2.
  unfold input. run_m.
  destruct (stdin w2) as [|a rest]; run_m.
  - (* EOF at the prompt *)
    eexists _, _. split; [reflexivity|]. exec_simpl. split; [done|]. left.
    split; [by right|]. split; [by apply Hgen|]. by rewrite Hfs2.
  - destruct (String.eqb (lower a) "y"); run_m.
    + (* confirmed *)
      set (w3 := set_stdin rest (add_out MPromptConfirm w2)).
      destruct (returns_apply_backends env ids w3) as [b Hb].
      pose proof (keeps_apply_backends env ids w3) as Hq3.
      destruct (apply_backends env ids w3) as [r4 w4] eqn:E4. simpl in Hb, Hq3. subst r4.
      eexists _, _. split; [reflexivity|]. split.
      { destruct Hq3 as [_ _ _ ->]. subst w3. exec_simpl. done. }
      right. split; [by eexists|].
      eapply traces_trans; [apply Hgen|].
      * intros o Ho. by left.
      * intros m Hm ->. exact Hm.
      * done.
      * done.
      * done.
      * done.
      * eapply traces_trans; [apply traces_set_stdin|].
        eapply traces_mono; [| |apply quiet_traces, Hq3]; [|done].
        intros o Ho. by right.
    + (* declined *)
      eexists _, _. split; [reflexivity|]. exec_simpl. split; [done|]. left.
      split; [by left|]. split; [|by rewrite Hfs2].
      eapply traces_trans; [by apply Hgen|].
      eapply traces_trans; [apply traces_set_stdin|]. by apply traces_add_out.
Qed.

Ltac solve_traces :=
  repeat first
    [ apply traces_refl
    | eapply traces_trans;
      [|first [ by apply traces_add_out | apply traces_set_stdin
              | apply traces_set_drawn ]] ].

(** Everything after the running-process check. *)
Lemma reset_after_check_cases env v w :
  exists r w',
    reset_after_check env v w = (r, w') /\
    (((r = Ret false \/ r = Raise EOFError) /\
      traces (backup_ops env) (fun _ => True) w w' /\
      item_rows (fs w' !! StateVscdb) = item_rows (fs w !! StateVscdb) /\
      (drawn w' = drawn w \/ drawn w' = 5 + drawn w)) \/
     ((exists b, r = Ret b) /\
      traces (run_ops env (new_ids env (drawn w))) not_cancelled w w' /\
      drawn w' = 5 + drawn w)).
Proof.
  assert (forall W,
    drawn W = drawn w -> fs W = fs w ->
    traces (backup_ops env) (fun _ => True) w W ->
    traces (run_ops env (new_ids env (drawn w))) not_cancelled w W ->
    exists r w',
      (has_storage <- path_exists StorageJson ;;
       has_sqlite <- path_exists StateVscdb ;;
       has_machine_id <- path_exists MachineIdFile ;;
       if negb has_storage && negb has_sqlite && negb has_machine_id
       then
         print MFilesNotFound ;; print MExpectedPaths ;;
         print (MExpectedPath StorageJson) ;; print (MExpectedPath StateVscdb) ;;
         print (MExpectedPath MachineIdFile) ;; ret false
       else backup_generate_confirm env) W = (r, w') /\
      (((r = Ret false \/ r = Raise EOFError) /\
        traces (backup_ops env) (fun _ => True) w w' /\
        item_rows (fs w' !! StateVscdb) = item_rows (fs w !! StateVscdb) /\
        (drawn w' = drawn w \/ drawn w' = 5 + drawn w)) \/
       ((exists b, r = Ret b) /\
        traces (run_ops env (new_ids env (drawn w))) not_cancelled w w' /\
        drawn w' = 5 + drawn w))) as Hrest.
  { intros W HdW HfsW Ht1 Ht2. do 3 step_goal.
    destruct (negb _ && negb _ && negb _).
    - run_m. eexists _, _. split; [reflexivity|]. left. split; [by left|].
      exec_simpl. rewrite HfsW, HdW. split; [|split; [done|by left]].
      eapply traces_trans; [exact Ht1|]. solve_traces.
    - destruct (backup_generate_confirm_cases env W)
        as (r & w' & Heq & Hd & [(Hr & Ht & Hrows)|(Hr & Ht)]);
        exists r, w'; (split; [exact Heq|]); rewrite HdW in *.
      + left. split; [done|]. rewrite Hrows, HfsW.
        split; [by eapply traces_trans|]. split; [done|by right].
      + right. split; [done|]. split; [by eapply traces_trans|done]. }
  unfold reset_after_check, running_gate, input.
  destruct v as [[[]|] pid]; cbn [fst snd].
  2,3: step_goal; cbn [negb]; apply Hrest; [done|done|apply traces_refl..].
  run_m. destruct (stdin w) as [|a rest]; run_m.
  - eexists _, _. split; [reflexivity|]. left. split; [by right|].
    exec_simpl. split; [solve_traces|]. split; [done|by left].
  - destruct (String.eqb (lower a) "y"); run_m.
    + apply (Hrest (set_stdin rest
                      (add_out MPromptContinue
                         (add_out MRecommendClose
                            (add_out (MCursorRunning pid) w)))));
        [done|done|solve_traces..].
    + eexists _, _. split; [reflexivity|]. left. split; [by left|].
      exec_simpl. split; [solve_traces|]. split; [done|by left].
Qed.

(** The cases of a whole run. *)
Lemma reset_machine_ids_cases env w :
  exists b w',
    reset_machine_ids env w = (Ret b, w') /\
    ((b = false /\
      traces (backup_ops env) (fun _ => True) w w' /\
      item_rows (fs w' !! StateVscdb) = item_rows (fs w !! StateVscdb) /\
      (drawn w' = drawn w \/ drawn w' = 5 + drawn w)) \/
     (traces (run_ops env (new_ids env (drawn w))) not_cancelled w w' /\
      drawn w' = 5 + drawn w)).
Proof.
  destruct (check_cursor_running_returns env (add_out MStarting w)) as (v & Hv & _).
  unfold reset_machine_ids, try_except.
  step_goal. rewrite (bind_Ret _ _ _ _ _ Hv).
  destruct (reset_after_check_cases env v (add_out MStarting w))
    as (r & w' & -> & [([->| ->] & Ht & Hrows & Hd)|([b ->] & Ht & Hd)]);
    exec_simpl; run_m.
  - exists false, w'. split; [done|]. left. split; [done|].
    split; [|done]. eapply traces_trans; [|exact Ht]. solve_traces.
  - eexists false, _. split; [reflexivity|]. left. split; [done|]. exec_simpl.
    split; [|done]. eapply traces_trans; [|by apply traces_add_out].
    eapply traces_trans; [|exact Ht]. solve_traces.
  - exists b, w'. split; [done|]. right. split; [|done].
    eapply traces_trans; [|exact Ht]. solve_traces.
Qed.

(** C7, as amended: a run that prints "operation cancelled" (a decline at
    either prompt) returns [False]; the JSON store, the marker file, the
    registry values and the platform UUID are as before, and so are the
    rows of the database.  The only storage operations it can have made are
    those of the backup step: writing the identifier backup file and
    creating the [ItemTable] of a database that had none. *)
Theorem decline_changes_no_identifier env w r w' out :
  reset_machine_ids env w = (r, w') ->
  stdout w' = stdout w ++ out ->
  MOperationCancelled ∈ out ->
  r = Ret false /\
  exists j,
    journal w' = journal w ++ j /\ Forall (backup_ops env) j /\
    fs w' !! StorageJson = fs w !! StorageJson /\
    fs w' !! MachineIdFile = fs w !! MachineIdFile /\
    item_rows (fs w' !! StateVscdb) = item_rows (fs w !! StateVscdb) /\
    machine_guid w' = machine_guid w /\
    sqm_machine_id w' = sqm_machine_id w /\
    platform_uuid w' = platform_uuid w.
Proof.
  intros Hrun Hout Hin.
  destruct (reset_machine_ids_cases env w) as (b & w2 & Heq & Hcases).
  rewrite Hrun in Heq. injection Heq as -> ->.
  destruct Hcases as [(-> & [(j & Hj & HP & Hs) _] & Hrows & _)|[[_ (l & Hl & HQ)] _]].
  - split; [done|]. exists j. split; [done|]. split; [done|].
    destruct (replay_backup_ops env j w HP) as (H1 & H2 & H3 & H4 & H5).
    destruct Hs as (Hfs & Hg & Hsq & Hp).
    split; [by rewrite <- Hfs|]. split; [by rewrite <- Hfs|].
    split; [exact Hrows|]. split; [by rewrite <- Hg|].
    split; [by rewrite <- Hsq|by rewrite <- Hp].
  - rewrite Hl in Hout. apply app_inv_head in Hout as ->.
    rewrite Forall_forall in HQ. by destruct (HQ _ Hin).
Qed.

Lemma decline_changes_no_identifier_witness :
  let r := reset_machine_ids env_linux world_decline in
  fst r = Ret false /\
  fs (snd r) !! StorageJson = fs world_decline !! StorageJson.
Proof.
  cbn zeta.
  assert (fst (reset_machine_ids env_linux world_decline) = Ret false) as Hfst
    by (vm_compute; reflexivity).
  assert (stdout (snd (reset_machine_ids env_linux world_decline)) =
          stdout world_decline ++
            [MStarting; MBackingUpCurrent; MBackupSaved "20240101_120000";
             MGeneratingNewIds; MIdsToReset;
             MShowId DEV_DEVICE_ID (token env_linux 0);
             MShowId MAC_MACHINE_ID (token env_linux 1);
             MShowId MACHINE_ID (token env_linux 2);
             MShowId SQM_ID (token env_linux 3);
             MShowId SERVICE_MACHINE_ID (token env_linux 4);
             MPromptConfirm; MOperationCancelled]) as Hout
    by (vm_compute; reflexivity).
  destruct (reset_machine_ids env_linux world_decline) as [r w'] eqn:Hrun.
  cbn [fst snd] in *. subst r. split; [reflexivity|].
  destruct (decline_changes_no_identifier _ _ _ _ _ Hrun Hout)
    as (_ & j & _ & _ & H & _); [|exact H].
  repeat first [apply list_elem_of_here | apply list_elem_of_further].
Defined.

(** C7 as stated fails: a decline at the confirmation prompt comes after
    the backup step, which has by then created the [ItemTable] of a
    database file that lacked one. *)
Lemma decline_after_table_creation :
  let r := reset_machine_ids env_linux world_db_without_table in
  fst r = Ret false /\
  last (stdout (snd r)) = Some MOperationCancelled /\
  journal (snd r) =
    [OpCreateTable;
     OpWrite (IdsBackup "20240101_120000")
       (CJson (JObject (storage_ids doc_unrelated)))] /\
  mutates OpCreateTable = Some EmbeddedStore /\
  fs world_db_without_table !! StateVscdb = Some (CDb None) /\
  fs (snd r) !! StateVscdb = Some (CDb (Some ∅)).
Proof.
  cbn zeta.
  split; [vm_compute; reflexivity|]. split; [vm_compute; reflexivity|].
  split; [vm_compute; reflexivity|]. split; [reflexivity|].
  split; vm_compute; reflexivity.
Qed.


Lemma dict_update_new_ids env n (d : gmap string pyval) k :
  k ∈ ID_KEYS ->
  dict_update d (new_ids env n) !! k = Some (PStr (ids_get (new_ids env n) k)).
Proof.
  intros Hk. apply dict_update_in; [rewrite new_ids_keys; apply ID_KEYS_NoDup|].
  by apply new_ids_get_in.
Qed.




(** * Further properties of the code *)

(** ** Inversion of the monad *)

Lemma bind_inv_Ret {A B} (c : M A) (f : A -> M B) w b w' :
  bind c f w = (Ret b, w') ->
  exists a w1, c w = (Ret a, w1) /\ f a w1 = (Ret b, w').
Proof.
  unfold bind. destruct (c w) as [[a|e] w1]; intros H; [eauto|discriminate].
Qed.

Lemma bind_inv_Raise {A B} (c : M A) (f : A -> M B) w e w' :
  bind c f w = (Raise e, w') ->
  c w = (Raise e, w') \/ exists a w1, c w = (Ret a, w1) /\ f a w1 = (Raise e, w').
Proof.
  unfold bind. destruct (c w) as [[a|e1] w1]; intros H; [right; eauto|left; by simplify_eq].
Qed.

Lemma try_inv {A} (c : M A) h w r w' :
  try_except c h w = (r, w') ->
  (exists a, r = Ret a /\ c w = (Ret a, w')) \/
  exists e w1, c w = (Raise e, w1) /\ h e w1 = (r, w').
Proof.
  unfold try_except. destruct (c w) as [[a|e] w1]; intros H; [|eauto].
  left. exists a. by simplify_eq.
Qed.

(** ** The registry and plist mutators *)

Lemma returns_update_windows env ids : returns (_update_windows_system_ids env ids).
Proof.
  unfold _update_windows_system_ids. apply returns_try. intros e. apply returns_print.
Qed.

Lemma returns_update_macos env ids : returns (_update_macos_system_ids env ids).
Proof.
  unfold _update_macos_system_ids. apply returns_try. intros e. apply returns_print.
Qed.

(** X1: [update_system_ids] answers [True] on every host and whatever fails
    underneath: the two platform helpers swallow their own errors.  On a
    platform that is neither Windows nor macOS it prints its banner and
    touches nothing. *)
Theorem update_system_ids_always_true env ids w :
  fst (update_system_ids env ids w) = Ret true /\
  (String.prefix "win" (platform env) = false ->
   String.eqb (platform env) "darwin" = false ->
   snd (update_system_ids env ids w) = add_out MUpdatingSystemIds w).
Proof.
  unfold update_system_ids. split.
  - unfold try_except. rewrite (bind_Ret (print _) _ _ _ _ eq_refl).
    destruct (String.prefix "win" (platform env)).
    + destruct (returns_update_windows env ids (add_out MUpdatingSystemIds w)) as [[] H].
      unfold bind. destruct (_update_windows_system_ids _ _ _) as [r w1].
      simpl in H. by subst r.
    + destruct (String.eqb (platform env) "darwin"); [|reflexivity].
      destruct (returns_update_macos env ids (add_out MUpdatingSystemIds w)) as [[] H].
      unfold bind. destruct (_update_macos_system_ids _ _ _) as [r w1].
      simpl in H. by subst r.
  - intros -> ->. reflexivity.
Qed.

(** X2: the two registry values are written independently.  After
    [_update_windows_system_ids], [MachineGuid] holds the new [devDeviceId]
    exactly when [winreg] was imported, the identifier is not empty and its
    key could be opened and set; otherwise it is as before.  The same holds
    of [MachineId] with [sqmId] and the [SQMClient] key, whatever happened
    to the other key. *)
Theorem windows_registry_values env ids w :
  let w' := snd (_update_windows_system_ids env ids w) in
  let guid := ids_get ids DEV_DEVICE_ID in
  let sqm_id := ids_get ids SQM_ID in
  machine_guid w' =
    (if succeeds env WinImport && negb (String.eqb guid EmptyString) &&
        succeeds env (RegOpen Cryptography) && succeeds env (RegSetValue Cryptography)
     then Some guid else machine_guid w) /\
  sqm_machine_id w' =
    (if succeeds env WinImport && negb (String.eqb sqm_id EmptyString) &&
        succeeds env (RegOpen SQMClient) && succeeds env (RegSetValue SQMClient)
     then Some sqm_id else sqm_machine_id w) /\
  fs w' = fs w /\ platform_uuid w' = platform_uuid w.
Proof.
  unfold _update_windows_system_ids, reg_set, succeeds.
  cbn zeta.
  exec; repeat split; reflexivity.
Qed.

(** X3: [_update_macos_system_ids] replaces the platform UUID by the new
    [macMachineId] exactly when the plist exists, the identifier is not
    empty and [plutil] exits with status 0.  A missing plist is never
    created, and nothing else is touched. *)
Theorem macos_platform_uuid_value env ids w :
  let w' := snd (_update_macos_system_ids env ids w) in
  let mac_id := ids_get ids MAC_MACHINE_ID in
  platform_uuid w' =
    (if bool_decide (is_Some (platform_uuid w)) &&
        negb (String.eqb mac_id EmptyString) && (plutil_status env =? 0)%Z
     then Some mac_id else platform_uuid w) /\
  fs w' = fs w /\ machine_guid w' = machine_guid w /\
  sqm_machine_id w' = sqm_machine_id w.
Proof.
  unfold _update_macos_system_ids, plutil_replace. cbn zeta.
  exec; repeat split; reflexivity.
Qed.

Lemma windows_registry_values_witness :
  let w' := snd (_update_windows_system_ids env_windows_denied
                   (new_ids env_windows_denied 0) (world_of ∅ [])) in
  machine_guid w' = None /\ sqm_machine_id w' = Some (token env_windows_denied 3).
Proof.
  destruct (windows_registry_values env_windows_denied (new_ids env_windows_denied 0)
              (world_of ∅ [])) as (H1 & H2 & _).
  cbn zeta in *. rewrite H1, H2. split; vm_compute; reflexivity.
Defined.

(** ** The database mutator *)

Lemma create_item_table_rows env s w :
  let r := create_item_table env s w in
  (forall p, p <> StateVscdb -> fs (snd r) !! p = fs w !! p) /\
  same_registry w (snd r) /\
  item_rows (fs (snd r) !! StateVscdb) = item_rows (fs w !! StateVscdb) /\
  (forall rows, fst r = Ret rows -> rows = item_rows (fs w !! StateVscdb)).
Proof.
  unfold create_item_table, item_rows, same_registry. exec.
  all: repeat match goal with H : _ ≫= as_db = _ |- _ => rewrite H end.
  all: rewrite ?lookup_insert_eq.
  all: repeat split; try done.
  all: try (intros p Hp; by rewrite lookup_insert_ne).
  all: try (intros rows Hr; by simplify_eq).
  all: rewrite lookup_insert_eq in *; by simplify_eq/=.
Qed.

Lemma upsert_all_storage env ids w : same_storage w (snd (upsert_all env ids w)).
Proof.
  revert w. induction ids as [|[k v] ids IH]; intros w; [apply same_storage_refl|].
  cbn [upsert_all]. unfold attempt. destruct (fault env (UsdUpsert k)).
  - apply same_storage_refl.
  - rewrite (bind_Ret (ret tt) _ _ _ _ eq_refl).
    rewrite (bind_Ret (perform _) _ _ _ _ eq_refl).
    rewrite (bind_Ret (print _) _ _ _ _ eq_refl).
    eapply same_storage_trans; [|apply IH]. by repeat split.
Qed.

Lemma upsert_all_outcome env ids w :
  (exists e, fst (upsert_all env ids w) = Raise e) \/ fst (upsert_all env ids w) = Ret tt.
Proof. destruct (fst (upsert_all env ids w)) as [[]|e]; eauto. Qed.

(** The rows of the database and everything else after [update_sqlite_db]. *)
Lemma update_sqlite_db_rows env ids w r w' :
  update_sqlite_db env ids w = (r, w') ->
  (forall p, p <> StateVscdb -> fs w' !! p = fs w !! p) /\
  same_registry w w' /\
  item_rows (fs w' !! StateVscdb) =
    match r with
    | Ret true => dict_update (item_rows (fs w !! StateVscdb)) ids
    | _ => item_rows (fs w !! StateVscdb)
    end.
Proof.
  unfold update_sqlite_db, try_except. intros H.
  rewrite (bind_Ret (path_exists _) _ _ _ _ eq_refl) in H.
  destruct (bool_decide (is_Some (fs w !! StateVscdb))); cbn [negb] in H.
  2: { rewrite (bind_Ret (print _) _ _ _ _ eq_refl) in H. unfold ret in H.
       simplify_eq. by repeat split. }
  rewrite (bind_Ret (print _) _ _ _ _ eq_refl) in H.
  set (w0 := add_out MUpdatingSqlite w) in *.
  unfold attempt at 1 in H. destruct (fault env UsdConnect).
  { rewrite (bind_Raise (raise _) _ _ _ _ eq_refl) in H.
    rewrite (bind_Ret (print _) _ _ _ _ eq_refl) in H. unfold ret in H.
    simplify_eq. by repeat split. }
  rewrite (bind_Ret (ret tt) _ _ _ _ eq_refl) in H.
  pose proof (create_item_table_rows env UsdCreateTable w0) as (Hp & Hreg & Hrows & Hret).
  destruct (create_item_table env UsdCreateTable w0) as [[rows|e] w1] eqn:Hc;
    cbn [fst snd] in *.
  2: { rewrite (bind_Raise _ _ _ _ _ Hc) in H.
       rewrite (bind_Ret (print _) _ _ _ _ eq_refl) in H. unfold ret in H.
       simplify_eq. done. }
  rewrite (bind_Ret _ _ _ _ _ Hc) in H. rewrite (Hret rows eq_refl) in H.
  pose proof (upsert_all_storage env ids w1) as (Hfs & Hg & Hs & Hu).
  unfold same_registry in *.
  destruct (upsert_all env ids w1) as [[[]|e] w2] eqn:Hup; cbn [fst snd] in *.
  2: { rewrite (bind_Raise _ _ _ _ _ Hup) in H.
       rewrite (bind_Ret (print _) _ _ _ _ eq_refl) in H. unfold ret in H.
       simplify_eq. exec_simpl. rewrite <- Hfs, <- Hg, <- Hs, <- Hu. done. }
  rewrite (bind_Ret _ _ _ _ _ Hup) in H.
  unfold attempt in H. destruct (fault env UsdCommit).
  { rewrite (bind_Raise (raise _) _ _ _ _ eq_refl) in H.
    rewrite (bind_Ret (print _) _ _ _ _ eq_refl) in H. unfold ret in H.
    simplify_eq. exec_simpl. rewrite <- Hfs, <- Hg, <- Hs, <- Hu. done. }
  rewrite (bind_Ret (ret tt) _ _ _ _ eq_refl) in H.
  rewrite (bind_Ret (perform _) _ _ _ _ eq_refl) in H.
  rewrite (bind_Ret (print _) _ _ _ _ eq_refl) in H.
  unfold ret in H. simplify_eq. exec_simpl.
  rewrite <- Hg, <- Hs, <- Hu. split; [|split; [done|]].
  - intros p Hne. rewrite lookup_insert_ne by done. rewrite <- Hfs. by apply Hp.
  - unfold item_rows at 1. by rewrite lookup_insert_eq.
Qed.

(** X4: when [update_sqlite_db] answers [True], the table holds every
    pair of the identifier set it was handed, every other row is as before,
    and no file but the database and no registry value has changed. *)
Theorem sqlite_commit_postcondition env ids w w' :
  NoDup ids.*1 ->
  update_sqlite_db env ids w = (Ret true, w') ->
  (forall k v, (k, v) ∈ ids ->
     item_rows (fs w' !! StateVscdb) !! k = Some (PStr v)) /\
  (forall k, k ∉ ids.*1 ->
     item_rows (fs w' !! StateVscdb) !! k = item_rows (fs w !! StateVscdb) !! k) /\
  (forall p, p <> StateVscdb -> fs w' !! p = fs w !! p) /\
  same_registry w w'.
Proof.
  intros Hnd H. destruct (update_sqlite_db_rows env ids w _ _ H) as (Hp & Hreg & Hrows).
  rewrite Hrows.
  split; [|split; [|done]].
  - intros k v Hin. by apply dict_update_in.
  - intros k Hk. by apply dict_update_notin.
Qed.

Lemma sqlite_commit_postcondition_witness :
  exists w',
    update_sqlite_db env_linux (new_ids env_linux 0) world_db_other_row = (Ret true, w') /\
    item_rows (fs w' !! StateVscdb) !! DEV_DEVICE_ID =
      Some (PStr (token env_linux 0)) /\
    item_rows (fs w' !! StateVscdb) !! "other.key" = Some (PStr "kept").
Proof.
  assert (fst (update_sqlite_db env_linux (new_ids env_linux 0) world_db_other_row)
          = Ret true) as Hfst by (vm_compute; reflexivity).
  destruct (update_sqlite_db env_linux (new_ids env_linux 0) world_db_other_row)
    as [r w'] eqn:Hrun.
  cbn [fst] in Hfst. subst r. exists w'. split; [reflexivity|].
  assert (NoDup (new_ids env_linux 0).*1) as Hnd
    by (rewrite new_ids_keys; apply ID_KEYS_NoDup).
  destruct (sqlite_commit_postcondition env_linux (new_ids env_linux 0)
              world_db_other_row w' Hnd Hrun) as (Hin & Hout & _).
  split.
  - apply Hin. apply list_elem_of_here.
  - rewrite Hout; [reflexivity|].
    rewrite new_ids_keys. apply (bool_decide_unpack _). vm_compute. exact I.
Defined.

(** X5: when [update_sqlite_db] answers [False], no row of the table has
    changed: the inserts made before the failure are never committed.  No
    other file and no registry value has changed either. *)
Theorem sqlite_failure_changes_no_row env ids w w' :
  update_sqlite_db env ids w = (Ret false, w') ->
  item_rows (fs w' !! StateVscdb) = item_rows (fs w !! StateVscdb) /\
  (forall p, p <> StateVscdb -> fs w' !! p = fs w !! p) /\
  same_registry w w'.
Proof.
  intros H. destruct (update_sqlite_db_rows env ids w _ _ H) as (Hp & Hreg & Hrows).
  done.
Qed.

Lemma sqlite_failure_changes_no_row_witness :
  exists w',
    update_sqlite_db env_commit_fails (new_ids env_commit_fails 0) world_db_other_row
      = (Ret false, w') /\
    item_rows (fs w' !! StateVscdb) = {[ "other.key" := PStr "kept" ]}.
Proof.
  assert (fst (update_sqlite_db env_commit_fails (new_ids env_commit_fails 0)
                 world_db_other_row) = Ret false) as Hfst by (vm_compute; reflexivity).
  destruct (update_sqlite_db env_commit_fails (new_ids env_commit_fails 0)
              world_db_other_row) as [r w'] eqn:Hrun.
  cbn [fst] in Hfst. subst r. exists w'. split; [reflexivity|].
  destruct (sqlite_failure_changes_no_row env_commit_fails
              (new_ids env_commit_fails 0) world_db_other_row w' Hrun) as (Hrows & _).
  rewrite Hrows. reflexivity.
Defined.

(** ** What the mutators report *)

Lemma last_add_out m w : last (stdout (add_out m w)) = Some m.
Proof. cbn. apply last_snoc. Qed.

(** X6: no mutator of a file fails silently.  The last line printed by
    [update_current_file], [update_sqlite_db] and [update_machine_id_file]
    reports on the mutator's own backend; it is green when the answer is
    [True] and red when it is [False]. *)
Theorem mutator_answer_is_reported env ids dev w :
  (let r := update_current_file env ids w in
   exists m, last (stdout (snd r)) = Some m /\ reports_on m = Some JsonStore /\
             colour_of m = answer_colour (fst r)) /\
  (let r := update_sqlite_db env ids w in
   exists m, last (stdout (snd r)) = Some m /\ reports_on m = Some EmbeddedStore /\
             colour_of m = answer_colour (fst r)) /\
  (let r := update_machine_id_file env dev w in
   exists m, last (stdout (snd r)) = Some m /\ reports_on m = Some MarkerFile /\
             colour_of m = answer_colour (fst r)).
Proof.
  split; [|split]; cbn zeta.
  - unfold update_current_file. exec.
    all: eexists; (split; [apply last_snoc|]); split; reflexivity.
  - destruct (update_sqlite_db env ids w) as [r w'] eqn:H. cbn [fst snd].
    unfold update_sqlite_db in H.
    apply try_inv in H as [(b & -> & H)|(e & w1 & H & Hh)].
    + apply bind_inv_Ret in H as (has & w1 & H1 & H).
      destruct (negb has).
      * apply bind_inv_Ret in H as ([] & w2 & H2 & H). run_m. simplify_eq. exec_simpl.
        eexists. split; [apply last_snoc|]. split; reflexivity.
      * do 6 (apply bind_inv_Ret in H as (? & ? & _ & H)).
        apply bind_inv_Ret in H as ([] & w2 & H2 & H). run_m. simplify_eq. exec_simpl.
        eexists. split; [apply last_snoc|]. split; reflexivity.
    + run_m. simplify_eq. exec_simpl.
      eexists. split; [apply last_snoc|]. split; reflexivity.
  - unfold update_machine_id_file. exec.
    all: eexists; (split; [apply last_snoc|]); split; reflexivity.
Qed.

(** ** The marker file *)

(** X7: when [update_machine_id_file] answers [True] the marker file
    holds exactly the identifier it was handed; the only other file that can
    differ from before is the [.restore_bak] copy of the marker file, and no
    registry value has changed. *)
Theorem marker_file_postcondition env dev w w' :
  update_machine_id_file env dev w = (Ret true, w') ->
  fs w' !! MachineIdFile = Some (CText dev) /\
  (forall p, p <> MachineIdFile ->
             p <> MachineIdRestoreBak (now env TsMachineIdRestore) ->
             fs w' !! p = fs w !! p) /\
  same_registry w w'.
Proof.
  intros H. unfold update_machine_id_file in H. unfold same_registry.
  exec; exec_simpl; rewrite ?lookup_insert_eq.
  all: split; [reflexivity|]; split; [|done].
  all: intros p Hp1 Hp2; by rewrite ?lookup_insert_ne.
Qed.

Lemma marker_file_postcondition_witness :
  exists w',
    update_machine_id_file env_linux "new-device-id" world_marker = (Ret true, w') /\
    fs w' !! MachineIdFile = Some (CText "new-device-id") /\
    fs w' !! StorageJson = None.
Proof.
  assert (fst (update_machine_id_file env_linux "new-device-id" world_marker) = Ret true)
    as Hfst by (vm_compute; reflexivity).
  destruct (update_machine_id_file env_linux "new-device-id" world_marker)
    as [r w'] eqn:Hrun.
  cbn [fst] in Hfst. subst r. exists w'. split; [reflexivity|].
  destruct (marker_file_postcondition env_linux "new-device-id" world_marker w' Hrun)
    as (Hm & Hp & _).
  split; [exact Hm|]. rewrite Hp; [reflexivity|discriminate|discriminate].
Defined.

(** ** The order of the mutators *)

Lemma step_journal {A} P Q (c : M A) w :
  keeps P Q c -> returns c ->
  exists a w1 j, c w = (Ret a, w1) /\ journal w1 = journal w ++ j /\ Forall P j.
Proof.
  intros Hk Hr. destruct (Hr w) as [a Ha]. specialize (Hk w).
  destruct (c w) as [r w1]. cbn [fst snd] in *. subst r.
  destruct Hk as [(j & Hj & HP & _) _ _ _]. eauto 10.
Qed.

(** X8: [apply_backends] runs the mutators in a fixed order.  The
    storage operations it journals are those of the JSON store, then those
    of the database, then those of the marker file, then those of the
    registry or plist; after a [False] from the JSON store the last three
    groups are empty. *)
Theorem apply_backends_order env ids w :
  exists j1 j2 j3 j4,
    journal (snd (apply_backends env ids w)) = journal w ++ j1 ++ j2 ++ j3 ++ j4 /\
    Forall (json_ops env ids) j1 /\
    Forall (sqlite_ops ids) j2 /\
    Forall (marker_ops env (ids_get ids DEV_DEVICE_ID)) j3 /\
    Forall (system_ops ids) j4 /\
    (fst (update_current_file env ids w) = Ret false -> j2 = [] /\ j3 = [] /\ j4 = []).
Proof.
  unfold apply_backends.
  destruct (step_journal _ _ _ w (keeps_update_current_file env ids)
              (returns_update_current_file env ids)) as (ok & w1 & j1 & H1 & Hj1 & HP1).
  rewrite (bind_Ret _ _ _ _ _ H1). rewrite H1. cbn [fst].
  destruct ok; cbn [negb].
  2: { exists j1, [], [], []. unfold ret. cbn [snd]. rewrite Hj1, !app_nil_r.
       repeat split; auto. }
  destruct (step_journal _ _ _ w1 (keeps_update_sqlite_db env ids)
              (returns_update_sqlite_db env ids)) as (b2 & w2 & j2 & H2 & Hj2 & HP2).
  rewrite (bind_Ret _ _ _ _ _ H2).
  destruct (step_journal _ _ _ w2
              (keeps_update_machine_id_file env (ids_get ids DEV_DEVICE_ID))
              (returns_update_machine_id_file env (ids_get ids DEV_DEVICE_ID)))
    as (b3 & w3 & j3 & H3 & Hj3 & HP3).
  rewrite (bind_Ret _ _ _ _ _ H3).
  destruct (step_journal _ _ _ w3 (keeps_update_system_ids env ids)
              (returns_update_system_ids env ids)) as (b4 & w4 & j4 & H4 & Hj4 & HP4).
  rewrite (bind_Ret _ _ _ _ _ H4).
  rewrite (bind_Ret (print _) _ _ _ _ eq_refl).
  rewrite (bind_Ret (print _) _ _ _ _ eq_refl).
  exists j1, j2, j3, j4. unfold ret. cbn [snd]. exec_simpl.
  rewrite Hj4, Hj3, Hj2, Hj1, <- !app_assoc. repeat split; auto. all: discriminate.
Qed.

(** ** The backup step *)

(** X9: [backup_current_ids] always answers with a boolean, and it
    only reads the stores: the JSON store, the marker file, the rows of the
    database, the registry values and the plist are as before, and every
    line it prints is one of its own. *)
Theorem backup_reads_only env w :
  exists b w' out,
    backup_current_ids env w = (Ret b, w') /\
    fs w' !! StorageJson = fs w !! StorageJson /\
    fs w' !! MachineIdFile = fs w !! MachineIdFile /\
    item_rows (fs w' !! StateVscdb) = item_rows (fs w !! StateVscdb) /\
    same_registry w w' /\
    stdin w' = stdin w /\ drawn w' = drawn w /\
    stdout w' = stdout w ++ out /\ Forall backup_msgs out.
Proof.
  destruct (returns_backup_current_ids env w) as [b Hb].
  pose proof (keeps_backup_current_ids env w) as [(j & Hj & HP & Hs) (l & Hl & HQ) Hi Hd].
  pose proof (backup_current_ids_rows env w) as Hrows.
  destruct (backup_current_ids env w) as [r w']. cbn [fst snd] in *. subst r.
  exists b, w', l.
  destruct (replay_backup_ops env j w HP) as (H1 & H2 & H3 & H4 & H5).
  destruct Hs as (Hfs & Hg & Hq & Hu).
  unfold same_registry. rewrite <- Hfs, <- Hg, <- Hq, <- Hu.
  repeat split; auto. by rewrite Hfs.
Qed.

(** ** The answers at the prompts *)

Lemma lower_ascii_y c :
  lower_ascii c = "y"%char -> c = "y"%char \/ c = "Y"%char.
Proof.
  destruct c as [[] [] [] [] [] [] [] []]; vm_compute; intros H;
    first [discriminate | by left | by right].
Qed.

Lemma lower_affirmative a : String.eqb (lower a) "y" = true <-> affirmative a.
Proof.
  rewrite String.eqb_eq. unfold affirmative.
  destruct a as [|c [|c' s]]; cbn [lower].
  - split; [discriminate|intros [|]; discriminate].
  - split.
    + intros [= H]. apply lower_ascii_y in H as [-> | ->]; [by left|by right].
    + intros [[= ->]|[= ->]]; reflexivity.
  - split; [discriminate|intros [|]; discriminate].
Qed.

Lemma lower_not_affirmative a : String.eqb (lower a) "y" = false <-> ~ affirmative a.
Proof.
  rewrite <- lower_affirmative. destruct (String.eqb (lower a) "y"); split; done.
Qed.

(** ** Worlds that agree on the identifiers *)

Lemma same_identifiers_refl w : same_identifiers w w.
Proof. by repeat split. Qed.

Lemma same_identifiers_trans w1 w2 w3 :
  same_identifiers w1 w2 -> same_identifiers w2 w3 -> same_identifiers w1 w3.
Proof.
  intros (?&?&?&?&?&?) (?&?&?&?&?&?). repeat split; congruence.
Qed.

Lemma says_nothing_refl m0 w : says_nothing_of m0 w w.
Proof. exists []. rewrite app_nil_r. split; [done|]. apply not_elem_of_nil. Qed.

Lemma says_nothing_trans m0 w1 w2 w3 :
  says_nothing_of m0 w1 w2 -> says_nothing_of m0 w2 w3 -> says_nothing_of m0 w1 w3.
Proof.
  intros (l1 & H1 & Hn1) (l2 & H2 & Hn2). exists (l1 ++ l2).
  rewrite H2, H1, app_assoc. split; [done|]. rewrite elem_of_app. tauto.
Qed.

Lemma says_nothing_add_out m0 m w : m <> m0 -> says_nothing_of m0 w (add_out m w).
Proof.
  intros Hm. exists [m]. split; [done|]. rewrite list_elem_of_singleton. congruence.
Qed.

Lemma says_nothing_quiet P (Q : msg -> Prop) m0 w w' :
  ~ Q m0 -> quiet P Q w w' -> says_nothing_of m0 w w'.
Proof.
  intros Hm [_ (l & Hl & HQ) _ _]. exists l. split; [done|].
  intros Hin. rewrite Forall_forall in HQ. by apply Hm, HQ.
Qed.

Lemma backup_frame env w :
  exists b w1 j,
    backup_current_ids env w = (Ret b, w1) /\
    journal w1 = journal w ++ j /\ Forall (backup_ops env) j /\
    same_identifiers w w1 /\ stdin w1 = stdin w /\ drawn w1 = drawn w /\
    says_nothing_of MSuccess w w1.
Proof.
  destruct (returns_backup_current_ids env w) as [b Hb].
  pose proof (says_nothing_quiet _ _ MSuccess _ _ (fun H => H)
                (keeps_backup_current_ids env w)) as Hout.
  pose proof (keeps_backup_current_ids env w) as [(j & Hj & HP & Hs) _ Hi Hd].
  pose proof (backup_current_ids_rows env w) as Hrows.
  destruct (backup_current_ids env w) as [r w']. cbn [fst snd] in *. subst r.
  exists b, w', j.
  destruct (replay_backup_ops env j w HP) as (H1 & H2 & H3 & H4 & H5).
  destruct Hs as (Hfs & Hg & Hq & Hu).
  unfold same_identifiers, same_registry. rewrite <- Hfs, <- Hg, <- Hq, <- Hu.
  repeat split; auto. by rewrite Hfs.
Qed.

Lemma show_ids_frame ids w :
  exists w1,
    show_ids ids w = (Ret tt, w1) /\ journal w1 = journal w /\ fs w1 = fs w /\
    same_registry w w1 /\ stdin w1 = stdin w /\ drawn w1 = drawn w /\
    says_nothing_of MSuccess w w1.
Proof.
  destruct (returns_show_ids ids w) as [[] Hs].
  pose proof (keeps_show_ids (fun _ => False) ids w) as Hq.
  assert (says_nothing_of MSuccess w (snd (show_ids ids w))) as Hout.
  { eapply says_nothing_quiet; [|exact Hq]. by intros (k & v & ?). }
  destruct (show_ids ids w) as [r w1]. cbn [fst snd] in *. subst r.
  exists w1. split; [done|].
  pose proof Hq as [_ _ Hi Hd].
  apply quiet_no_ops in Hq as [(H1 & H2 & H3 & H4) Hj].
  unfold same_registry. repeat split; auto.
Qed.

(** Everything that [backup_generate_confirm] does before the prompt. *)
Lemma confirm_prefix env w :
  exists w3 j,
    backup_generate_confirm env w =
      confirm_then_apply env (new_ids env (drawn w)) w3 /\
    journal w3 = journal w ++ j /\ Forall (backup_ops env) j /\
    same_identifiers w w3 /\ stdin w3 = stdin w /\ drawn w3 = 5 + drawn w /\
    says_nothing_of MSuccess w w3.
Proof.
  destruct (backup_frame env w) as (b & w1 & j & Hb & Hj & HP & Hsame & Hi & Hd & Ho).
  unfold backup_generate_confirm.
  rewrite (bind_Ret _ _ _ _ _ Hb).
  rewrite (bind_Ret _ _ _ _ _ (generate_new_ids_eq _ _)).
  rewrite (bind_Ret (print _) _ _ _ _ eq_refl).
  set (w2 := add_out MIdsToReset (set_drawn (5 + drawn w1) (add_out MGeneratingNewIds w1))).
  destruct (show_ids_frame (new_ids env (drawn w1)) w2)
    as (w3 & Hs & Hj3 & Hfs3 & (Hg3 & Hq3 & Hu3) & Hi3 & Hd3 & Ho3).
  rewrite (bind_Ret _ _ _ _ _ Hs). rewrite Hd.
  exists w3, j. split; [reflexivity|].
  assert (says_nothing_of MSuccess w w3) as Hout.
  { eapply says_nothing_trans; [exact Ho|].
    eapply says_nothing_trans; [|exact Ho3]. subst w2.
    exists [MGeneratingNewIds; MIdsToReset]. cbn. rewrite <- app_assoc.
    split; [done|]. set_solver. }
  subst w2. exec_simpl.
  destruct Hsame as (H1 & H2 & H3 & H4 & H5 & H6).
  unfold same_identifiers, same_registry.
  rewrite Hj3, Hfs3, <- Hg3, <- Hq3, <- Hu3, Hi3, Hd3, Hd.
  repeat split; auto.
Qed.

Lemma running_gate_cases v w :
  (fst v <> Some true /\ running_gate v w = (Ret true, w)) \/
  (fst v = Some true /\
   let w1 := add_out MPromptContinue
               (add_out MRecommendClose (add_out (MCursorRunning (snd v)) w)) in
   match stdin w with
   | [] => running_gate v w = (Raise EOFError, w1)
   | a :: rest =>
       running_gate v w =
         if String.eqb (lower a) "y"
         then (Ret true, set_stdin rest w1)
         else (Ret false, add_out MOperationCancelled (set_stdin rest w1))
   end).
Proof.
  unfold running_gate. destruct v as [[[]|] pid]; cbn [fst snd].
  2,3: by left.
  right. split; [done|]. cbn zeta. unfold input. run_m.
  destruct (stdin w) as [|a rest]; run_m; [done|].
  by destruct (String.eqb (lower a) "y").
Qed.

(** X10: at both prompts the only answers read as a yes are "y" and
    "Y".  At the first prompt any other line makes [running_gate] answer
    [False]; at the confirmation prompt any other line ends
    [backup_generate_confirm] with [False] and "operation cancelled",
    leaving every identifier as it was, while "y" or "Y" hands the
    generated set to [apply_backends]. *)
Theorem only_y_is_a_yes env pid a rest w :
  stdin w = a :: rest ->
  fst (running_gate (Some true, pid) w) = Ret (bool_decide (affirmative a)) /\
  (~ affirmative a ->
   exists w', backup_generate_confirm env w = (Ret false, w') /\
              last (stdout w') = Some MOperationCancelled /\
              same_identifiers w w') /\
  (affirmative a ->
   exists w3, backup_generate_confirm env w =
                apply_backends env (new_ids env (drawn w)) w3 /\
              same_identifiers w w3 /\ stdin w3 = rest).
Proof.
  intros Hin. split; [|split].
  - destruct (running_gate_cases (Some true, pid) w) as [[H _]|[_ H]]; [done|].
    cbn zeta in H. rewrite Hin in H. rewrite H.
    destruct (String.eqb (lower a) "y") eqn:E.
    + apply lower_affirmative in E. by rewrite bool_decide_eq_true_2.
    + apply lower_not_affirmative in E. by rewrite bool_decide_eq_false_2.
  - intros Hno. apply lower_not_affirmative in Hno.
    destruct (confirm_prefix env w) as (w3 & j & -> & Hj & HP & Hsame & Hi & Hd).
    unfold confirm_then_apply, input. run_m. rewrite Hi, Hin. run_m. rewrite Hno. run_m.
    eexists. split; [reflexivity|]. split; [apply last_snoc|]. exact Hsame.
  - intros Hyes. apply lower_affirmative in Hyes.
    destruct (confirm_prefix env w) as (w3 & j & -> & Hj & HP & Hsame & Hi & Hd).
    unfold confirm_then_apply, input. run_m. rewrite Hi, Hin. run_m. rewrite Hyes. run_m.
    eexists. split; [reflexivity|]. split; [exact Hsame|reflexivity].
Qed.

Lemma only_y_is_a_yes_witness :
  fst (running_gate (Some true, None) world_answers_yes) = Ret false /\
  exists w', backup_generate_confirm env_linux world_answers_yes = (Ret false, w') /\
             last (stdout w') = Some MOperationCancelled /\
             same_identifiers world_answers_yes w'.
Proof.
  destruct (only_y_is_a_yes env_linux None "yes" [] world_answers_yes eq_refl)
    as (H1 & H2 & _).
  split; [exact H1|]. apply H2. intros [H|H]; discriminate.
Defined.

(** ** A whole run *)

Lemma replay_keeps_path (P : op -> Prop) p j w :
  (forall o w0, P o -> fs (effect o w0) !! p = fs w0 !! p) ->
  Forall P j -> fs (replay j w) !! p = fs w !! p.
Proof.
  intros HP. revert w. induction j as [|o j IH]; intros w Hj; [done|].
  apply Forall_cons in Hj as [Ho Hj]. cbn [replay foldl].
  fold (replay j (effect o w)). rewrite IH by done. by apply HP.
Qed.

Lemma quiet_keeps_path (P : op -> Prop) Q p w w' :
  (forall o w0, P o -> fs (effect o w0) !! p = fs w0 !! p) ->
  quiet P Q w w' -> fs w' !! p = fs w !! p.
Proof.
  intros HP [(j & _ & Hj & (Hfs & _)) _ _ _]. rewrite <- Hfs.
  by eapply replay_keeps_path.
Qed.

Lemma sqlite_ops_keep_json ids p o w0 :
  json_path p -> sqlite_ops ids o -> fs (effect o w0) !! p = fs w0 !! p.
Proof.
  intros [->|[ts ->]] Ho; destruct o; simpl in Ho; try done; cbn;
    by rewrite ?lookup_insert_ne.
Qed.

Lemma marker_ops_keep_json env dev p o w0 :
  json_path p -> marker_ops env dev o -> fs (effect o w0) !! p = fs w0 !! p.
Proof.
  intros [->|[ts ->]] Ho; destruct o as [[]| []|[] []| []| | | | |];
    simpl in Ho; try done; cbn;
    try destruct (fs w0 !! MachineIdFile); cbn; by rewrite ?lookup_insert_ne.
Qed.

Lemma system_ops_keep_json ids p o w0 :
  system_ops ids o -> fs (effect o w0) !! p = fs w0 !! p.
Proof. intros Ho; destruct o as [| | | | | | |[]|]; simpl in Ho; done. Qed.

(** What [apply_backends] leaves of a successful write of the JSON store. *)
Lemma apply_backends_true env ids w w' :
  apply_backends env ids w = (Ret true, w') ->
  exists w1,
    update_current_file env ids w = (Ret true, w1) /\
    (forall p, json_path p -> fs w' !! p = fs w1 !! p) /\
    last (stdout w') = Some MRestartCursor.
Proof.
  unfold apply_backends. intros H.
  apply bind_inv_Ret in H as (ok & w1 & H1 & H).
  destruct ok; cbn [negb] in H; [|unfold ret in H; simplify_eq].
  exists w1. split; [exact H1|].
  apply bind_inv_Ret in H as (b2 & w2 & H2 & H).
  apply bind_inv_Ret in H as (b3 & w3 & H3 & H).
  apply bind_inv_Ret in H as (b4 & w4 & H4 & H).
  pose proof (keeps_update_sqlite_db env ids w1) as K2.
  pose proof (keeps_update_machine_id_file env (ids_get ids DEV_DEVICE_ID) w2) as K3.
  pose proof (keeps_update_system_ids env ids w3) as K4.
  rewrite H2 in K2. rewrite H3 in K3. rewrite H4 in K4. cbn [snd] in *.
  run_m. simplify_eq. exec_simpl. split; [|apply last_snoc].
  intros p Hp.
  rewrite (quiet_keeps_path _ _ p _ _ (fun o w0 => system_ops_keep_json ids p o w0) K4).
  rewrite (quiet_keeps_path _ _ p _ _
             (fun o w0 => marker_ops_keep_json env _ p o w0 Hp) K3).
  apply (quiet_keeps_path _ _ p _ _ (fun o w0 => sqlite_ops_keep_json ids p o w0 Hp) K2).
Qed.

(** A run that answers [True] has reached [apply_backends] with the set
    generated from the next five draws and with every identifier still in
    place. *)
Lemma reset_machine_ids_true env w w' :
  reset_machine_ids env w = (Ret true, w') ->
  exists w4,
    apply_backends env (new_ids env (drawn w)) w4 = (Ret true, w') /\
    same_identifiers w w4 /\ fs w4 !! StorageJson = fs w !! StorageJson.
Proof.
  unfold reset_machine_ids. intros H.
  apply try_inv in H as [(b & [= <-] & H)|(e & w1 & _ & H)].
  2: { run_m. simplify_eq. }
  rewrite (bind_Ret (print _) _ _ _ _ eq_refl) in H.
  set (w0 := add_out MStarting w) in *.
  destruct (check_cursor_running_returns env w0) as (v & Hv & _).
  rewrite (bind_Ret _ _ _ _ _ Hv) in H.
  unfold reset_after_check in H.
  apply bind_inv_Ret in H as (go & w1 & Hg & H).
  assert (go = true /\ same_identifiers w w1 /\ drawn w1 = drawn w) as (-> & Hsame & Hd).
  { destruct (running_gate_cases v w0) as [[_ Hr]|[_ Hr]].
    - rewrite Hr in Hg. simplify_eq. by repeat split.
    - cbn zeta in Hr. destruct (stdin w0) as [|a rest]; rewrite Hr in Hg; [discriminate|].
      destruct (String.eqb (lower a) "y"); simplify_eq.
      by repeat split. }
  cbn [negb] in H. do 3 step_pure H.
  destruct (negb _ && negb _ && negb _) in H.
  { run_m. simplify_eq. }
  destruct (confirm_prefix env w1) as (w3 & j & Heq & Hj & HP & Hsame3 & Hi & Hd3).
  rewrite Heq in H. rewrite Hd in H.
  unfold confirm_then_apply, input in H. clear Hv Heq. run_m.
  destruct (stdin w3) as [|a rest]; run_m; [discriminate|].
  destruct (String.eqb (lower a) "y"); run_m; [|discriminate].
  eexists. split; [exact H|].
  assert (same_identifiers w (set_stdin rest (add_out MPromptConfirm w3))) as Hs.
  { eapply same_identifiers_trans; [exact Hsame|]. exact Hsame3. }
  split; [exact Hs|]. apply Hs.
Qed.

(** X11: a run of [reset_machine_ids] that answers [True] found a
    JSON object in the store and leaves there that object updated with the
    set generated from the next five random draws: each of the five keys
    holds its fresh token and every other key its prior value.  The
    [.restore_bak] copy holds the prior document, and the last line printed
    asks to restart the editor. *)
Theorem successful_run_postcondition env w w' :
  reset_machine_ids env w = (Ret true, w') ->
  exists doc doc',
    fs w !! StorageJson = Some (CJson (JObject doc)) /\
    fs w' !! StorageJson = Some (CJson (JObject doc')) /\
    (forall k, k ∈ ID_KEYS ->
       doc' !! k = Some (PStr (ids_get (new_ids env (drawn w)) k))) /\
    (forall k, k ∉ ID_KEYS -> doc' !! k = doc !! k) /\
    fs w' !! StorageRestoreBak (now env TsStorageRestore) =
      Some (CJson (JObject doc)) /\
    last (stdout w') = Some MRestartCursor.
Proof.
  intros H. apply reset_machine_ids_true in H as (w4 & H & _ & Hjson).
  apply apply_backends_true in H as (w5 & Hu & Hkeep & Hlast).
  apply update_current_file_true in Hu as (d & Hd & _ & ->).
  exists d, (dict_update d (new_ids env (drawn w))).
  rewrite <- Hjson, Hd.
  split; [reflexivity|].
  rewrite (Hkeep StorageJson) by (by left).
  rewrite (Hkeep (StorageRestoreBak _)) by (right; by eexists).
  cbn. rewrite Hd. cbn. rewrite lookup_insert_eq.
  rewrite lookup_insert_ne by done. rewrite lookup_insert_eq.
  split; [reflexivity|]. split; [|split; [|done]].
  - intros k Hk. by apply dict_update_new_ids.
  - intros k Hk. apply dict_update_notin. by rewrite new_ids_keys.
Qed.

Lemma successful_run_postcondition_witness :
  exists w' doc',
    reset_machine_ids env_linux world_unrelated = (Ret true, w') /\
    fs w' !! StorageJson = Some (CJson (JObject doc')) /\
    doc' !! "unrelated.key" = Some (PStr "x") /\
    doc' !! SQM_ID = Some (PStr (token env_linux 3)).
Proof.
  assert (fst (reset_machine_ids env_linux world_unrelated) = Ret true) as Hfst
    by (vm_compute; reflexivity).
  destruct (reset_machine_ids env_linux world_unrelated) as [r w'] eqn:Hrun.
  cbn [fst] in Hfst. subst r.
  destruct (successful_run_postcondition env_linux world_unrelated w' Hrun)
    as (doc & doc' & Hdoc & Hdoc' & Hin & Hout & _).
  exists w', doc'. split; [reflexivity|]. split; [exact Hdoc'|].
  assert (Some (CJson (JObject doc_unrelated)) = Some (CJson (JObject doc))) as [= <-]
    by (rewrite <- Hdoc; vm_compute; reflexivity).
  split.
  - rewrite Hout; [reflexivity|]. apply (bool_decide_unpack _). vm_compute. exact I.
  - rewrite Hin; [reflexivity|]. apply (bool_decide_unpack _). vm_compute. exact I.
Defined.

(** X12: with no line left on the operator's input, a run never
    reaches the mutators.  [reset_machine_ids] answers [False]; the only
    storage operations it made are those of the backup step, every
    identifier is as before, and its last line is the process error, or the
    third expected path when none of the three files exists. *)
Theorem exhausted_input_applies_nothing env w :
  stdin w = [] ->
  exists w' j,
    reset_machine_ids env w = (Ret false, w') /\
    journal w' = journal w ++ j /\ Forall (backup_ops env) j /\
    same_identifiers w w' /\
    (last (stdout w') = Some MProcessError \/
     last (stdout w') = Some (MExpectedPath MachineIdFile)).
Proof.
  intros Hin. unfold reset_machine_ids, try_except.
  rewrite (bind_Ret (print _) _ _ _ _ eq_refl).
  set (w0 := add_out MStarting w).
  destruct (check_cursor_running_returns env w0) as (v & Hv & _).
  rewrite (bind_Ret _ _ _ _ _ Hv). unfold reset_after_check.
  destruct (running_gate_cases v w0) as [[_ Hr]|[_ Hr]].
  - rewrite (bind_Ret _ _ _ _ _ Hr). cbn [negb]. do 3 step_goal.
    destruct (negb _ && negb _ && negb _).
    + run_m. exists (set_fs (fs w) (add_out (MExpectedPath MachineIdFile)
                       (add_out (MExpectedPath StateVscdb)
                          (add_out (MExpectedPath StorageJson)
                             (add_out MExpectedPaths (add_out MFilesNotFound w0)))))), [].
      split; [destruct w; reflexivity|]. cbn. rewrite app_nil_r.
      split; [done|]. split; [done|]. split; [by repeat split|].
      right. apply last_snoc.
    + destruct (confirm_prefix env w0) as (w3 & j & -> & Hj & HP & Hsame & Hi & Hd).
      unfold confirm_then_apply, input. run_m. rewrite Hi. cbn. rewrite Hin. run_m.
      eexists _, j. split; [reflexivity|]. exec_simpl.
      split; [exact Hj|]. split; [exact HP|]. split; [exact Hsame|].
      left. apply last_snoc.
  - cbn zeta in Hr. cbn [stdin add_out w0] in Hr. rewrite Hin in Hr.
    rewrite (bind_Raise _ _ _ _ _ Hr). run_m.
    eexists _, []. split; [reflexivity|]. exec_simpl. rewrite app_nil_r.
    split; [done|]. split; [done|]. split; [by repeat split|].
    left. apply last_snoc.
Qed.

Lemma exhausted_input_applies_nothing_witness :
  exists w',
    reset_machine_ids env_linux world_no_operator = (Ret false, w') /\
    same_identifiers world_no_operator w' /\
    last (stdout w') = Some MProcessError.
Proof.
  destruct (exhausted_input_applies_nothing env_linux world_no_operator eq_refl)
    as (w' & j & Hrun & _ & _ & Hsame & Hlast).
  exists w'. split; [exact Hrun|]. split; [exact Hsame|].
  destruct Hlast as [H|H]; [exact H|].
  assert (last (stdout (snd (reset_machine_ids env_linux world_no_operator))) =
          Some MProcessError) as Hc by (vm_compute; reflexivity).
  rewrite Hrun in Hc. exact Hc.
Defined.

(** ** When a run succeeds *)

Lemma dict_update_dumpable d ids : dumpable d -> dumpable (dict_update d ids).
Proof.
  unfold dict_update, dumpable. revert d.
  induction ids as [|[k v] ids IH]; intros d Hd; cbn [foldl]; [done|].
  apply IH. by apply map_Forall_insert_2.
Qed.

Lemma update_current_file_succeeds env ids w doc :
  fs w !! StorageJson = Some (CJson (JObject doc)) -> dumpable doc ->
  fault env UcfOpenStorage = None -> fault env UcfCopy = None ->
  fault env UcfOpenWrite = None -> fault env UcfDump = None ->
  exists w1, update_current_file env ids w = (Ret true, w1).
Proof.
  intros Hfs Hd H1 H2 H3 H4.
  pose proof (dict_update_dumpable doc ids Hd) as Hd'.
  unfold update_current_file. run_m.
  rewrite !Hfs, H1, H2, H3, H4.
  rewrite bool_decide_eq_true_2 by eauto. run_m. rewrite !Hfs. run_m.
  rewrite bool_decide_eq_true_2 by exact Hd'. run_m.
  eexists. reflexivity.
Qed.

Lemma check_cursor_running_fst env w w0 :
  fst (check_cursor_running env w) = fst (check_cursor_running env w0).
Proof.
  unfold check_cursor_running, check_tasklist, check_wmic, check_pgrep,
    except_subprocess, import_subprocess, run_tool.
  exec; reflexivity.
Qed.

(** X13: the JSON store alone decides whether a run succeeds.  When
    the editor is not reported running, the store holds a JSON object that
    can be read, copied and written back, and the operator confirms, then
    [reset_machine_ids] answers [True] and reads exactly one line, whatever
    fails in the backup step, the database, the marker file or the
    registry. *)
Theorem json_store_decides_success env w v doc a rest :
  fst (check_cursor_running env w) = Ret v -> fst v <> Some true ->
  fs w !! StorageJson = Some (CJson (JObject doc)) -> dumpable doc ->
  stdin w = a :: rest -> affirmative a ->
  succeeds env UcfOpenStorage && succeeds env UcfCopy &&
    succeeds env UcfOpenWrite && succeeds env UcfDump = true ->
  exists w', reset_machine_ids env w = (Ret true, w') /\ stdin w' = rest.
Proof.
  intros Hv Hnot Hfs Hd Hin Hyes Hok.
  unfold succeeds in Hok.
  destruct (fault env UcfOpenStorage) eqn:H1; [done|].
  destruct (fault env UcfCopy) eqn:H2; [done|].
  destruct (fault env UcfOpenWrite) eqn:H3; [done|].
  destruct (fault env UcfDump) eqn:H4; [done|]. clear Hok.
  unfold reset_machine_ids, try_except.
  rewrite (bind_Ret (print _) _ _ _ _ eq_refl).
  set (w0 := add_out MStarting w).
  destruct (check_cursor_running_returns env w0) as (v0 & Hv0 & _).
  assert (v0 = v) as ->.
  { rewrite (check_cursor_running_fst env w w0), Hv0 in Hv. cbn in Hv. congruence. }
  rewrite (bind_Ret _ _ _ _ _ Hv0). unfold reset_after_check.
  destruct (running_gate_cases v w0) as [[_ Hr]|[Hr _]]; [|done].
  rewrite (bind_Ret _ _ _ _ _ Hr). cbn [negb]. do 3 step_goal.
  assert (bool_decide (is_Some (fs w0 !! StorageJson)) = true) as ->.
  { apply bool_decide_eq_true_2. subst w0. cbn. rewrite Hfs. by eexists. }
  cbn [negb andb].
  destruct (confirm_prefix env w0) as (w3 & j & -> & _ & _ & Hsame & Hi & _).
  unfold confirm_then_apply, input. run_m. rewrite Hi. subst w0. cbn [stdin add_out].
  rewrite Hin. run_m.
  apply lower_affirmative in Hyes. rewrite Hyes. cbn [negb].
  set (w4 := set_stdin rest (add_out MPromptConfirm w3)).
  set (ids := new_ids env (drawn w)).
  assert (fs w4 !! StorageJson = Some (CJson (JObject doc))) as Hfs4.
  { destruct Hsame as (H & _). subst w4. cbn [fs set_stdin add_out].
    rewrite H. exact Hfs. }
  destruct (update_current_file_succeeds env ids w4 doc Hfs4 Hd H1 H2 H3 H4)
    as (w5 & Hu).
  pose proof (apply_backends_after_success env ids w4 w5 Hu) as Hb.
  pose proof (keeps_apply_backends env ids w4) as [_ _ Hstdin _].
  destruct (apply_backends env ids w4) as [r w']. cbn [fst snd] in *. subst r.
  exists w'. split; [reflexivity|]. rewrite Hstdin. reflexivity.
Qed.

Lemma json_store_decides_success_witness :
  exists w',
    reset_machine_ids env_only_json_works world_three_files = (Ret true, w') /\
    stdin w' = ["left over"].
Proof.
  apply (json_store_decides_success env_only_json_works world_three_files
           (Some false, None) doc_unrelated "Y" ["left over"]).
  - vm_compute. reflexivity.
  - discriminate.
  - vm_compute. reflexivity.
  - apply (bool_decide_unpack _). vm_compute. exact I.
  - reflexivity.
  - by right.
  - reflexivity.
Defined.

(** ** The verdict of the running-process check *)

(** *** What the string methods compute *)

Lemma startswith_spec p s : startswith p s = true <-> exists b, s = p ++ b.
Proof.
  revert s. induction p as [|a p IH]; intros s; cbn [startswith app].
  - split; [eauto|done].
  - destruct s as [|b s].
    + split; [done|]. by intros (? & ?).
    + rewrite andb_true_iff, N.eqb_eq, IH. split.
      * intros (-> & t & ->). eauto.
      * intros (t & H). simplify_eq. eauto.
Qed.

Lemma contains_spec sub s : contains sub s = true <-> mentions sub s.
Proof.
  unfold mentions. induction s as [|c s IH]; cbn [contains].
  - rewrite orb_false_r, startswith_spec. split.
    + intros (b & ->). by exists [], b.
    + intros (a & b & H). symmetry in H.
      apply app_eq_nil in H as (-> & H). apply app_eq_nil in H as (-> & ->).
      by exists [].
  - rewrite orb_true_iff, startswith_spec, IH. split.
    + intros [(b & ->)|(a & b & ->)]; [by exists [], b|by exists (c :: a), b].
    + intros ([|c' a] & b & H); cbn in H.
      * left. eauto.
      * right. simplify_eq. eauto.
Qed.

Lemma lstrip_by_decomp f s :
  exists a, s = a ++ lstrip_by f s /\ Forall (fun c => f c = true) a.
Proof.
  induction s as [|c s (a & IH & Ha)]; cbn [lstrip_by]; [by exists []|].
  destruct (f c) eqn:E; [|by exists []].
  exists (c :: a). split; [by rewrite IH at 1|by constructor].
Qed.

Lemma rstrip_by_decomp f s :
  exists b, s = rstrip_by f s ++ b /\ Forall (fun c => f c = true) b.
Proof.
  induction s as [|c s (b & IH & Hb)]; cbn [rstrip_by]; [by exists []|].
  destruct (rstrip_by f s) as [|c' t] eqn:E.
  - cbn [app] in IH. subst b. destruct (f c) eqn:Ec.
    + exists (c :: s). split; [done|by constructor].
    + by exists s.
  - exists b. split; [by rewrite IH at 1|done].
Qed.

Lemma lstrip_by_blank_app f a s :
  Forall (fun c => f c = true) a -> lstrip_by f (a ++ s) = lstrip_by f s.
Proof. induction 1 as [|c a Hc _ IH]; cbn [lstrip_by app]; [done|by rewrite Hc]. Qed.

Lemma lstrip_by_app_r f t b :
  lstrip_by f t <> [] -> lstrip_by f (t ++ b) = lstrip_by f t ++ b.
Proof.
  induction t as [|c t IH]; cbn [lstrip_by app]; [done|].
  destruct (f c); [exact IH|done].
Qed.

Lemma rstrip_by_blank f b : Forall (fun c => f c = true) b -> rstrip_by f b = [].
Proof. induction 1 as [|c b Hc _ IH]; cbn [rstrip_by]; [done|by rewrite IH, Hc]. Qed.

Lemma rstrip_by_app_blank f t b :
  Forall (fun c => f c = true) b -> rstrip_by f (t ++ b) = rstrip_by f t.
Proof.
  intros Hb. induction t as [|c t IH]; cbn [rstrip_by app].
  - by apply rstrip_by_blank.
  - by rewrite IH.
Qed.

Lemma rstrip_by_keeps_prefix f p s :
  Forall (fun c => f c = false) p -> rstrip_by f (p ++ s) = p ++ rstrip_by f s.
Proof.
  induction 1 as [|c p Hc _ IH]; cbn [rstrip_by app]; [done|].
  rewrite IH, Hc. by destruct (p ++ rstrip_by f s).
Qed.

Lemma strip_blank s : strip s = [] <-> blank s.
Proof.
  unfold strip, blank.
  destruct (lstrip_by_decomp is_space s) as (a & Hs & Ha).
  destruct (rstrip_by_decomp is_space (lstrip_by is_space s)) as (b & Hl & Hb).
  split.
  - intros E. rewrite E in Hl. cbn [app] in Hl. rewrite Hs, Hl.
    by apply Forall_app.
  - intros H. rewrite Hs in H. apply Forall_app in H as (_ & H).
    by apply rstrip_by_blank.
Qed.

Lemma strip_bare t s : strip t = t -> t <> [] -> strip s = t <-> bare t s.
Proof.
  unfold strip, bare, blank. intros Ht Hne. split.
  - intros E.
    destruct (lstrip_by_decomp is_space s) as (a & Hs & Ha).
    destruct (rstrip_by_decomp is_space (lstrip_by is_space s)) as (b & Hl & Hb).
    rewrite E in Hl. exists a, b. by rewrite <- Hl.
  - intros (a & b & -> & Ha & Hb).
    rewrite (lstrip_by_blank_app _ _ _ Ha).
    assert (lstrip_by is_space t <> []) as Hl.
    { intros E. rewrite E in Ht. cbn in Ht. congruence. }
    by rewrite (lstrip_by_app_r _ _ _ Hl), (rstrip_by_app_blank _ _ _ Hb).
Qed.

Lemma split_aux_nonempty sep s k cur : split_aux sep s k cur <> [].
Proof.
  revert k cur. induction s as [|c s IH]; intros k cur; cbn [split_aux]; [done|].
  destruct k; [|apply IH]. destruct (startswith sep (c :: s)); [done|apply IH].
Qed.

(** The first piece of a split at newlines is what stands before the first
    newline. *)
Lemma split_first_line p tail cur :
  Forall (fun c => c <> 10%N) p -> (tail = [] \/ exists t, tail = 10%N :: t) ->
  hd [] (split_aux nl (p ++ tail) 0 cur) = cur ++ p.
Proof.
  intros Hp Ht. revert cur.
  induction Hp as [|c p Hc _ IH]; intros cur; cbn [app].
  - rewrite app_nil_r. by destruct Ht as [->|(t & ->)].
  - cbn [split_aux nl startswith].
    destruct (N.eqb_spec 10 c) as [?|_]; [by subst|]. cbn [andb].
    by rewrite IH, <- app_assoc.
Qed.

(** *** What [int] reads *)

Lemma digit_of_Some c d :
  digit_of c = Some d ->
  (c = 48 \/ c = 49 \/ c = 50 \/ c = 51 \/ c = 52 \/ c = 53 \/ c = 54 \/
   c = 55 \/ c = 56 \/ c = 57)%N.
Proof.
  unfold digit_of. destruct (_ && _) eqn:E; [|done]. intros _.
  apply andb_true_iff in E as (H1 & H2).
  apply N.leb_le in H1, H2. lia.
Qed.

Lemma digit_char d :
  (d < 10)%N ->
  digit_of (0x30 + d) = Some (Z.of_N d) /\ is_space (0x30 + d) = false /\
  (0x30 + d <? 128)%N = true /\ (0x30 + d)%N <> 10%N.
Proof.
  intros Hd.
  assert (d = 0 \/ d = 1 \/ d = 2 \/ d = 3 \/ d = 4 \/ d = 5 \/ d = 6 \/
          d = 7 \/ d = 8 \/ d = 9)%N as H by lia.
  repeat (destruct H as [->|H]; [by vm_compute|]). subst. by vm_compute.
Qed.

(** After a digit there is no whitespace to skip, no sign and no leading
    underscore: [int] goes straight to the scan. *)
Lemma long_from_string_digit py c d s :
  digit_of c = Some d ->
  long_from_string py (c :: s) =
    match scan_digits (c :: s) 0 0 false with
    | None => None
    | Some (value, digits, rest) =>
        if (digits =? 0)%N then None
        else if over_digit_limit py digits then None
        else
          match lstrip_by is_c_space rest with
          | [] => Some value
          | _ :: _ => None
          end
    end.
Proof.
  intros H. apply digit_of_Some in H.
  repeat (destruct H as [->|H]; [reflexivity|]). subst. reflexivity.
Qed.

Lemma scan_digits_numeral ds acc n :
  Forall (fun d => (d < 10)%N) ds ->
  scan_digits (numeral ds) acc n false =
    Some (foldl (fun n d => (10 * n + Z.of_N d)%Z) acc ds,
          (n + N.of_nat (List.length ds))%N, []).
Proof.
  intros Hds. revert acc n.
  induction Hds as [|d ds Hd _ IH]; intros acc n; cbn [numeral fmap list_fmap].
  - cbn. by rewrite N.add_0_r.
  - cbn [scan_digits]. destruct (digit_char d Hd) as (-> & _).
    fold (numeral ds). rewrite IH. cbn [foldl List.length]. do 3 f_equal. lia.
Qed.

(** [int] reads a numeral as the number it denotes, unless the numeral is
    longer than the interpreter allows. *)
Lemma int_numeral py ds :
  ds <> [] -> Forall (fun d => (d < 10)%N) ds ->
  int py (numeral ds) =
    if over_digit_limit py (N.of_nat (List.length ds)) then None
    else Some (number ds).
Proof.
  intros Hne Hds. unfold int, to_ascii_decimal.
  assert (forallb (fun c => (c <? 128)%N) (numeral ds) = true) as ->.
  { clear Hne. induction Hds as [|d ds Hd _ IH]; [done|].
    cbn [numeral fmap list_fmap forallb].
    by destruct (digit_char d Hd) as (_ & _ & -> & _). }
  pose proof (scan_digits_numeral ds 0 0 Hds) as Hscan.
  destruct ds as [|d ds]; [done|].
  assert (Hd : (d < 10)%N) by (by inversion Hds).
  destruct (digit_char d Hd) as (Hdig & _).
  change (numeral (d :: ds)) with ((0x30 + d)%N :: numeral ds) in *.
  rewrite (long_from_string_digit py _ _ _ Hdig), Hscan.
  rewrite N.add_0_l. cbn [lstrip_by List.length].
  destruct (N.eqb_spec (N.of_nat (S (List.length ds))) 0) as [E|_]; [lia|].
  reflexivity.
Qed.

(** *** The verdict *)

(** X14: on macOS and Linux, when [import subprocess] succeeds and
    [pgrep] completes, the check answers "running" exactly when the exit
    status is 0 and the output is not blank, and never answers unknown.  The
    process id it then reports is what [int] reads in the first line of
    the stripped output.  In particular, when the output begins with a
    decimal numeral on a line of its own, the process id is the number the
    numeral denotes, or none when the numeral has more digits than the
    interpreter allows.  The world is not touched. *)
Theorem pgrep_verdict env w rc out :
  fault env ImportSubprocess = None ->
  String.eqb (platform env) "win32" = false ->
  pgrep env = ToolDone rc out ->
  exists running pid,
    check_cursor_running env w = (Ret (Some running, pid), w) /\
    (running = true <-> rc = 0%Z /\ ~ blank out) /\
    pid = (if running then int (python env) (hd [] (Py.split nl (strip out)))
           else None) /\
    (forall ds rest,
       rc = 0%Z -> ds <> [] -> Forall (fun d => (d < 10)%N) ds ->
       out = numeral ds ++ rest -> (rest = [] \/ exists t, rest = 10%N :: t) ->
       running = true /\
       pid = if over_digit_limit (python env) (N.of_nat (List.length ds))
             then None else Some (number ds)).
Proof.
  intros Hi Hp Hg.
  set (running := (rc =? 0)%Z && negb (bool_decide (strip out = []))).
  set (pid := if running then int (python env) (hd [] (Py.split nl (strip out)))
              else None).
  assert (check_cursor_running env w = (Ret (Some running, pid), w)) as Hrun.
  { unfold check_cursor_running, check_pgrep, except_subprocess, import_subprocess,
      attempt, run_tool.
    rewrite Hi, Hp, Hg. subst pid running.
    pose proof (split_aux_nonempty nl (strip out) 0 []) as Hne.
    fold (Py.split nl (strip out)) in Hne.
    destruct (String.eqb (platform env) "darwin"); run_m;
      destruct ((rc =? 0)%Z && negb (bool_decide (strip out = []))); run_m;
      try reflexivity;
      destruct (Py.split nl (strip out)) as [|first rest]; try done; cbn [hd];
      destruct (int (python env) first); reflexivity. }
  assert (running = true <-> rc = 0%Z /\ ~ blank out) as Hiff.
  { subst running. rewrite andb_true_iff, Z.eqb_eq, negb_true_iff,
      bool_decide_eq_false, strip_blank. done. }
  exists running, pid. split; [exact Hrun|]. split; [exact Hiff|].
  split; [reflexivity|].
  intros ds rest Hrc Hne Hds -> Hrest.
  assert (Forall (fun c => is_space c = false) (numeral ds)) as Hns.
  { unfold numeral. apply Forall_fmap. eapply Forall_impl; [exact Hds|].
    intros d Hd. cbn. by destruct (digit_char d Hd) as (_ & -> & _). }
  assert (Forall (fun c => c <> 10%N) (numeral ds)) as Hnl.
  { unfold numeral. apply Forall_fmap. eapply Forall_impl; [exact Hds|].
    intros d Hd. cbn. by destruct (digit_char d Hd) as (_ & _ & _ & ?). }
  assert (strip (numeral ds ++ rest) = numeral ds ++ rstrip_by is_space rest) as Hs.
  { unfold strip. destruct ds as [|d ds]; [done|].
    change (numeral (d :: ds)) with ((0x30 + d)%N :: numeral ds) in *.
    pose proof (Forall_inv Hns) as Hd. cbn beta in Hd.
    cbn [app lstrip_by]. rewrite Hd.
    change ((0x30 + d)%N :: numeral ds ++ rest)
      with (((0x30 + d)%N :: numeral ds) ++ rest).
    by apply rstrip_by_keeps_prefix. }
  assert (running = true) as Hr.
  { apply Hiff. split; [done|]. intros Hb. apply strip_blank in Hb.
    rewrite Hs in Hb. destruct ds; [done|discriminate]. }
  split; [exact Hr|]. subst pid. rewrite Hr, Hs. unfold Py.split.
  rewrite split_first_line; [by apply int_numeral|exact Hnl|].
  destruct Hrest as [->|(t & ->)]; [by left|]. cbn [rstrip_by].
  destruct (rstrip_by is_space t); [by left|right; eauto].
Qed.

Lemma pgrep_verdict_witness :
  check_cursor_running env_pgrep_two (world_of ∅ []) =
    (Ret (Some true, Some 4711%Z), world_of ∅ []).
Proof.
  destruct (pgrep_verdict env_pgrep_two (world_of ∅ []) 0
              (lit "4711" ++ nl ++ lit "4712" ++ nl) eq_refl eq_refl eq_refl)
    as (running & pid & Hrun & _ & _ & H).
  destruct (H [4; 7; 1; 1]%N (nl ++ lit "4712" ++ nl)) as (-> & ->);
    [reflexivity|discriminate|repeat constructor|reflexivity|right; by eexists|].
  exact Hrun.
Defined.

(** X15: on Windows, when [import subprocess] succeeds, the check
    trusts the output of [tasklist] and ignores its exit status: when
    [tasklist] completes, the answer is "running" exactly when the output
    mentions [Cursor.exe], and [wmic] is not consulted.  [wmic] decides only
    when [tasklist] raised: it never yields a process id, and it means
    "running" exactly when its output mentions [ProcessId] without being
    that bare header with whitespace around it.  The check never answers
    unknown here, and the world is not touched. *)
Theorem windows_verdict env w :
  fault env ImportSubprocess = None ->
  String.eqb (platform env) "win32" = true ->
  exists running pid,
    check_cursor_running env w = (Ret (Some running, pid), w) /\
    (forall rc out, tasklist env = ToolDone rc out ->
       (running = true <-> mentions (lit "Cursor.exe") out)) /\
    (forall e rc out, tasklist env = ToolRaises e -> wmic env = ToolDone rc out ->
       pid = None /\
       (running = true <->
        mentions (lit "ProcessId") out /\ ~ bare (lit "ProcessId") out)).
Proof.
  intros Hi Hp.
  unfold check_cursor_running, check_tasklist, check_wmic, except_subprocess,
    import_subprocess, attempt, run_tool.
  rewrite Hi, Hp.
  destruct (tasklist env) as [e|rc out]; run_m.
  - destruct (wmic env) as [e'|rc out]; run_m.
    + eexists _, _. split; [reflexivity|]. split; intros; simplify_eq.
    + pose proof (contains_spec (lit "ProcessId") out) as Hc.
      pose proof (strip_bare (lit "ProcessId") out eq_refl) as Hb.
      destruct (contains (lit "ProcessId") out &&
                negb (bool_decide (strip out = lit "ProcessId"))) eqn:E; run_m;
        eexists _, _; (split; [reflexivity|]); (split; [intros; simplify_eq|]);
        intros ? ? ? ? ?; simplify_eq; (split; [reflexivity|]).
      * apply andb_true_iff in E as (E1 & E2).
        apply negb_true_iff, bool_decide_eq_false in E2.
        split; [intros _|done]. split; [by apply Hc|]. by rewrite <- Hb.
      * split; [done|]. intros (H1 & H2). apply Hc in H1. rewrite <- Hb in H2 by done.
        rewrite H1 in E. cbn [andb] in E.
        apply negb_false_iff, bool_decide_eq_true in E. done.
  - pose proof (contains_spec (lit "Cursor.exe") out) as Hc.
    destruct (contains (lit "Cursor.exe") out) eqn:E; run_m.
    2: { eexists _, _. split; [reflexivity|]. split; intros; simplify_eq.
         split; [done|]. intros H. apply Hc in H. done. }
    exec; eexists _, _; (split; [reflexivity|]); split; intros; simplify_eq;
      (split; [intros _; by apply Hc|done]).
Qed.

Lemma windows_verdict_witness :
  exists pid,
    check_cursor_running env_tasklist_error (world_of ∅ []) =
      (Ret (Some true, pid), world_of ∅ []).
Proof.
  destruct (windows_verdict env_tasklist_error (world_of ∅ []) eq_refl eq_refl)
    as (running & pid & Hrun & Ht & _).
  exists pid.
  assert (running = true) as <-; [|exact Hrun].
  apply (Ht 1%Z (lit "ERROR: Cursor.exe") eq_refl).
  by exists (lit "ERROR: "), [].
Defined.

(** ** The version and variant of the generated identifiers *)

Lemma get_string_of_list_ascii l i : String.get i (string_of_list_ascii l) = l !! i.
Proof.
  revert i. induction l as [|c l IH]; intros [|i]; cbn; auto.
Qed.

Lemma hex_digits_lookup k n i :
  (i < k)%nat ->
  hex_digits k n !! i = Some (hex_digit ((n / 16 ^ Z.of_nat (k - 1 - i)) mod 16)).
Proof.
  revert n i. induction k as [|k IH]; intros n i Hi; [lia|].
  cbn [hex_digits]. destruct (decide (i < k)%nat) as [Hlt|Hge].
  - rewrite lookup_app_l by (rewrite hex_digits_length; lia).
    rewrite IH by lia. do 2 f_equal.
    rewrite Z.div_div by lia. f_equal.
    replace (S k - 1 - i)%nat with (S (k - 1 - i)) by lia.
    rewrite Nat2Z.inj_succ, Z.pow_succ_r by lia. reflexivity.
  - assert (i = k) as -> by lia.
    rewrite lookup_app_r by (rewrite hex_digits_length; lia).
    rewrite hex_digits_length. replace (k - k)%nat with 0%nat by lia.
    replace (S k - 1 - k)%nat with 0%nat by lia. cbn [lookup list_lookup].
    do 2 f_equal. rewrite Z.pow_0_r, Z.div_1_r. reflexivity.
Qed.

Lemma dashed_lookup h :
  List.length h = 32%nat ->
  dashed h !! 14%nat = h !! 12%nat /\ dashed h !! 19%nat = h !! 16%nat.
Proof.
  intros Hlen.
  do 32 (destruct h as [|? h]; [discriminate Hlen|]).
  destruct h; [|discriminate Hlen].
  split; reflexivity.
Qed.

Lemma uuid4_int_testbit r k :
  (0 <= k)%Z ->
  Z.testbit (uuid4_int r) k =
    ((Z.testbit (r mod 2 ^ 128) k && negb (Z.testbit (Z.shiftl 0xc000 48) k)
      || Z.testbit (Z.shiftl 0x8000 48) k)
     && negb (Z.testbit (Z.shiftl 0xf000 64) k)
     || Z.testbit (Z.shiftl 4 76) k).
Proof.
  intros Hk. unfold uuid4_int. cbn zeta.
  rewrite Z.lor_spec, Z.land_spec, Z.lnot_spec, Z.lor_spec, Z.land_spec, Z.lnot_spec
    by lia.
  reflexivity.
Qed.

Lemma nibble_bits x :
  (0 <= x < 16)%Z ->
  x = (Z.b2z (Z.testbit x 0) + 2 * Z.b2z (Z.testbit x 1) +
       4 * Z.b2z (Z.testbit x 2) + 8 * Z.b2z (Z.testbit x 3))%Z.
Proof.
  intros Hx. rewrite !Z.testbit_spec' by lia.
  change (2 ^ 0)%Z with 1%Z. change (2 ^ 1)%Z with 2%Z.
  change (2 ^ 2)%Z with 4%Z. change (2 ^ 3)%Z with 8%Z.
  Z.div_mod_to_equations. lia.
Qed.

Lemma nibble_testbit n s i :
  (0 <= s)%Z -> (0 <= i < 4)%Z ->
  Z.testbit ((n / 2 ^ s) mod 16) i = Z.testbit n (i + s).
Proof.
  intros Hs Hi. change 16%Z with (2 ^ 4)%Z.
  rewrite Z.mod_pow2_bits_low by lia. rewrite Z.div_pow2_bits by lia. reflexivity.
Qed.

Lemma uuid4_int_version r : ((uuid4_int r / 16 ^ 19) mod 16 = 4)%Z.
Proof.
  change (16 ^ 19)%Z with (2 ^ 76)%Z.
  rewrite (nibble_bits ((uuid4_int r / 2 ^ 76) mod 16)) by (apply Z.mod_pos_bound; lia).
  rewrite !nibble_testbit by lia. rewrite !uuid4_int_testbit by lia.
  generalize (Z.testbit (r mod 2 ^ 128) (0 + 76)), (Z.testbit (r mod 2 ^ 128) (1 + 76)),
    (Z.testbit (r mod 2 ^ 128) (2 + 76)), (Z.testbit (r mod 2 ^ 128) (3 + 76)).
  intros [] [] [] []; vm_compute; reflexivity.
Qed.

Lemma uuid4_int_variant r : (8 <= (uuid4_int r / 16 ^ 15) mod 16 < 12)%Z.
Proof.
  change (16 ^ 15)%Z with (2 ^ 60)%Z.
  rewrite (nibble_bits ((uuid4_int r / 2 ^ 60) mod 16)) by (apply Z.mod_pos_bound; lia).
  rewrite !nibble_testbit by lia. rewrite !uuid4_int_testbit by lia.
  generalize (Z.testbit (r mod 2 ^ 128) (0 + 60)), (Z.testbit (r mod 2 ^ 128) (1 + 60)),
    (Z.testbit (r mod 2 ^ 128) (2 + 60)), (Z.testbit (r mod 2 ^ 128) (3 + 60)).
  intros [] [] [] []; vm_compute; split; congruence.
Qed.

Lemma uuid_str_version_4 r : is_version_4 (uuid_str (uuid4_int r)) = true.
Proof.
  unfold is_version_4, uuid_str. rewrite !get_string_of_list_ascii.
  destruct (dashed_lookup (hex_digits 32 (uuid4_int r)) (hex_digits_length _ _))
    as [-> ->].
  rewrite !hex_digits_lookup by lia.
  change (Z.of_nat (32 - 1 - 12)) with 19%Z. change (Z.of_nat (32 - 1 - 16)) with 15%Z.
  rewrite uuid4_int_version.
  pose proof (uuid4_int_variant r) as Hv.
  assert ((uuid4_int r / 16 ^ 15) mod 16 = 8 \/ (uuid4_int r / 16 ^ 15) mod 16 = 9 \/
          (uuid4_int r / 16 ^ 15) mod 16 = 10 \/ (uuid4_int r / 16 ^ 15) mod 16 = 11)%Z
    as [-> | [-> | [-> | ->]]] by lia; reflexivity.
Qed.

(** X16: every identifier that [generate_new_ids] returns is the text
    of a random (version 4) UUID: its fifteenth character is 4 and its
    twentieth is 8, 9, a or b, whatever the random source delivers. *)
Theorem generated_ids_are_version_4 env w :
  exists ids w',
    generate_new_ids env w = (Ret ids, w') /\
    Forall (fun kv => is_version_4 (snd kv) = true) ids.
Proof.
  eexists _, _. split; [apply generate_new_ids_eq|].
  unfold new_ids, token. repeat constructor; apply uuid_str_version_4.
Qed.

(** ** The keys of the backup *)

Lemma storage_ids_keys d k : is_Some (storage_ids d !! k) <-> k ∈ ID_KEYS.
Proof.
  split.
  - intros [v Hv]. unfold storage_ids in Hv.
    apply elem_of_list_to_map_2 in Hv. apply list_elem_of_fmap in Hv as (k' & [= -> _] & Hk).
    exact Hk.
  - intros Hk. rewrite storage_ids_lookup by done. by eexists.
Qed.

Lemma select_keys_keys env rows keys cur cur' err k :
  select_keys env rows keys cur = (cur', err) ->
  (is_Some (cur !! k) -> is_Some (cur' !! k)) /\
  (is_Some (cur' !! k) -> is_Some (cur !! k) \/ k ∈ keys).
Proof.
  intros H. destruct (select_keys_entry env rows keys cur cur' err k H)
    as [Heq|(Hin & _ & Hsome & Heq)]; rewrite Heq.
  - split; auto.
  - split; auto.
Qed.

(** X17: a backup file, when [backup_current_ids] writes one, holds
    at least one key and none but the five identifier keys; it holds all
    five whenever the JSON store was opened and held an object, a key
    missing there and in the database being recorded as an empty string. *)
Theorem backup_holds_identifier_keys env w w' :
  backup_current_ids env w = (Ret true, w') ->
  exists backup,
    fs w' !! IdsBackup (now env TsIdsBackup) = Some (CJson (JObject backup)) /\
    backup <> ∅ /\
    (forall k, is_Some (backup !! k) -> k ∈ ID_KEYS) /\
    (forall d k,
       fs w !! StorageJson = Some (CJson (JObject d)) ->
       fault env BkOpenStorage = None ->
       k ∈ ID_KEYS ->
       is_Some (backup !! k) /\
       (d !! k = None -> item_rows (fs w !! StateVscdb) !! k = None ->
        backup !! k = Some (PStr EmptyString))).
Proof.
  unfold backup_current_ids. intros H.
  step_pure H. unfold try_except in H. step_pure H.
  set (w0 := add_out MBackingUpCurrent w) in *.
  destruct (read_storage_phase env (bool_decide (is_Some (fs w0 !! StorageJson))) w0)
    as (ids1 & w1 & Hph1 & Hfs1 & Hids1).
  assert (forall d, fs w !! StorageJson = Some (CJson (JObject d)) ->
                    fault env BkOpenStorage = None -> ids1 = storage_ids d) as Hok.
  { intros d Hd Hf. clear H. revert Hph1.
    rewrite bool_decide_eq_true_2 by (subst w0; cbn; rewrite Hd; by eexists).
    unfold read_storage_ids. run_m. rewrite Hf. subst w0. cbn [fs add_out].
    rewrite Hd. run_m. rewrite (right_id_L ∅ (∪)). congruence. }
  rewrite (bind_Ret _ _ _ _ _ Hph1) in H. step_pure H.
  assert (exists cur w2,
    (if bool_decide (is_Some (fs w1 !! StateVscdb))
     then read_sqlite_ids env ids1 else ret ids1) w1 = (Ret cur, w2) /\
    (cur = ids1 \/
     exists err, select_keys env (item_rows (fs w !! StateVscdb)) ID_KEYS ids1 = (cur, err)))
    as (cur & w2 & Hph2 & Hcur).
  { destruct (bool_decide _).
    - destruct (read_sqlite_phase env ids1 w1) as (cur & w2 & ? & _ & Hc).
      rewrite Hfs1 in Hc. eauto.
    - eexists _, _. split; [reflexivity|]. by left. }
  rewrite (bind_Ret _ _ _ _ _ Hph2) in H.
  exists cur.
  assert (fs w' !! IdsBackup (now env TsIdsBackup) = Some (CJson (JObject cur)) /\
          cur <> ∅) as [Hfile Hne].
  { clear -H. destruct (size cur =? 0)%nat eqn:Hsize.
    - run_m. simplify_eq.
    - split.
      + exec. apply lookup_insert_eq.
      + intros ->. rewrite map_size_empty in Hsize. discriminate. }
  split; [exact Hfile|]. split; [exact Hne|]. split.
  - intros k Hk.
    assert (is_Some (ids1 !! k) -> k ∈ ID_KEYS) as Hids.
    { destruct Hids1 as [->|(d & _ & ->)].
      - rewrite lookup_empty. by intros [? ?].
      - apply storage_ids_keys. }
    destruct Hcur as [->|[err Hsel]]; [by apply Hids|].
    destruct (select_keys_keys _ _ _ _ _ _ k Hsel) as [_ [?|?]]; auto.
  - intros d k Hd Hf Hk. rewrite (Hok d Hd Hf) in Hcur.
    assert (storage_ids d !! k = Some (default (PStr EmptyString) (d !! k))) as Hsk
      by (by apply storage_ids_lookup).
    destruct Hcur as [->|[err Hsel]].
    + split; [by eexists|]. intros Hnone _. by rewrite Hsk, Hnone.
    + destruct (select_keys_entry _ _ _ _ _ _ k Hsel) as [Heq|(_ & _ & Hrow & Heq)].
      * rewrite Heq, Hsk. split; [by eexists|]. intros Hnone _. by rewrite Hnone.
      * rewrite Heq. split; [exact Hrow|]. intros _ Hnone.
        rewrite Hnone in Hrow. by destruct Hrow.
Qed.

Lemma backup_holds_identifier_keys_witness :
  exists w' backup,
    backup_current_ids env_linux world_unrelated = (Ret true, w') /\
    fs w' !! IdsBackup (now env_linux TsIdsBackup) = Some (CJson (JObject backup)) /\
    backup !! MACHINE_ID = Some (PStr EmptyString) /\
    backup !! "unrelated.key" = None.
Proof.
  assert (fst (backup_current_ids env_linux world_unrelated) = Ret true) as Hfst
    by (vm_compute; reflexivity).
  destruct (backup_current_ids env_linux world_unrelated) as [r w'] eqn:Hrun.
  cbn [fst] in Hfst. subst r.
  destruct (backup_holds_identifier_keys env_linux world_unrelated w' Hrun)
    as (backup & Hfile & _ & Hkeys & Hall).
  exists w', backup. split; [reflexivity|]. split; [exact Hfile|]. split.
  - apply (Hall doc_unrelated MACHINE_ID); try reflexivity.
    apply (bool_decide_unpack _). vm_compute. exact I.
  - destruct (backup !! "unrelated.key") eqn:E; [|reflexivity].
    exfalso. assert ("unrelated.key" ∈ ID_KEYS) as Hin by (apply Hkeys; by eexists).
    revert Hin. apply (bool_decide_unpack _). vm_compute. exact I.
Defined.

(** ** The constructor and [run] *)

Lemma section_paths_inr config section r :
  section_paths config section = inr r ->
  has_section config section = true /\
  config_get config section "storage_path" = Some (db_path r) /\
  config_get config section "sqlite_path" = Some (sqlite_path r).
Proof.
  unfold section_paths. intros H.
  destruct (has_section config section); [|discriminate]. cbn [negb] in H.
  destruct (config_get config section "storage_path") as [storage|]; [|discriminate].
  destruct (config_get config section "sqlite_path") as [sqlite|]; [|discriminate].
  by simplify_eq.
Qed.

(** X18: the constructor takes both paths from the one section that
    belongs to the host's platform: [WindowsPaths] on Windows, and only
    when [APPDATA] is set, [MacPaths] on macOS, [ArchPaths] on a Linux that
    has [/etc/arch-release], [LinuxPaths] on any other Linux.  No other
    section is a fallback, and no other platform is accepted. *)
Theorem constructor_reads_platform_section h c r :
  __init__ h (Some c) = inr r ->
  exists section,
    ((platform (host_env h) = "win32" /\ is_Some (appdata h) /\
      section = "WindowsPaths") \/
     (platform (host_env h) = "darwin" /\ section = "MacPaths") \/
     (platform (host_env h) = "linux" /\ arch_release h = true /\
      section = "ArchPaths") \/
     (platform (host_env h) = "linux" /\ arch_release h = false /\
      section = "LinuxPaths")) /\
    has_section c section = true /\
    config_get c section "storage_path" = Some (db_path r) /\
    config_get c section "sqlite_path" = Some (sqlite_path r).
Proof.
  unfold __init__, is_arch_linux. intros H.
  destruct (String.eqb (platform (host_env h)) "win32") eqn:Ew.
  { apply String.eqb_eq in Ew. destruct (appdata h) eqn:Ea; [|discriminate].
    exists "WindowsPaths". split; [|by apply section_paths_inr].
    left. repeat split; eauto. }
  destruct (String.eqb (platform (host_env h)) "darwin") eqn:Ed.
  { apply String.eqb_eq in Ed. exists "MacPaths".
    split; [|by apply section_paths_inr]. right. left. eauto. }
  destruct (String.eqb (platform (host_env h)) "linux") eqn:El; cbn [negb] in H;
    [|discriminate].
  apply String.eqb_eq in El.
  destruct (arch_release h) eqn:Er.
  - exists "ArchPaths". split; [|by apply section_paths_inr]. right. right. left. eauto.
  - exists "LinuxPaths". split; [|by apply section_paths_inr]. right. right. right. eauto.
Qed.

Lemma constructor_reads_platform_section_witness :
  __init__ host_linux (get_config host_linux) =
    inr (mkMachineIDResetter "/home/u/storage.json" "/home/u/state.vscdb") /\
  __init__ host_arch (get_config host_arch) = inl (ConfigError (Some "ArchPaths")).
Proof.
  split; [|vm_compute; reflexivity].
  destruct (__init__ host_linux (Some config_linux_only)) as [e|r] eqn:E;
    [vm_compute in E; discriminate|].
  destruct (constructor_reads_platform_section host_linux config_linux_only r E)
    as (section & [(Hp & _)|[(Hp & _)|[(_ & Ha & _)|(_ & _ & ->)]]] & _ & Hs & Hq);
    try discriminate.
  cbn [get_config host_linux]. rewrite E. destruct r as [s q]. cbn in Hs, Hq.
  vm_compute in Hs, Hq. congruence.
Defined.



(** ** The success line *)

Lemma says_nothing_set_stdin m0 l w : says_nothing_of m0 w (set_stdin l w).
Proof. exists []. cbn. rewrite app_nil_r. split; [done|]. apply not_elem_of_nil. Qed.

Ltac solve_says :=
  repeat first
    [ apply says_nothing_refl
    | eapply says_nothing_trans;
      [|first [ by apply says_nothing_add_out | apply says_nothing_set_stdin ]] ].

Lemma ends_in_success_after m0 w w1 w' :
  says_nothing_of m0 w w1 -> ends_in_success w1 w' -> ends_in_success w w'.
Proof.
  intros (l1 & H1 & _) (l & H). exists (l1 ++ l). by rewrite H, H1, <- !app_assoc.
Qed.

Lemma step_out {A} P Q (c : M A) w :
  keeps P Q c -> returns c ->
  exists a w1 l, c w = (Ret a, w1) /\ stdout w1 = stdout w ++ l /\ Forall Q l.
Proof.
  intros Hk Hr. destruct (Hr w) as [a Ha]. specialize (Hk w).
  destruct (c w) as [r w1]. cbn [fst snd] in *. subst r.
  destruct Hk as [_ (l & Hl & HQ) _ _]. eauto 10.
Qed.

(** What [apply_backends] prints, by its answer. *)
Lemma apply_backends_output env ids w :
  exists b w',
    apply_backends env ids w = (Ret b, w') /\
    ((b = false /\ says_nothing_of MSuccess w w') \/
     (b = true /\ ends_in_success w w')).
Proof.
  unfold apply_backends.
  destruct (step_out _ _ _ w (keeps_update_current_file env ids)
              (returns_update_current_file env ids)) as (ok & w1 & l1 & H1 & Hl1 & HQ1).
  rewrite (bind_Ret _ _ _ _ _ H1). destruct ok; cbn [negb].
  2: { exists false, w1. split; [reflexivity|]. left. split; [done|].
       exists l1. split; [done|]. intros Hin. rewrite Forall_forall in HQ1.
       by specialize (HQ1 _ Hin). }
  destruct (step_out _ _ _ w1 (keeps_update_sqlite_db env ids)
              (returns_update_sqlite_db env ids)) as (b2 & w2 & l2 & H2 & Hl2 & _).
  rewrite (bind_Ret _ _ _ _ _ H2).
  destruct (step_out _ _ _ w2
              (keeps_update_machine_id_file env (ids_get ids DEV_DEVICE_ID))
              (returns_update_machine_id_file env (ids_get ids DEV_DEVICE_ID)))
    as (b3 & w3 & l3 & H3 & Hl3 & _).
  rewrite (bind_Ret _ _ _ _ _ H3).
  destruct (step_out _ _ _ w3 (keeps_update_system_ids env ids)
              (returns_update_system_ids env ids)) as (b4 & w4 & l4 & H4 & Hl4 & _).
  rewrite (bind_Ret _ _ _ _ _ H4).
  rewrite (bind_Ret (print _) _ _ _ _ eq_refl).
  rewrite (bind_Ret (print _) _ _ _ _ eq_refl).
  eexists true, _. split; [reflexivity|]. right. split; [done|].
  exists (l1 ++ l2 ++ l3 ++ l4). cbn [stdout add_out].
  rewrite Hl4, Hl3, Hl2, Hl1, <- !app_assoc. reflexivity.
Qed.

(** What a whole run prints, by its answer. *)
Lemma reset_machine_ids_output env w :
  exists b w',
    reset_machine_ids env w = (Ret b, w') /\
    ((b = false /\ says_nothing_of MSuccess w w') \/
     (b = true /\ ends_in_success w w')).
Proof.
  unfold reset_machine_ids, try_except.
  rewrite (bind_Ret (print _) _ _ _ _ eq_refl).
  set (w0 := add_out MStarting w).
  assert (says_nothing_of MSuccess w w0) as H0 by (by apply says_nothing_add_out).
  destruct (check_cursor_running_returns env w0) as (v & Hv & _).
  rewrite (bind_Ret _ _ _ _ _ Hv). unfold reset_after_check.
  assert (forall W, says_nothing_of MSuccess w W ->
    exists b w',
      (let (o, w') :=
         (has_storage <- path_exists StorageJson ;;
          has_sqlite <- path_exists StateVscdb ;;
          has_machine_id <- path_exists MachineIdFile ;;
          if negb has_storage && negb has_sqlite && negb has_machine_id
          then
            print MFilesNotFound ;; print MExpectedPaths ;;
            print (MExpectedPath StorageJson) ;; print (MExpectedPath StateVscdb) ;;
            print (MExpectedPath MachineIdFile) ;; ret false
          else backup_generate_confirm env) W in
       match o with
       | Ret a => (Ret a, w')
       | Raise _ => (print MProcessError ;; ret false) w'
       end) = (Ret b, w') /\
      ((b = false /\ says_nothing_of MSuccess w w') \/
       (b = true /\ ends_in_success w w'))) as Hrest.
  { intros W HW. do 3 step_goal.
    destruct (negb _ && negb _ && negb _).
    - run_m. eexists false, _. split; [reflexivity|]. left. split; [done|].
      eapply says_nothing_trans; [exact HW|].
      exists [MFilesNotFound; MExpectedPaths; MExpectedPath StorageJson;
              MExpectedPath StateVscdb; MExpectedPath MachineIdFile].
      cbn. rewrite <- !app_assoc. split; [done|]. set_solver.
    - destruct (confirm_prefix env W)
        as (w3 & j & -> & _ & _ & _ & _ & _ & Ho).
      assert (says_nothing_of MSuccess w w3) as H3
        by (eapply says_nothing_trans; eauto).
      unfold confirm_then_apply, input. run_m.
      destruct (stdin w3) as [|a rest]; run_m.
      + eexists false, _. split; [reflexivity|]. left. split; [done|].
        eapply says_nothing_trans; [exact H3|]. solve_says.
      + destruct (String.eqb (lower a) "y"); run_m.
        * set (w4 := set_stdin rest (add_out MPromptConfirm w3)).
          assert (says_nothing_of MSuccess w w4) as H4
            by (eapply says_nothing_trans; [exact H3|]; subst w4; solve_says).
          destruct (apply_backends_output env (new_ids env (drawn W)) w4)
            as (b & w' & -> & [[-> Hs]|[-> He]]).
          -- exists false, w'. split; [reflexivity|]. left. split; [done|].
             by eapply says_nothing_trans.
          -- exists true, w'. split; [reflexivity|]. right. split; [done|].
             by eapply ends_in_success_after.
        * eexists false, _. split; [reflexivity|]. left. split; [done|].
          eapply says_nothing_trans; [exact H3|]. solve_says. }
  destruct (running_gate_cases v w0) as [[_ Hr]|[_ Hr]].
  - rewrite (bind_Ret _ _ _ _ _ Hr). cbn [negb]. by apply Hrest.
  - cbn zeta in Hr. destruct (stdin w0) as [|a rest].
    + rewrite (bind_Raise _ _ _ _ _ Hr). run_m.
      eexists false, _. split; [reflexivity|]. left. split; [done|].
      eapply says_nothing_trans; [exact H0|]. solve_says.
    + destruct (String.eqb (lower a) "y").
      * rewrite (bind_Ret _ _ _ _ _ Hr). cbn [negb]. apply Hrest.
        eapply says_nothing_trans; [exact H0|]. solve_says.
      * rewrite (bind_Ret _ _ _ _ _ Hr). cbn [negb]. run_m.
        eexists false, _. split; [reflexivity|]. left. split; [done|].
        eapply says_nothing_trans; [exact H0|]. solve_says.
Qed.

(** X20: a run of [reset_machine_ids] prints its success line exactly
    when it answers [True]: the line is among what the run printed if and
    only if the answer is [True], and it is then followed by the request to
    restart the editor, which ends the output. *)
Theorem success_line_iff_true env w :
  let r := reset_machine_ids env w in
  exists out,
    stdout (snd r) = stdout w ++ out /\
    (MSuccess ∈ out <-> fst r = Ret true) /\
    (fst r = Ret true -> exists l, out = l ++ [MSuccess; MRestartCursor]).
Proof.
  cbn zeta.
  destruct (reset_machine_ids_output env w) as (b & w' & -> & [[-> Hs]|[-> He]]);
    cbn [fst snd].
  - destruct Hs as (l & Hl & Hn). exists l. split; [done|]. split; [|done].
    split; [done|discriminate].
  - destruct He as (l & Hl). exists (l ++ [MSuccess; MRestartCursor]).
    split; [done|]. split; [|eauto]. split; [done|]. intros _. set_solver.
Qed.
